(** * Soulbound Signature: document lifecycle, field signing and payment gate

    A shallow embedding of the backend of the e-signature service:
    - [db/schema.ts]       the five relations and their queries   (Module [Db])
    - [services/kyc-lookup.ts] the identity oracle adapter       (Module [Kyc])
    - [middleware/x402.ts] the payment challenge protocol         (Module [X402])
    - [services/document.ts] the document lifecycle manager       (Module [DocumentService])
    - [routes/signing.ts]  the field signing engine               (Module [SigningRoutes])
    - [routes/documents.ts] the document routes                   (Module [DocumentRoutes])

    The relational store is a record of row lists (insertion order kept,
    duplicates possible); every [pool.query] becomes a function on it.
    Express handlers are functions from the store and the request to the
    new store and the response that was sent.  External collaborators
    (facilitator, chain indexer, PDF library, identifier generator) are
    fields of the class [Env], and so are the string primitives of the
    runtime whose result depends on its Unicode tables.  Texts are held
    as their UTF-8 bytes.  The store accepts every statement: CHECK,
    UNIQUE and column-width violations and connection failures are
    outside the model (the one refusal kept is the NOT NULL owner column
    in [createDocument]), and so the handlers' outer [catch] blocks
    (status 500) are reached only where the model says that something
    throws.  The properties below are therefore stated on the answers
    that the handlers send themselves: what a call answered 200 has
    done, and what a refusal of the 4xx class has left alone. *)

From Stdlib Require Import String Ascii List ZArith Bool Lia QArith_base DecimalString.
Import ListNotations.
Local Close Scope Q_scope.
Local Open Scope string_scope.
Local Open Scope list_scope.

Infix "+++" := String.append (right associativity, at level 60).

(** ** JavaScript conventions used by the handlers *)

Module Js.

(** Truthiness of an optional string: [undefined] and [''] are falsy. *)
Definition truthy (o : option string) : bool :=
  match o with
  | Some s => negb (String.eqb s "")
  | None => false
  end.

(** [a || b] on optional strings. *)
Definition or (a b : option string) : option string :=
  if truthy a then a else b.

(** [a || null], [a || undefined]. *)
Definition or_null (a : option string) : option string := or a None.

(** [a || 'literal']. *)
Definition or_str (a : option string) (d : string) : string :=
  match or a (Some d) with
  | Some s => s
  | None => d
  end.

Definition lower_ascii (c : ascii) : ascii :=
  let n := nat_of_ascii c in
  if (65 <=? n)%nat && (n <=? 90)%nat then ascii_of_nat (n + 32) else c.

(** [toLowerCase], [slice] and [trim] depend on the Unicode tables of the
    runtime and count UTF-16 code units; they are taken from the
    environment (see [Env]).  What they compute on ASCII text is written
    out here, for deployments whose texts are ASCII. *)
Fixpoint ascii_toLowerCase (s : string) : string :=
  match s with
  | EmptyString => EmptyString
  | String c r => String (lower_ascii c) (ascii_toLowerCase r)
  end.

Definition ascii_slice_to (n : nat) (s : string) : string := substring 0 n s.

Definition ascii_slice_last (n : nat) (s : string) : string :=
  substring (String.length s - n) n s.

(** [s.split(',')[0]] *)
Fixpoint before_comma (s : string) : string :=
  match s with
  | EmptyString => EmptyString
  | String c r => if Ascii.eqb c "," then EmptyString else String c (before_comma r)
  end.

Definition is_space (c : ascii) : bool :=
  let n := nat_of_ascii c in
  (n =? 32)%nat || ((9 <=? n)%nat && (n <=? 13)%nat).

Fixpoint trim_start (s : string) : string :=
  match s with
  | EmptyString => EmptyString
  | String c r => if is_space c then trim_start r else s
  end.

Fixpoint trim_end (s : string) : string :=
  match s with
  | EmptyString => EmptyString
  | String c r =>
      let r' := trim_end r in
      if is_space c && String.eqb r' "" then EmptyString else String c r'
  end.

Definition ascii_trim (s : string) : string := trim_end (trim_start s).

(** [xs.join(sep)] *)
Fixpoint join (sep : string) (xs : list string) : string :=
  match xs with
  | [] => ""
  | [x] => x
  | x :: rest => x +++ sep +++ join sep rest
  end.

Definition dquote : string := String (ascii_of_nat 34) EmptyString.

(** Texts are held as their UTF-8 bytes.  The UTF-16 code units a byte
    stands for: one for an ASCII byte and for the first byte of a two- or
    three-byte sequence, two for the first byte of a four-byte sequence (a
    surrogate pair), none for a continuation byte. *)
Definition utf16_units (c : ascii) : nat :=
  let n := nat_of_ascii c in
  if (n <? 128)%nat then 1
  else if (n <? 192)%nat then 0
  else if (n <? 240)%nat then 1
  else 2.

(** [s.length] *)
Fixpoint length (s : string) : nat :=
  match s with
  | EmptyString => 0
  | String c r => utf16_units c + length r
  end.


End Js.

(** ** Data model ([types/index.ts], [db/migrations]) *)

Definition timestamp := Z.
Definition number := Q.

Inductive DocumentStatus := st_draft | st_pending | st_completed | st_cancelled.
Inductive RecipientRole := signer | viewer | cc.
Inductive SigningStatus := sg_pending | sg_signed | sg_rejected.

Inductive FieldType :=
| ft_signature | ft_free_signature | ft_initial
| ft_name | ft_email | ft_date
| ft_text | ft_number
| ft_checkbox | ft_radio | ft_dropdown.

Inductive AuditEventType :=
| document_created | document_distributed | document_viewed
| field_signed | signing_completed | document_completed | document_cancelled.

Definition DocumentStatus_eqb (a b : DocumentStatus) : bool :=
  match a, b with
  | st_draft, st_draft | st_pending, st_pending
  | st_completed, st_completed | st_cancelled, st_cancelled => true
  | _, _ => false
  end.

Definition RecipientRole_eqb (a b : RecipientRole) : bool :=
  match a, b with
  | signer, signer | viewer, viewer | cc, cc => true
  | _, _ => false
  end.

Definition SigningStatus_eqb (a b : SigningStatus) : bool :=
  match a, b with
  | sg_pending, sg_pending | sg_signed, sg_signed | sg_rejected, sg_rejected => true
  | _, _ => false
  end.

(** The status as the error messages of the document routes print it. *)
Definition DocumentStatus_text (st : DocumentStatus) : string :=
  match st with
  | st_draft => "draft"
  | st_pending => "pending"
  | st_completed => "completed"
  | st_cancelled => "cancelled"
  end.

Record SignaturePackage := {
  pkg_id : string;
  pkg_title : string;
  pkg_status : DocumentStatus;
  pkg_owner_wallet_address : string;
  pkg_payment_tx_hash : option string;
  pkg_document_data : option string;
  pkg_document_html : option string;
  pkg_created_at : timestamp;
  pkg_updated_at : timestamp;
  pkg_completed_at : option timestamp
}.

Record RecipientInput := {
  in_walletAddress : option string;
  in_email : option string;
  in_name : string;
  in_role : option RecipientRole;
  in_signingOrder : option Z
}.

Record Recipient := {
  rcp_id : string;
  rcp_package_id : string;
  rcp_wallet_address : option string;
  rcp_email : option string;
  rcp_name : string;
  rcp_role : RecipientRole;
  rcp_signing_order : option Z;
  rcp_signing_status : SigningStatus;
  rcp_signed_at : option timestamp;
  rcp_ip_address : option string;
  rcp_user_agent : option string;
  rcp_token : string;
  rcp_created_at : timestamp
}.

Record FieldOption := {
  opt_id : option Z;
  opt_value : string;
  opt_checked : option bool
}.

Inductive TextAlign := align_left | align_center | align_right.
Inductive Direction := vertical | horizontal.

Record FieldMeta := {
  placeholder : option string;
  required : option bool;
  textAlign : option TextAlign;
  characterLimit : option Z;
  meta_min : option number;
  meta_max : option number;
  format : option string;
  values : option (list FieldOption);
  direction : option Direction;
  defaultValue : option string
}.

Record SignatureField := {
  fld_id : string;
  fld_package_id : string;
  fld_recipient_id : string;
  fld_field_type : FieldType;
  fld_page : Z;
  fld_position_x : number;
  fld_position_y : number;
  fld_width : number;
  fld_height : number;
  fld_value : option string;
  fld_field_meta : option FieldMeta;
  fld_inserted : bool
}.

Record Signature := {
  sig_id : string;
  sig_field_id : string;
  sig_recipient_id : string;
  sig_signature_image : option string;
  sig_typed_signature : option string;
  sig_kyc_verified_name : option string;
  sig_kyc_nft_address : option string;
  sig_wallet_signature : option string;
  sig_wallet_address : option string;
  sig_document_hash : option string;
  sig_signed_at : timestamp
}.

Record SignFieldRequest := {
  signatureImage : option string;
  typedSignature : option string;
  kycNftAddress : option string;
  verifiedName : option string;
  walletSignature : option string;
  walletAddress : option string;
  documentHash : option string;
  value : option string
}.

Record KYCVerifiedIdentity := {
  nftAddress : string;
  fullName : string;
  country : option string;
  verificationDate : timestamp
}.

(** Values of the free-form [metadata] objects written to the audit trail. *)
Inductive MetaValue :=
| MStr (s : string)
| MNum (n : Z)
| MBool (b : bool)
| MIsoDate (t : timestamp)
| MFieldType (t : FieldType).

Record AuditLog := {
  log_id : string;
  log_package_id : option string;
  log_event_type : AuditEventType;
  log_user_wallet : option string;
  log_user_email : option string;
  log_ip_address : option string;
  log_user_agent : option string;
  log_data : list (string * MetaValue);
  log_created_at : timestamp
}.

(** The [data] argument of [createAuditLog]. *)
Record AuditData := {
  userWallet : option string;
  userEmail : option string;
  ipAddress : option string;
  userAgent : option string;
  metadata : option (list (string * MetaValue))
}.

Definition no_audit_data : AuditData :=
  {| userWallet := None; userEmail := None; ipAddress := None;
     userAgent := None; metadata := None |}.

(** The [data] argument of [createSignature]. *)
Record SignatureData := {
  d_signatureImage : option string;
  d_typedSignature : option string;
  d_kycVerifiedName : option string;
  d_kycNftAddress : option string;
  d_walletSignature : option string;
  d_walletAddress : option string;
  d_documentHash : option string
}.

Definition no_signature_data : SignatureData :=
  {| d_signatureImage := None; d_typedSignature := None;
     d_kycVerifiedName := None; d_kycNftAddress := None;
     d_walletSignature := None; d_walletAddress := None;
     d_documentHash := None |}.

(** ** Payment types *)

Record PaymentRequirements := {
  scheme : string;
  network : string;
  amount : string;
  asset : string;
  payTo : string;
  maxTimeoutSeconds : Z;
  extra_sponsored : option bool
}.

Record ResourceInfo := {
  res_url : string;
  res_description : string;
  res_mimeType : string
}.

Record PaymentPayload := {
  pp_x402Version : Z;
  pp_resource : ResourceInfo;
  pp_accepted : PaymentRequirements;
  pp_transaction : string;
  pp_senderAuthenticator : option string
}.

Record PaymentInfo := {
  transactionHash : option string;
  payer : option string;
  pi_amount : string;
  pi_network : string
}.

Record PaymentRequired := {
  pr_x402Version : Z;
  pr_error : string;
  pr_resource : ResourceInfo;
  pr_accepts : list PaymentRequirements
}.

Record VerifyResult := {
  isValid : bool;
  vr_payer : option string;
  invalidReason : option string
}.

Record SettleResult := {
  success : bool;
  transaction : option string;
  sr_payer : option string;
  errorReason : option string
}.

(** What a call to the facilitator can come back with: the request
    throws, the body is not JSON, the body is the JSON value [null], or
    the body is another JSON value, whose properties read as [result] (a
    property the value does not have reads as false or undefined). *)
Inductive FetchResult (A : Type) :=
| RequestFailed
| NotJson (responseText : string)
| ParsedNull
| Parsed (result : A).
Arguments RequestFailed {A}.
Arguments NotJson {A} responseText.
Arguments ParsedNull {A}.
Arguments Parsed {A} result.

(** ** Configuration ([config/index.ts]) *)

Record Config := {
  x402_facilitatorUrl : string;
  x402_paymentRecipientAddress : string;
  x402_signaturePriceUsdc : string;
  x402_priceAtomic : string;
  x402_usdcAssetAddress : string;
  x402_network : string;
  kyc_collectionAddress : string;
  frontendUrl : string
}.

(** ** Tokens as the chain indexer returns them *)

Record TokenProperties := {
  kyc_status : option string;
  full_name : option string;
  prop_country : option string;
  verification_date : option timestamp
}.

Record TokenData := {
  collection_id : option string;
  token_properties : option TokenProperties
}.

Record OwnedToken := {
  token_data_id : option string;
  current_token_data : option TokenData
}.

(** ** The store *)

Record Store := {
  signature_packages : list SignaturePackage;
  recipients : list Recipient;
  signature_fields : list SignatureField;
  signatures : list Signature;
  audit_logs : list AuditLog;
  uuid_counter : nat
}.

Definition empty_store : Store :=
  {| signature_packages := []; recipients := []; signature_fields := [];
     signatures := []; audit_logs := []; uuid_counter := 0 |}.

(** A [<sig-field>] tag after the regular expressions and the numeric
    conversions of [parseAndCreateFieldsFromHtml] have been applied. *)
Record SigFieldTag := {
  tag_type : FieldType;
  tag_recipient : option Z;
  tag_width : number;
  tag_height : number;
  tag_meta : option FieldMeta
}.

(** ** External collaborators *)

Class Env := {
  config : Config;
  (** [String.prototype.toLowerCase] *)
  toLowerCase : string -> string;
  (** [s.slice(0, n)] and [s.slice(-n)] *)
  slice_to : nat -> string -> string;
  slice_last : nat -> string -> string;
  (** [String.prototype.trim] *)
  trim : string -> string;
  (** the n-th identifier handed out by [uuid_generate_v4()] / [uuidv4()] *)
  uuid : nat -> string;
  (** [aptos.getOwnedDigitalAssets]; [None] when the call throws *)
  getOwnedDigitalAssets : string -> option (list OwnedToken);
  (** [POST facilitatorUrl/verify] and [/settle] *)
  facilitator_verify : PaymentPayload -> PaymentRequirements -> FetchResult VerifyResult;
  facilitator_settle : PaymentPayload -> PaymentRequirements -> FetchResult SettleResult;
  (** [JSON.parse(Buffer.from(header, 'base64').toString('utf-8'))]; [None]
      when parsing, or reading the parsed payload, throws *)
  decodePaymentSignature : string -> option PaymentPayload;
  (** [Buffer.from(JSON.stringify(x)).toString('base64')] *)
  encodePaymentRequired : PaymentRequired -> string;
  encodeSettlementResponse : string -> string -> option string -> option string -> string;
  base64_decode : string -> string;
  base64_encode : string -> string;
  (** the PDF library; [None] when drawing throws *)
  renderFieldsOnPdf : Store -> string -> string -> option string;
  appendConfirmationPage : Store -> string -> string -> string -> option string;
  (** the [<sig-field>] tags of an HTML body, in document order *)
  parseSigFields : string -> list SigFieldTag
}.

(** ** [db/schema.ts] *)

Module Db.

Definition mem (x : string) (l : list string) : bool := existsb (String.eqb x) l.

Definition opt_eqb (o : option string) (x : string) : bool :=
  match o with
  | Some y => String.eqb y x
  | None => false
  end.

(** ORDER BY, as a stable insertion sort. *)
Fixpoint insert_by {A} (le : A -> A -> bool) (x : A) (l : list A) : list A :=
  match l with
  | [] => [x]
  | y :: r => if le x y then x :: l else y :: insert_by le x r
  end.

Definition sort_by {A} (le : A -> A -> bool) (l : list A) : list A :=
  fold_right (insert_by le) [] l.

Definition set_packages (s : Store) (v : list SignaturePackage) : Store :=
  {| signature_packages := v; recipients := recipients s;
     signature_fields := signature_fields s; signatures := signatures s;
     audit_logs := audit_logs s; uuid_counter := uuid_counter s |}.

Definition set_recipients (s : Store) (v : list Recipient) : Store :=
  {| signature_packages := signature_packages s; recipients := v;
     signature_fields := signature_fields s; signatures := signatures s;
     audit_logs := audit_logs s; uuid_counter := uuid_counter s |}.

Definition set_fields (s : Store) (v : list SignatureField) : Store :=
  {| signature_packages := signature_packages s; recipients := recipients s;
     signature_fields := v; signatures := signatures s;
     audit_logs := audit_logs s; uuid_counter := uuid_counter s |}.

Definition set_signatures (s : Store) (v : list Signature) : Store :=
  {| signature_packages := signature_packages s; recipients := recipients s;
     signature_fields := signature_fields s; signatures := v;
     audit_logs := audit_logs s; uuid_counter := uuid_counter s |}.

Definition set_audit_logs (s : Store) (v : list AuditLog) : Store :=
  {| signature_packages := signature_packages s; recipients := recipients s;
     signature_fields := signature_fields s; signatures := signatures s;
     audit_logs := v; uuid_counter := uuid_counter s |}.

(** Draws the next identifier. *)
Definition fresh {E : Env} (s : Store) : string * Store :=
  (uuid (uuid_counter s),
   {| signature_packages := signature_packages s; recipients := recipients s;
      signature_fields := signature_fields s; signatures := signatures s;
      audit_logs := audit_logs s; uuid_counter := S (uuid_counter s) |}).

(** *** Signature packages *)

Definition createPackage {E : Env} (s : Store) (now : timestamp)
    (title ownerWalletAddress : string) (paymentTxHash documentData documentHtml : option string)
    : SignaturePackage * Store :=
  let '(id, s1) := fresh s in
  let row := {| pkg_id := id; pkg_title := title; pkg_status := st_draft;
                pkg_owner_wallet_address := ownerWalletAddress;
                pkg_payment_tx_hash := paymentTxHash;
                pkg_document_data := documentData;
                pkg_document_html := documentHtml;
                pkg_created_at := now; pkg_updated_at := now;
                pkg_completed_at := None |} in
  (row, set_packages s1 (signature_packages s1 ++ [row])).

Definition getPackageById (s : Store) (id : string) : option SignaturePackage :=
  hd_error (filter (fun p => String.eqb (pkg_id p) id) (signature_packages s)).

(** [UPDATE signature_packages SET status = $2, completed_at = $3 WHERE id = $1];
    the trigger refreshes [updated_at]. *)
Definition updatePackageStatus (s : Store) (now : timestamp) (id : string)
    (status : DocumentStatus) : option SignaturePackage * Store :=
  let completedAt := if DocumentStatus_eqb status st_completed then Some now else None in
  let upd p :=
    if String.eqb (pkg_id p) id then
      {| pkg_id := pkg_id p; pkg_title := pkg_title p; pkg_status := status;
         pkg_owner_wallet_address := pkg_owner_wallet_address p;
         pkg_payment_tx_hash := pkg_payment_tx_hash p;
         pkg_document_data := pkg_document_data p;
         pkg_document_html := pkg_document_html p;
         pkg_created_at := pkg_created_at p; pkg_updated_at := now;
         pkg_completed_at := completedAt |}
    else p in
  let s' := set_packages s (map upd (signature_packages s)) in
  (getPackageById s' id, s').

Definition updatePackageDocument (s : Store) (now : timestamp) (id documentData : string)
    : option SignaturePackage * Store :=
  let upd p :=
    if String.eqb (pkg_id p) id then
      {| pkg_id := pkg_id p; pkg_title := pkg_title p; pkg_status := pkg_status p;
         pkg_owner_wallet_address := pkg_owner_wallet_address p;
         pkg_payment_tx_hash := pkg_payment_tx_hash p;
         pkg_document_data := Some documentData;
         pkg_document_html := pkg_document_html p;
         pkg_created_at := pkg_created_at p; pkg_updated_at := now;
         pkg_completed_at := pkg_completed_at p |}
    else p in
  let s' := set_packages s (map upd (signature_packages s)) in
  (getPackageById s' id, s').

Definition getPackagesByOwner (s : Store) (ownerWalletAddress : string) : list SignaturePackage :=
  sort_by (fun a b => (pkg_created_at b <=? pkg_created_at a)%Z)
    (filter (fun p => String.eqb (pkg_owner_wallet_address p) ownerWalletAddress)
       (signature_packages s)).

(** *** Recipients *)

Definition createRecipient {E : Env} (s : Store) (now : timestamp) (packageId : string)
    (input : RecipientInput) : Recipient * Store :=
  let '(token, s1) := fresh s in
  let '(id, s2) := fresh s1 in
  let row := {| rcp_id := id; rcp_package_id := packageId;
                rcp_wallet_address := Js.or_null (in_walletAddress input);
                rcp_email := Js.or_null (in_email input);
                rcp_name := in_name input;
                rcp_role := match in_role input with Some r => r | None => signer end;
                rcp_signing_order :=
                  match in_signingOrder input with
                  | Some n => if (n =? 0)%Z then None else Some n
                  | None => None
                  end;
                rcp_signing_status := sg_pending;
                rcp_signed_at := None; rcp_ip_address := None; rcp_user_agent := None;
                rcp_token := token; rcp_created_at := now |} in
  (row, set_recipients s2 (recipients s2 ++ [row])).

Definition getRecipientByToken (s : Store) (token : string) : option Recipient :=
  hd_error (filter (fun r => String.eqb (rcp_token r) token) (recipients s)).

Definition getRecipientById (s : Store) (id : string) : option Recipient :=
  hd_error (filter (fun r => String.eqb (rcp_id r) id) (recipients s)).

(** [ORDER BY signing_order ASC NULLS LAST, created_at ASC] *)
Definition recipient_le (a b : Recipient) : bool :=
  match rcp_signing_order a, rcp_signing_order b with
  | Some x, Some y =>
      (x <? y)%Z || ((x =? y)%Z && (rcp_created_at a <=? rcp_created_at b)%Z)
  | Some _, None => true
  | None, Some _ => false
  | None, None => (rcp_created_at a <=? rcp_created_at b)%Z
  end.

Definition getRecipientsByPackage (s : Store) (packageId : string) : list Recipient :=
  sort_by recipient_le
    (filter (fun r => String.eqb (rcp_package_id r) packageId) (recipients s)).

Definition updateRecipientStatus (s : Store) (now : timestamp) (id : string)
    (status : SigningStatus) (ip ua : option string) : option Recipient * Store :=
  let signedAt := if SigningStatus_eqb status sg_signed then Some now else None in
  let upd r :=
    if String.eqb (rcp_id r) id then
      {| rcp_id := rcp_id r; rcp_package_id := rcp_package_id r;
         rcp_wallet_address := rcp_wallet_address r; rcp_email := rcp_email r;
         rcp_name := rcp_name r; rcp_role := rcp_role r;
         rcp_signing_order := rcp_signing_order r;
         rcp_signing_status := status; rcp_signed_at := signedAt;
         rcp_ip_address := ip; rcp_user_agent := ua;
         rcp_token := rcp_token r; rcp_created_at := rcp_created_at r |}
    else r in
  let s' := set_recipients s (map upd (recipients s)) in
  (getRecipientById s' id, s').

(** [SELECT r.*, p.title, p.status, p.owner_wallet_address, p.created_at
     FROM recipients r JOIN signature_packages p ON r.package_id = p.id
     WHERE r.wallet_address = $1 AND r.signing_status = 'pending'
       AND p.status = 'pending'
     ORDER BY p.created_at DESC]; each row is kept with the package row
    it joined. *)
Definition getRecipientsByWallet (s : Store) (walletAddress : string)
    : list (Recipient * SignaturePackage) :=
  sort_by (fun a b => (pkg_created_at (snd b) <=? pkg_created_at (snd a))%Z)
    (flat_map
       (fun r =>
          map (fun p => (r, p))
            (filter (fun p => String.eqb (pkg_id p) (rcp_package_id r)
                              && DocumentStatus_eqb (pkg_status p) st_pending)
               (signature_packages s)))
       (filter (fun r => opt_eqb (rcp_wallet_address r) walletAddress
                         && SigningStatus_eqb (rcp_signing_status r) sg_pending)
          (recipients s))).

(** *** Signature fields *)

Definition createField {E : Env} (s : Store) (packageId recipientId : string)
    (fieldType : FieldType) (page : Z) (positionX positionY width height : number)
    (fieldMeta : option FieldMeta) : SignatureField * Store :=
  let '(id, s1) := fresh s in
  let row := {| fld_id := id; fld_package_id := packageId;
                fld_recipient_id := recipientId; fld_field_type := fieldType;
                fld_page := page; fld_position_x := positionX;
                fld_position_y := positionY; fld_width := width;
                fld_height := height; fld_value := None;
                fld_field_meta := fieldMeta; fld_inserted := false |} in
  (row, set_fields s1 (signature_fields s1 ++ [row])).

Definition getFieldById (s : Store) (id : string) : option SignatureField :=
  hd_error (filter (fun f => String.eqb (fld_id f) id) (signature_fields s)).

(** [ORDER BY page ASC, position_y ASC] *)
Definition field_le (a b : SignatureField) : bool :=
  (fld_page a <? fld_page b)%Z
  || ((fld_page a =? fld_page b)%Z && Qle_bool (fld_position_y a) (fld_position_y b)).

Definition getFieldsByPackage (s : Store) (packageId : string) : list SignatureField :=
  sort_by field_le
    (filter (fun f => String.eqb (fld_package_id f) packageId) (signature_fields s)).

Definition getFieldsByRecipient (s : Store) (recipientId : string) : list SignatureField :=
  sort_by field_le
    (filter (fun f => String.eqb (fld_recipient_id f) recipientId) (signature_fields s)).

Definition set_field_value (f : SignatureField) (v : option string) (ins : bool)
    : SignatureField :=
  {| fld_id := fld_id f; fld_package_id := fld_package_id f;
     fld_recipient_id := fld_recipient_id f; fld_field_type := fld_field_type f;
     fld_page := fld_page f; fld_position_x := fld_position_x f;
     fld_position_y := fld_position_y f; fld_width := fld_width f;
     fld_height := fld_height f; fld_value := v;
     fld_field_meta := fld_field_meta f; fld_inserted := ins |}.

(** [SET value = $2, inserted = TRUE] *)
Definition updateFieldValue (s : Store) (id value : string)
    : option SignatureField * Store :=
  let upd f := if String.eqb (fld_id f) id then set_field_value f (Some value) true else f in
  let s' := set_fields s (map upd (signature_fields s)) in
  (getFieldById s' id, s').

(** [SET value = NULL, inserted = FALSE] *)
Definition clearFieldValue (s : Store) (id : string) : option SignatureField * Store :=
  let upd f := if String.eqb (fld_id f) id then set_field_value f None false else f in
  let s' := set_fields s (map upd (signature_fields s)) in
  (getFieldById s' id, s').

(** *** Signatures *)

Definition createSignature {E : Env} (s : Store) (now : timestamp)
    (fieldId recipientId : string) (data : SignatureData) : Signature * Store :=
  let '(id, s1) := fresh s in
  let row := {| sig_id := id; sig_field_id := fieldId; sig_recipient_id := recipientId;
                sig_signature_image := Js.or_null (d_signatureImage data);
                sig_typed_signature := Js.or_null (d_typedSignature data);
                sig_kyc_verified_name := Js.or_null (d_kycVerifiedName data);
                sig_kyc_nft_address := Js.or_null (d_kycNftAddress data);
                sig_wallet_signature := Js.or_null (d_walletSignature data);
                sig_wallet_address := Js.or_null (d_walletAddress data);
                sig_document_hash := Js.or_null (d_documentHash data);
                sig_signed_at := now |} in
  (row, set_signatures s1 (signatures s1 ++ [row])).

Definition getSignatureByField (s : Store) (fieldId : string) : option Signature :=
  hd_error (filter (fun g => String.eqb (sig_field_id g) fieldId) (signatures s)).

Definition deleteSignatureByField (s : Store) (fieldId : string) : Store :=
  set_signatures s (filter (fun g => negb (String.eqb (sig_field_id g) fieldId)) (signatures s)).


(** *** Audit logs *)

Definition createAuditLog {E : Env} (s : Store) (now : timestamp)
    (packageId : option string) (eventType : AuditEventType) (data : AuditData)
    : AuditLog * Store :=
  let '(id, s1) := fresh s in
  let row := {| log_id := id; log_package_id := packageId; log_event_type := eventType;
                log_user_wallet := Js.or_null (userWallet data);
                log_user_email := Js.or_null (userEmail data);
                log_ip_address := Js.or_null (ipAddress data);
                log_user_agent := Js.or_null (userAgent data);
                log_data := match metadata data with Some m => m | None => [] end;
                log_created_at := now |} in
  (row, set_audit_logs s1 (audit_logs s1 ++ [row])).


(** *** Helper functions *)

(** The two counts of the query: all rows, and the rows with
    [signing_status = 'signed'], over the recipients of the package
    with [role = 'signer']. *)
Definition signers_of (s : Store) (packageId : string) : list Recipient :=
  filter (fun r => String.eqb (rcp_package_id r) packageId
                   && RecipientRole_eqb (rcp_role r) signer)
    (recipients s).

Definition checkAllRecipientsSigned (s : Store) (packageId : string) : bool :=
  let total := List.length (signers_of s packageId) in
  let signed :=
    List.length
      (filter (fun r => SigningStatus_eqb (rcp_signing_status r) sg_signed)
         (signers_of s packageId)) in
  (0 <? total)%nat && (total =? signed)%nat.

Definition getPackageWithRecipients (s : Store) (packageId : string)
    : option (SignaturePackage * list Recipient * list SignatureField) :=
  match getPackageById s packageId with
  | None => None
  | Some pkg => Some (pkg, getRecipientsByPackage s packageId, getFieldsByPackage s packageId)
  end.

(** *** Deletion, with the referential actions of the schema

    [signatures.field_id], [signatures.recipient_id],
    [signature_fields.recipient_id], [signature_fields.package_id] and
    [recipients.package_id] are ON DELETE CASCADE;
    [audit_logs.package_id] is ON DELETE SET NULL. *)

Definition delete_signatures_where (p : Signature -> bool) (s : Store) : Store :=
  set_signatures s (filter (fun g => negb (p g)) (signatures s)).

Definition delete_fields_where (p : SignatureField -> bool) (s : Store) : Store :=
  let gone := map fld_id (filter p (signature_fields s)) in
  let s1 := set_fields s (filter (fun f => negb (p f)) (signature_fields s)) in
  delete_signatures_where (fun g => mem (sig_field_id g) gone) s1.

Definition delete_recipients_where (p : Recipient -> bool) (s : Store) : Store :=
  let gone := map rcp_id (filter p (recipients s)) in
  let s1 := set_recipients s (filter (fun r => negb (p r)) (recipients s)) in
  let s2 := delete_fields_where (fun f => mem (fld_recipient_id f) gone) s1 in
  delete_signatures_where (fun g => mem (sig_recipient_id g) gone) s2.

Definition nullify_package (gone : list string) (l : AuditLog) : AuditLog :=
  match log_package_id l with
  | Some p =>
      if mem p gone then
        {| log_id := log_id l; log_package_id := None;
           log_event_type := log_event_type l; log_user_wallet := log_user_wallet l;
           log_user_email := log_user_email l; log_ip_address := log_ip_address l;
           log_user_agent := log_user_agent l; log_data := log_data l;
           log_created_at := log_created_at l |}
      else l
  | None => l
  end.

Definition delete_packages_where (p : SignaturePackage -> bool) (s : Store) : Store :=
  let gone := map pkg_id (filter p (signature_packages s)) in
  let s1 := set_packages s (filter (fun k => negb (p k)) (signature_packages s)) in
  let s2 := delete_recipients_where (fun r => mem (rcp_package_id r) gone) s1 in
  let s3 := delete_fields_where (fun f => mem (fld_package_id f) gone) s2 in
  set_audit_logs s3 (map (nullify_package gone) (audit_logs s3)).

Definition deletePackage (s : Store) (packageId : string) : Store :=
  delete_packages_where (fun k => String.eqb (pkg_id k) packageId) s.

Definition deleteRecipientsByPackage (s : Store) (packageId : string) : Store :=
  delete_recipients_where (fun r => String.eqb (rcp_package_id r) packageId) s.

Definition deleteFieldsByPackage (s : Store) (packageId : string) : Store :=
  delete_fields_where (fun f => String.eqb (fld_package_id f) packageId) s.

(** [DELETE FROM signatures WHERE field_id IN
     (SELECT id FROM signature_fields WHERE package_id = $1)] *)
Definition deleteSignaturesByPackage (s : Store) (packageId : string) : Store :=
  let ids := map fld_id
               (filter (fun f => String.eqb (fld_package_id f) packageId)
                  (signature_fields s)) in
  delete_signatures_where (fun g => mem (sig_field_id g) ids) s.

Definition deleteAuditLogsByPackage (s : Store) (packageId : string) : Store :=
  set_audit_logs s
    (filter (fun l => negb (opt_eqb (log_package_id l) packageId)) (audit_logs s)).

End Db.

(** ** HTTP requests and responses *)

Record Request := {
  protocol : string;
  host : string;
  originalUrl : string;
  header_payment_signature : option string;
  header_user_agent : option string;
  header_x_forwarded_for : option string;
  remoteAddress : option string
}.

Record CreateDocumentRequest := {
  title : option string;
  doc_format : option string;
  content : option string;
  pdfBase64 : option string;
  req_recipients : option (list RecipientInput)
}.

Record CreateDocumentResponse := {
  documentId : string;
  cd_status : DocumentStatus;
  signingLinks : list (string * string);
  previewUrl : string;
  cd_recipients : list (string * string)
}.

Inductive SignatureType := type_wallet | type_kyc | type_typed | type_drawn.

(** One entry of [fields] in the signing session: the field row, the
    [signed] flag and, when signed, the signature with its derived type. *)
Record SessionField := {
  sf_field : SignatureField;
  sf_signed : bool;
  sf_signature : option (option SignatureType * Signature)
}.

(** The signing session; [document] and [recipient] are sent as the
    summaries the handler builds from these rows. *)
Record SigningSession := {
  ss_document : SignaturePackage;
  ss_recipient : Recipient;
  ss_fields : list SessionField;
  totalFields : nat;
  signedFields : nat;
  allFieldsSigned : bool;
  kycVerifiedNames : list KYCVerifiedIdentity;
  hasKYC : bool
}.

Inductive Body :=
| BError (error : string)
| BErrorReason (error : string) (reason : option string)
| BPaymentRequired (error : string) (x402Version : Z)
| BErrorRecipient (error : string) (recipient : RecipientInput)
| BErrorRecipientId (error : string) (recipientId : string)
| BUnsignedFields (error : string) (unsignedFields : list (string * FieldType))
| BCreated (result : CreateDocumentResponse)
| BFields (fields : list SignatureField)
| BRecipients (created : list Recipient)
| BDistributed (document : option SignaturePackage) (links : list (string * string))
    (message : string)
| BDocumentMessage (document : option SignaturePackage) (message : string)
| BMessage (message : string)
| BFieldOk (fieldId : string) (message : string)
| BSession (session : SigningSession)
| BCompleted (message : string) (recipientStatus : SigningStatus)
    (documentCompleted : bool) (signedAt : timestamp) (ip : string).

Record Response := {
  status : nat;
  headers : list (string * string);
  body : Body
}.

Definition json (code : nat) (b : Body) : Response :=
  {| status := code; headers := []; body := b |}.

(** ** [services/kyc-lookup.ts] *)

Module Kyc.

Record Verification := {
  verified : bool;
  v_nftAddress : option string;
  v_fullName : option string;
  v_error : option string
}.

(** The body of the loop over the owned tokens: the identity the token
    contributes, if any. *)
Definition identity_of_token (now : timestamp) (token : OwnedToken)
    : option KYCVerifiedIdentity :=
  match current_token_data token with
  | None => None
  | Some tokenData =>
      match token_properties tokenData with
      | None => None
      | Some properties =>
          if negb (Db.opt_eqb (kyc_status properties) "approved") then None
          else if negb (Js.truthy (full_name properties)) then None
          else Some {| nftAddress := Js.or_str (token_data_id token) "";
                       fullName := Js.or_str (full_name properties) "";
                       country := prop_country properties;
                       verificationDate :=
                         match verification_date properties with
                         | Some t => if (t =? 0)%Z then now else t
                         | None => now
                         end |}
      end
  end.

Fixpoint collect (now : timestamp) (tokens : list OwnedToken) : list KYCVerifiedIdentity :=
  match tokens with
  | [] => []
  | t :: rest =>
      match identity_of_token now t with
      | Some v => v :: collect now rest
      | None => collect now rest
      end
  end.

Definition getKYCVerifiedNames {E : Env} (now : timestamp) (walletAddress : string)
    : list KYCVerifiedIdentity :=
  if String.eqb (kyc_collectionAddress config) "" then []
  else
    match getOwnedDigitalAssets walletAddress with
    | None => []
    | Some ownedTokens => collect now ownedTokens
    end.

Definition same_name {E : Env} (v : KYCVerifiedIdentity) (name : string) : bool :=
  String.eqb (toLowerCase (fullName v)) (toLowerCase name).

Definition matched (m : KYCVerifiedIdentity) : Verification :=
  {| verified := true; v_nftAddress := Some (nftAddress m);
     v_fullName := Some (fullName m); v_error := None |}.

Definition failed (msg : string) : Verification :=
  {| verified := false; v_nftAddress := None; v_fullName := None; v_error := Some msg |}.

Definition verifyKYCName {E : Env} (now : timestamp) (walletAddress name : string)
    (nft : option string) : Verification :=
  let verifiedNames := getKYCVerifiedNames now walletAddress in
  if (List.length verifiedNames =? 0)%nat then
    failed "No KYC NFTs found for this wallet"
  else if Js.truthy nft then
    match find (fun v => String.eqb (nftAddress v) (Js.or_str nft "") && same_name v name)
            verifiedNames with
    | Some m => matched m
    | None => failed "Name does not match the specified KYC NFT"
    end
  else
    match find (fun v => same_name v name) verifiedNames with
    | Some m => matched m
    | None =>
        failed ("Name " +++ Js.dquote +++ name +++ Js.dquote
                +++ " not found in wallet's KYC NFTs. Available names: "
                +++ Js.join ", " (map fullName verifiedNames))
    end.

Definition hasValidKYC {E : Env} (now : timestamp) (walletAddress : string) : bool :=
  (0 <? List.length (getKYCVerifiedNames now walletAddress))%nat.

End Kyc.

(** ** [middleware/x402.ts] *)

Module X402.

Definition buildPaymentRequirements {E : Env} : PaymentRequirements :=
  {| scheme := "exact";
     network := x402_network config;
     amount := x402_priceAtomic config;
     asset := x402_usdcAssetAddress config;
     payTo := x402_paymentRecipientAddress config;
     maxTimeoutSeconds := 300;
     extra_sponsored := Some true |}.

Definition buildPaymentRequired {E : Env} (requestUrl : string) : PaymentRequired :=
  let requirements := buildPaymentRequirements in
  {| pr_x402Version := 2;
     pr_error := "PAYMENT-SIGNATURE header is required";
     pr_resource :=
       {| res_url := requestUrl;
          res_description :=
            "Soulbound Signature Service - " +++ x402_signaturePriceUsdc config +++ " USDC";
          res_mimeType := "application/json" |};
     pr_accepts := [requirements] |}.

(** The value [verifyPayment] resolves to; [None] is [null], which
    [JSON.parse] returns for the body [null] and the cast lets through. *)
Definition verifyPayment {E : Env} (paymentPayload : PaymentPayload)
    (paymentRequirements : PaymentRequirements) : option VerifyResult :=
  match facilitator_verify paymentPayload paymentRequirements with
  | Parsed result => Some result
  | ParsedNull => None
  | NotJson responseText =>
      Some {| isValid := false; vr_payer := None;
              invalidReason := Some ("Invalid response: " +++ responseText) |}
  | RequestFailed =>
      Some {| isValid := false; vr_payer := None;
              invalidReason := Some "Verification request failed" |}
  end.

(** The value [settlePayment] resolves to; [None] is [null]. *)
Definition settlePayment {E : Env} (paymentPayload : PaymentPayload)
    (paymentRequirements : PaymentRequirements) : option SettleResult :=
  match facilitator_settle paymentPayload paymentRequirements with
  | Parsed result => Some result
  | ParsedNull => None
  | NotJson _ | RequestFailed =>
      Some {| success := false; transaction := None; sr_payer := None;
              errorReason := Some "Settlement request failed" |}
  end.

(** How the middleware leaves the request: a response was sent, or
    [next()] was called with [req.paymentInfo] attached. *)
Inductive Gate :=
| Responded (r : Response)
| Next (paymentInfo : PaymentInfo).

Inductive FacilitatorCall := VerifyCall | SettleCall.

Definition requestUrl_of (req : Request) : string :=
  protocol req +++ "://" +++ host req +++ originalUrl req.

(** The gate's outcome and the facilitator calls made on the way. *)
Definition x402PaymentMiddleware {E : Env} (req : Request) : Gate * list FacilitatorCall :=
  let requestUrl := requestUrl_of req in
  let paymentSignature := header_payment_signature req in
  if negb (Js.truthy paymentSignature) then
    let paymentRequired := buildPaymentRequired requestUrl in
    let paymentRequiredB64 := encodePaymentRequired paymentRequired in
    (Responded {| status := 402;
                  headers := [("PAYMENT-REQUIRED", paymentRequiredB64)];
                  body := BPaymentRequired "Payment required" 2 |}, [])
  else
    match decodePaymentSignature (Js.or_str paymentSignature "") with
    | None =>
        (Responded (json 500 (BError "Internal server error processing payment")), [])
    | Some paymentPayload =>
        let paymentRequirements := buildPaymentRequirements in
        match verifyPayment paymentPayload paymentRequirements with
        | None =>
            (* [verifyResult.isValid] throws on [null]; the outer catch answers *)
            (Responded (json 500 (BError "Internal server error processing payment")),
             [VerifyCall])
        | Some verifyResult =>
        if negb (isValid verifyResult) then
          (Responded (json 402 (BErrorReason "Payment verification failed"
                                  (invalidReason verifyResult))),
           [VerifyCall])
        else
          match settlePayment paymentPayload paymentRequirements with
          | None =>
              (* [settleResult.success] throws on [null] *)
              (Responded (json 500 (BError "Internal server error processing payment")),
               [VerifyCall; SettleCall])
          | Some settleResult =>
          if negb (success settleResult) then
            (Responded (json 402 (BErrorReason "Payment settlement failed"
                                    (errorReason settleResult))),
             [VerifyCall; SettleCall])
          else
            (Next {| transactionHash := transaction settleResult;
                     payer := Js.or (vr_payer verifyResult) (sr_payer settleResult);
                     pi_amount := amount paymentRequirements;
                     pi_network := network paymentRequirements |},
             [VerifyCall; SettleCall])
          end
        end
    end.

Definition attachPaymentResponseHeader {E : Env} (res : Response)
    (transactionHash payer : option string) : Response :=
  {| status := status res;
     headers := headers res
                ++ [("PAYMENT-RESPONSE",
                     encodeSettlementResponse "true" (x402_network config)
                       transactionHash payer)];
     body := body res |}.

End X402.

(** ** [services/document.ts] *)

Module DocumentService.

Definition nat_text (n : nat) : string := NilZero.string_of_uint (Nat.to_uint n).

(** [s.replace(pat, rep)] with a string pattern: the first occurrence. *)
Fixpoint replace_first (pat rep s : string) : string :=
  if String.prefix pat s then
    rep +++ substring (String.length pat) (String.length s - String.length pat) s
  else
    match s with
    | EmptyString => EmptyString
    | String c r => String c (replace_first pat rep r)
    end.

(** The loop over [request.recipients]; [i] is the loop index. *)
Fixpoint createRecipients {E : Env} (s : Store) (now : timestamp) (packageId : string)
    (i : nat) (inputs : list RecipientInput) : list (nat * Recipient) * Store :=
  match inputs with
  | [] => ([], s)
  | recipientInput :: rest =>
      let input :=
        {| in_walletAddress := in_walletAddress recipientInput;
           in_email := in_email recipientInput;
           in_name := in_name recipientInput;
           in_role := in_role recipientInput;
           in_signingOrder :=
             Some (match in_signingOrder recipientInput with
                   | Some n => n
                   | None => Z.of_nat (i + 1)
                   end) |} in
      let '(recipient, s1) := Db.createRecipient s now packageId input in
      let '(more, s2) := createRecipients s1 now packageId (S i) rest in
      ((i + 1, recipient) :: more, s2)
  end.

Definition recipientMap_get (recipientMap : list (nat * string)) (n : option Z)
    : option string :=
  match n with
  | None => None
  | Some z =>
      match find (fun e => (Z.of_nat (fst e) =? z)%Z) recipientMap with
      | Some e => Some (snd e)
      | None => None
      end
  end.

(** The loop of [parseAndCreateFieldsFromHtml] over the matched tags. *)
Fixpoint createFieldsFromTags {E : Env} (s : Store) (packageId : string)
    (recipientMap : list (nat * string)) (fieldIndex : nat) (tags : list SigFieldTag)
    : Store :=
  match tags with
  | [] => s
  | t :: rest =>
      let recipientId := recipientMap_get recipientMap (tag_recipient t) in
      if negb (Js.truthy recipientId) then
        createFieldsFromTags s packageId recipientMap fieldIndex rest
      else
        let '(_, s1) :=
          Db.createField s packageId (Js.or_str recipientId "") (tag_type t)
            1 (inject_Z 0) (inject_Z (Z.of_nat fieldIndex * 80))
            (tag_width t) (tag_height t) (tag_meta t) in
        createFieldsFromTags s1 packageId recipientMap (S fieldIndex) rest
  end.

Definition parseAndCreateFieldsFromHtml {E : Env} (s : Store) (packageId html : string)
    (recipientMap : list (nat * string)) : Store :=
  createFieldsFromTags s packageId recipientMap 0 (parseSigFields html).

(** [None]: the first insert is refused (no payer for the NOT NULL owner
    column) and the call throws with nothing written. *)
Definition createDocument {E : Env} (s : Store) (now : timestamp)
    (request : CreateDocumentRequest) (paymentInfo : PaymentInfo)
    : option CreateDocumentResponse * Store :=
  match payer paymentInfo with
  | None => (None, s)
  | Some owner =>
      let is_pdf := Db.opt_eqb (doc_format request) "pdf" in
      let is_html := Db.opt_eqb (doc_format request) "html" in
      let '(pkg, s1) :=
        Db.createPackage s now (Js.or_str (title request) "") owner
          (transactionHash paymentInfo)
          (if is_pdf then pdfBase64 request else None)
          (if is_html then content request else None) in
      let inputs := match req_recipients request with Some l => l | None => [] end in
      let '(created, s2) := createRecipients s1 now (pkg_id pkg) 0 inputs in
      let links :=
        map (fun e => ("recipient_" +++ nat_text (fst e),
                       frontendUrl config +++ "/sign/" +++ rcp_token (snd e)))
          created in
      let recipientMap := map (fun e => (fst e, rcp_id (snd e))) created in
      let s3 :=
        if is_html && Js.truthy (content request) then
          parseAndCreateFieldsFromHtml s2 (pkg_id pkg)
            (Js.or_str (content request) "") recipientMap
        else s2 in
      let '(_, s4) :=
        Db.createAuditLog s3 now (Some (pkg_id pkg)) document_created
          {| userWallet := Some owner; userEmail := None; ipAddress := None;
             userAgent := None;
             metadata :=
               Some [("title", MStr (Js.or_str (title request) ""));
                     ("format", MStr (Js.or_str (doc_format request) ""));
                     ("recipientCount", MNum (Z.of_nat (List.length inputs)));
                     ("paymentTxHash",
                      MStr (Js.or_str (transactionHash paymentInfo) ""))] |} in
      let preview :=
        replace_first ":3000" ":4000" (frontendUrl config)
        +++ "/api/documents/" +++ pkg_id pkg +++ "/preview" in
      (Some {| documentId := pkg_id pkg; cd_status := pkg_status pkg;
               signingLinks := links; previewUrl := preview;
               cd_recipients := map (fun e => (rcp_id (snd e), rcp_name (snd e))) created |},
       s4)
  end.

Definition getDocument (s : Store) (documentId : string) :=
  Db.getPackageWithRecipients s documentId.

Definition distributeDocument {E : Env} (s : Store) (now : timestamp) (documentId : string)
    : option SignaturePackage * Store :=
  let '(pkg, s1) := Db.updatePackageStatus s now documentId st_pending in
  match pkg with
  | Some p =>
      let '(_, s2) :=
        Db.createAuditLog s1 now (Some documentId) document_distributed
          {| userWallet := Some (pkg_owner_wallet_address p); userEmail := None;
             ipAddress := None; userAgent := None;
             metadata := Some [("distributedAt", MIsoDate now)] |} in
      (pkg, s2)
  | None => (pkg, s1)
  end.

Definition addFieldToDocument {E : Env} (s : Store) (documentId recipientId : string)
    (fieldType : FieldType) (page : Z) (positionX positionY width height : number)
    (fieldMeta : option FieldMeta) : SignatureField * Store :=
  Db.createField s documentId recipientId fieldType page positionX positionY
    width height fieldMeta.

(** The body of the [try] block of [generateFinalDocument], up to the
    write-back: the final PDF in base64, or [None] when a drawing step throws. *)
Definition finalPdfBase64 {E : Env} (s : Store) (documentId : string)
    (doc : SignaturePackage) (document_data : string) : option string :=
  let originalPdfBytes := base64_decode document_data in
  match renderFieldsOnPdf s originalPdfBytes documentId with
  | None => None
  | Some renderedPdfBytes =>
      match appendConfirmationPage s renderedPdfBytes documentId (pkg_title doc) with
      | None => None
      | Some finalPdfBytes => Some (base64_encode finalPdfBytes)
      end
  end.

Definition generateFinalDocument {E : Env} (s : Store) (now : timestamp) (documentId : string)
    : Store :=
  match Db.getPackageById s documentId with
  | None => s
  | Some doc =>
      if negb (Js.truthy (pkg_document_data doc)) then s
      else
        match finalPdfBase64 s documentId doc (Js.or_str (pkg_document_data doc) "") with
        | Some final => snd (Db.updatePackageDocument s now documentId final)
        | None => s   (* caught: "Don't fail the completion if document generation fails" *)
        end
  end.

Definition checkAndCompleteDocument {E : Env} (s : Store) (now : timestamp)
    (documentId : string) : bool * Store :=
  let allSigned := Db.checkAllRecipientsSigned s documentId in
  if allSigned then
    let s1 := generateFinalDocument s now documentId in
    let '(_, s2) := Db.updatePackageStatus s1 now documentId st_completed in
    let '(_, s3) :=
      Db.createAuditLog s2 now (Some documentId) document_completed
        {| userWallet := None; userEmail := None; ipAddress := None; userAgent := None;
           metadata := Some [("completedAt", MIsoDate now)] |} in
    (true, s3)
  else (false, s).

Definition cancelDocument {E : Env} (s : Store) (now : timestamp) (documentId : string)
    : option SignaturePackage * Store :=
  let '(pkg, s1) := Db.updatePackageStatus s now documentId st_cancelled in
  match pkg with
  | Some p =>
      let '(_, s2) :=
        Db.createAuditLog s1 now (Some documentId) document_cancelled
          {| userWallet := Some (pkg_owner_wallet_address p); userEmail := None;
             ipAddress := None; userAgent := None;
             metadata := Some [("cancelledAt", MIsoDate now)] |} in
      (pkg, s2)
  | None => (pkg, s1)
  end.

(** The statements of [deleteDocument], in the order they are awaited. *)
Definition deleteDocument_statements (documentId : string) : list (Store -> Store) :=
  [ fun s => Db.deleteSignaturesByPackage s documentId;
    fun s => Db.deleteFieldsByPackage s documentId;
    fun s => Db.deleteRecipientsByPackage s documentId;
    fun s => Db.deleteAuditLogsByPackage s documentId;
    fun s => Db.deletePackage s documentId ].

Definition run_statements (stmts : list (Store -> Store)) (s : Store) : Store :=
  fold_left (fun acc stmt => stmt acc) stmts s.

Definition deleteDocument (s : Store) (documentId : string) : Store :=
  run_statements (deleteDocument_statements documentId) s.

Definition getDocumentsByOwner (s : Store) (walletAddress : string) : list SignaturePackage :=
  Db.getPackagesByOwner s walletAddress.

Definition updateDocumentPdf (s : Store) (now : timestamp) (documentId pdfBase64 : string)
    : option SignaturePackage * Store :=
  Db.updatePackageDocument s now documentId pdfBase64.





End DocumentService.

(** ** [routes/signing.ts] *)

Module SigningRoutes.

Definition getClientIp {E : Env} (req : Request) : string :=
  if Js.truthy (header_x_forwarded_for req) then
    trim (Js.before_comma (Js.or_str (header_x_forwarded_for req) ""))
  else Js.or_str (remoteAddress req) "unknown".

Definition isSignatureField (fieldType : FieldType) : bool :=
  match fieldType with
  | ft_signature | ft_free_signature | ft_initial => true
  | _ => false
  end.

Definition isRequiredField (field_type : FieldType) (field_meta : option FieldMeta) : bool :=
  if isSignatureField field_type then true
  else
    match field_meta with
    | Some meta => match required meta with Some true => true | _ => false end
    | None => false
    end.

Definition signatureType_of (g : Signature) : option SignatureType :=
  if Js.truthy (sig_wallet_signature g) then Some type_wallet
  else if Js.truthy (sig_kyc_verified_name g) then Some type_kyc
  else if Js.truthy (sig_typed_signature g) then Some type_typed
  else if Js.truthy (sig_signature_image g) then Some type_drawn
  else None.

Definition withSignature (s : Store) (field : SignatureField) : SessionField :=
  let signature := Db.getSignatureByField s (fld_id field) in
  {| sf_field := field;
     sf_signed := match signature with Some _ => true | None => false end;
     sf_signature :=
       match signature with
       | Some g => Some (signatureType_of g, g)
       | None => None
       end |}.

(** [GET /:token] *)
Definition get_session {E : Env} (s : Store) (now : timestamp) (req : Request)
    (token : string) (query_walletAddress : option string) : Response * Store :=
  match Db.getRecipientByToken s token with
  | None => (json 404 (BError "Invalid signing token"), s)
  | Some recipient =>
  match DocumentService.getDocument s (rcp_package_id recipient) with
  | None => (json 404 (BError "Document not found"), s)
  | Some (pkg, _, doc_fields) =>
  if DocumentStatus_eqb (pkg_status pkg) st_cancelled then
    (json 400 (BError "This document has been cancelled"), s)
  else if DocumentStatus_eqb (pkg_status pkg) st_completed then
    (json 400 (BError "This document has already been completed"), s)
  else
    let recipientFields :=
      filter (fun f => String.eqb (fld_recipient_id f) (rcp_id recipient)) doc_fields in
    let fieldsWithSignatures := map (withSignature s) recipientFields in
    let '(_, s1) :=
      Db.createAuditLog s now (Some (rcp_package_id recipient)) document_viewed
        {| userWallet := query_walletAddress;
           userEmail := Js.or_null (rcp_email recipient);
           ipAddress := Some (getClientIp req);
           userAgent := Js.or_null (header_user_agent req);
           metadata := None |} in
    let names :=
      if Js.truthy query_walletAddress then
        Some (Kyc.getKYCVerifiedNames now (Js.or_str query_walletAddress ""))
      else None in
    (json 200
       (BSession
          {| ss_document := pkg;
             ss_recipient := recipient;
             ss_fields := fieldsWithSignatures;
             totalFields := List.length recipientFields;
             signedFields := List.length (filter sf_signed fieldsWithSignatures);
             allFieldsSigned :=
               forallb
                 (fun f => sf_signed f
                           || negb (isRequiredField (fld_field_type (sf_field f))
                                      (fld_field_meta (sf_field f))))
                 fieldsWithSignatures;
             kycVerifiedNames := match names with Some l => l | None => [] end;
             hasKYC :=
               match names with
               | Some l => (0 <? List.length l)%nat
               | None => false
               end |}),
     s1)
  end end.

(** What the branch on the field type does in [POST /:token/field/:fieldId]:
    it sends an error and returns, or it writes the signature and the
    field value and falls through to the audit entry. *)
Inductive Branch :=
| Rejected (r : Response)
| Recorded (s : Store).

Definition sign_branch {E : Env} (s : Store) (now : timestamp) (recipient : Recipient)
    (field : SignatureField) (fieldId : string) (body : SignFieldRequest) : Branch :=
  if isSignatureField (fld_field_type field) then
    if Js.truthy (kycNftAddress body) && Js.truthy (verifiedName body) then
      let verification :=
        Kyc.verifyKYCName now
          (Js.or_str (Js.or (rcp_wallet_address recipient) (walletAddress body)) "")
          (Js.or_str (verifiedName body) "")
          (kycNftAddress body) in
      if negb (Kyc.verified verification) then
        Rejected (json 400 (BErrorReason "KYC verification failed"
                              (Kyc.v_error verification)))
      else
        let signatureData :=
          {| d_signatureImage := None; d_typedSignature := None;
             d_kycVerifiedName := verifiedName body;
             d_kycNftAddress := kycNftAddress body;
             d_walletSignature := Js.or_null (walletSignature body);
             d_walletAddress := Js.or_null (walletAddress body);
             d_documentHash := Js.or_null (documentHash body) |} in
        let '(_, s1) := Db.createSignature s now fieldId (rcp_id recipient) signatureData in
        let '(_, s2) :=
          Db.updateFieldValue s1 fieldId
            ("[KYC: " +++ Js.or_str (verifiedName body) "" +++ "]") in
        Recorded s2
    else if Js.truthy (walletSignature body) && Js.truthy (walletAddress body)
            && Js.truthy (documentHash body) then
      let '(_, s1) :=
        Db.createSignature s now fieldId (rcp_id recipient)
          {| d_signatureImage := None; d_typedSignature := None;
             d_kycVerifiedName := None; d_kycNftAddress := None;
             d_walletSignature := walletSignature body;
             d_walletAddress := walletAddress body;
             d_documentHash := documentHash body |} in
      let address := Js.or_str (walletAddress body) "" in
      let shortAddr := slice_to 6 address +++ "..." +++ slice_last 4 address in
      let '(_, s2) := Db.updateFieldValue s1 fieldId ("[Wallet: " +++ shortAddr +++ "]") in
      Recorded s2
    else if Js.truthy (typedSignature body) then
      let '(_, s1) :=
        Db.createSignature s now fieldId (rcp_id recipient)
          {| d_signatureImage := None; d_typedSignature := typedSignature body;
             d_kycVerifiedName := None; d_kycNftAddress := None;
             d_walletSignature := None; d_walletAddress := None;
             d_documentHash := None |} in
      let '(_, s2) := Db.updateFieldValue s1 fieldId (Js.or_str (typedSignature body) "") in
      Recorded s2
    else if Js.truthy (signatureImage body) then
      let '(_, s1) :=
        Db.createSignature s now fieldId (rcp_id recipient)
          {| d_signatureImage := signatureImage body; d_typedSignature := None;
             d_kycVerifiedName := None; d_kycNftAddress := None;
             d_walletSignature := None; d_walletAddress := None;
             d_documentHash := None |} in
      let '(_, s2) := Db.updateFieldValue s1 fieldId "[signature image]" in
      Recorded s2
    else
      Rejected (json 400 (BError "Signature field requires walletSignature, signatureImage, typedSignature, or kycNftAddress+verifiedName"))
  else
    match value body with
    | None => Rejected (json 400 (BError "value is required for this field type"))
    | Some v =>
        let '(_, s1) := Db.updateFieldValue s fieldId v in
        let '(_, s2) :=
          Db.createSignature s1 now fieldId (rcp_id recipient)
            {| d_signatureImage := None; d_typedSignature := Some v;
               d_kycVerifiedName := None; d_kycNftAddress := None;
               d_walletSignature := None; d_walletAddress := None;
               d_documentHash := None |} in
        Recorded s2
    end.

(** [POST /:token/field/:fieldId] *)
Definition sign_field {E : Env} (s : Store) (now : timestamp) (req : Request)
    (token fieldId : string) (body : SignFieldRequest) : Response * Store :=
  match Db.getRecipientByToken s token with
  | None => (json 404 (BError "Invalid signing token"), s)
  | Some recipient =>
  match Db.getFieldById s fieldId with
  | None => (json 404 (BError "Field not found"), s)
  | Some field =>
  if negb (String.eqb (fld_recipient_id field) (rcp_id recipient)) then
    (json 403 (BError "Field does not belong to this recipient"), s)
  else
  match Db.getSignatureByField s fieldId with
  | Some _ => (json 400 (BError "Field has already been signed"), s)
  | None =>
      let ip := getClientIp req in
      let ua := Js.or_str (header_user_agent req) "" in
      match sign_branch s now recipient field fieldId body with
      | Rejected r => (r, s)
      | Recorded s2 =>
          let '(_, s3) :=
            Db.createAuditLog s2 now (Some (rcp_package_id recipient)) field_signed
              {| userWallet := Js.or_null (rcp_wallet_address recipient);
                 userEmail := Js.or_null (rcp_email recipient);
                 ipAddress := Some ip;
                 userAgent := Some ua;
                 metadata :=
                   Some [("fieldId", MStr fieldId);
                         ("fieldType", MFieldType (fld_field_type field));
                         ("isKYC", MBool (Js.truthy (kycNftAddress body)
                                          && Js.truthy (verifiedName body)))] |} in
          (json 200 (BFieldOk fieldId "Field signed successfully"), s3)
      end
  end end end.

(** [DELETE /:token/field/:fieldId] *)
Definition unsign_field {E : Env} (s : Store) (now : timestamp)
    (token fieldId : string) : Response * Store :=
  match Db.getRecipientByToken s token with
  | None => (json 404 (BError "Invalid signing token"), s)
  | Some recipient =>
  if SigningStatus_eqb (rcp_signing_status recipient) sg_signed then
    (json 400 (BError "Cannot unsign after completing the signing session"), s)
  else
  match Db.getFieldById s fieldId with
  | None => (json 404 (BError "Field not found"), s)
  | Some field =>
  if negb (String.eqb (fld_recipient_id field) (rcp_id recipient)) then
    (json 403 (BError "Field does not belong to this recipient"), s)
  else
    let s1 := Db.deleteSignatureByField s fieldId in
    let '(_, s2) := Db.clearFieldValue s1 fieldId in
    let '(_, s3) :=
      Db.createAuditLog s2 now (Some (rcp_package_id recipient)) field_signed
        {| userWallet := Js.or_null (rcp_wallet_address recipient);
           userEmail := Js.or_null (rcp_email recipient);
           ipAddress := None; userAgent := None;
           metadata :=
             Some [("fieldId", MStr fieldId);
                   ("fieldType", MFieldType (fld_field_type field));
                   ("action", MStr "unsigned")] |} in
    (json 200 (BFieldOk fieldId "Field unsigned successfully"), s3)
  end end.

(** [POST /:token/complete] *)
Definition complete_signing {E : Env} (s : Store) (now : timestamp) (req : Request)
    (token : string) : Response * Store :=
  match Db.getRecipientByToken s token with
  | None => (json 404 (BError "Invalid signing token"), s)
  | Some recipient =>
      let fields := Db.getFieldsByRecipient s (rcp_id recipient) in
      let unsignedRequired :=
        filter
          (fun f =>
             isRequiredField (fld_field_type f) (fld_field_meta f)
             && match Db.getSignatureByField s (fld_id f) with
                | Some _ => false
                | None => true
                end)
          fields in
      if (0 <? List.length unsignedRequired)%nat then
        (json 400
           (BUnsignedFields "Not all required fields are signed"
              (map (fun f => (fld_id f, fld_field_type f)) unsignedRequired)),
         s)
      else
        let ip := getClientIp req in
        let ua := Js.or_str (header_user_agent req) "" in
        let '(_, s1) :=
          Db.updateRecipientStatus s now (rcp_id recipient) sg_signed (Some ip) (Some ua) in
        let '(_, s2) :=
          Db.createAuditLog s1 now (Some (rcp_package_id recipient)) signing_completed
            {| userWallet := Js.or_null (rcp_wallet_address recipient);
               userEmail := Js.or_null (rcp_email recipient);
               ipAddress := Some ip; userAgent := Some ua;
               metadata :=
                 Some [("recipientName", MStr (rcp_name recipient));
                       ("signedAt", MIsoDate now)] |} in
        let '(documentCompleted, s3) :=
          DocumentService.checkAndCompleteDocument s2 now (rcp_package_id recipient) in
        (json 200
           (BCompleted "Signing completed successfully" sg_signed documentCompleted now ip),
         s3)
  end.

End SigningRoutes.

(** ** [routes/documents.ts] *)

Module DocumentRoutes.

Record FieldInput := {
  fi_recipientId : string;
  fi_fieldType : FieldType;
  fi_page : option Z;
  fi_positionX : option number;
  fi_positionY : option number;
  fi_width : option number;
  fi_height : option number;
  fi_fieldMeta : option FieldMeta
}.

(** [x || d] on optional numbers: [undefined] and [0] are falsy. *)
Definition num_or (o : option number) (d : Z) : number :=
  match o with
  | Some q => if Qeq_bool q (inject_Z 0) then inject_Z d else q
  | None => inject_Z d
  end.

Definition int_or (o : option Z) (d : Z) : Z :=
  match o with
  | Some z => if (z =? 0)%Z then d else z
  | None => d
  end.

(** The validation loop over [body.recipients]: the first complaint, if any. *)
Fixpoint validateRecipients (l : list RecipientInput) : option Response :=
  match l with
  | [] => None
  | recipient :: rest =>
      if negb (Js.truthy (in_walletAddress recipient))
         && negb (Js.truthy (in_email recipient)) then
        Some (json 400 (BErrorRecipient
                          "Each recipient must have walletAddress and/or email" recipient))
      else if String.eqb (in_name recipient) "" then
        Some (json 400 (BError "Each recipient must have a name"))
      else validateRecipients rest
  end.

(** The handler of [POST /create], entered only through [next()]. *)
Definition create_handler {E : Env} (s : Store) (now : timestamp)
    (body : CreateDocumentRequest) (paymentInfo : PaymentInfo) : Response * Store :=
  if negb (Js.truthy (title body)) then
    (json 400 (BError "title is required"), s)
  else if negb (Js.truthy (doc_format body))
          || negb (Db.opt_eqb (doc_format body) "html" || Db.opt_eqb (doc_format body) "pdf")
  then
    (json 400 (BError ("format must be " +++ Js.dquote +++ "html" +++ Js.dquote
                       +++ " or " +++ Js.dquote +++ "pdf" +++ Js.dquote)), s)
  else if Db.opt_eqb (doc_format body) "html" && negb (Js.truthy (content body)) then
    (json 400 (BError "content is required for HTML format"), s)
  else if Db.opt_eqb (doc_format body) "pdf" && negb (Js.truthy (pdfBase64 body)) then
    (json 400 (BError "pdfBase64 is required for PDF format"), s)
  else
    match req_recipients body with
    | None | Some [] => (json 400 (BError "at least one recipient is required"), s)
    | Some recipients =>
        match validateRecipients recipients with
        | Some r => (r, s)
        | None =>
            match DocumentService.createDocument s now body paymentInfo with
            | (Some result, s1) =>
                (X402.attachPaymentResponseHeader (json 200 (BCreated result))
                   (transactionHash paymentInfo) (payer paymentInfo),
                 s1)
            | (None, s1) => (json 500 (BError "Failed to create document"), s1)
            end
        end
    end.

(** [POST /create]: the payment gate, then the handler. *)
Definition post_create {E : Env} (s : Store) (now : timestamp) (req : Request)
    (body : CreateDocumentRequest) : Response * Store :=
  match fst (X402.x402PaymentMiddleware req) with
  | X402.Responded r => (r, s)
  | X402.Next paymentInfo => create_handler s now body paymentInfo
  end.

Fixpoint addFields {E : Env} (s : Store) (id : string) (fields : list FieldInput)
    : list SignatureField * Store :=
  match fields with
  | [] => ([], s)
  | field :: rest =>
      let '(created, s1) :=
        DocumentService.addFieldToDocument s id (fi_recipientId field) (fi_fieldType field)
          (int_or (fi_page field) 1)
          (num_or (fi_positionX field) 0) (num_or (fi_positionY field) 0)
          (num_or (fi_width field) 200) (num_or (fi_height field) 60)
          (fi_fieldMeta field) in
      let '(more, s2) := addFields s1 id rest in
      (created :: more, s2)
  end.

(** [PUT /:id/fields] *)
Definition put_fields {E : Env} (s : Store) (id : string) (fields : option (list FieldInput))
    : Response * Store :=
  match DocumentService.getDocument s id with
  | None => (json 404 (BError "Document not found"), s)
  | Some (pkg, _, _) =>
      if negb (DocumentStatus_eqb (pkg_status pkg) st_draft) then
        (json 400 (BError "Cannot modify fields on a non-draft document"), s)
      else
        match fields with
        | None => (json 500 (BError "Failed to add fields"), s)
        | Some l =>
            let '(createdFields, s1) := addFields s id l in
            (json 200 (BFields createdFields), s1)
        end
  end.

Fixpoint addRecipients {E : Env} (s : Store) (now : timestamp) (id : string)
    (inputs : list RecipientInput) : list Recipient * Store :=
  match inputs with
  | [] => ([], s)
  | recipient :: rest =>
      let '(created, s1) := Db.createRecipient s now id recipient in
      let '(more, s2) := addRecipients s1 now id rest in
      (created :: more, s2)
  end.

(** [PUT /:id/recipients] *)
Definition put_recipients {E : Env} (s : Store) (now : timestamp) (id : string)
    (inputs : option (list RecipientInput)) : Response * Store :=
  match DocumentService.getDocument s id with
  | None => (json 404 (BError "Document not found"), s)
  | Some (pkg, _, _) =>
      if negb (DocumentStatus_eqb (pkg_status pkg) st_draft) then
        (json 400 (BError "Cannot modify recipients on a non-draft document"), s)
      else
        match inputs with
        | None => (json 500 (BError "Failed to add recipients"), s)
        | Some l =>
            let '(createdRecipients, s1) := addRecipients s now id l in
            (json 200 (BRecipients createdRecipients), s1)
        end
  end.

(** The first signer without a field, if any. *)
Definition signerWithoutFields (doc_recipients : list Recipient)
    (doc_fields : list SignatureField) : option Recipient :=
  find
    (fun r =>
       (List.length
          (filter (fun f => String.eqb (fld_recipient_id f) (rcp_id r)) doc_fields)
        =? 0)%nat)
    (filter (fun r => RecipientRole_eqb (rcp_role r) signer) doc_recipients).

Fixpoint linksFrom {E : Env} (i : nat) (l : list Recipient) : list (string * string) :=
  match l with
  | [] => []
  | r :: rest =>
      ("recipient_" +++ DocumentService.nat_text (i + 1),
       frontendUrl config +++ "/sign/" +++ rcp_token r)
      :: linksFrom (S i) rest
  end.

(** [POST /:id/distribute] *)
Definition post_distribute {E : Env} (s : Store) (now : timestamp) (id : string)
    : Response * Store :=
  match DocumentService.getDocument s id with
  | None => (json 404 (BError "Document not found"), s)
  | Some (pkg, doc_recipients, doc_fields) =>
      if negb (DocumentStatus_eqb (pkg_status pkg) st_draft) then
        (json 400 (BError "Document has already been distributed"), s)
      else if (List.length doc_recipients =? 0)%nat then
        (json 400 (BError "Document must have at least one recipient"), s)
      else
        match signerWithoutFields doc_recipients doc_fields with
        | Some r =>
            (json 400
               (BErrorRecipientId
                  ("Signer " +++ Js.dquote +++ rcp_name r +++ Js.dquote
                   +++ " has no fields assigned")
                  (rcp_id r)),
             s)
        | None =>
            let '(updated, s1) := DocumentService.distributeDocument s now id in
            (json 200
               (BDistributed updated (linksFrom 0 doc_recipients)
                  "Document distributed successfully"),
             s1)
        end
  end.

Definition same_wallet (owner : string) (walletAddress : option string) : bool :=
  match walletAddress with
  | Some w => String.eqb owner w
  | None => false
  end.

(** [POST /:id/cancel] *)
Definition post_cancel {E : Env} (s : Store) (now : timestamp) (id : string)
    (walletAddress : option string) : Response * Store :=
  match DocumentService.getDocument s id with
  | None => (json 404 (BError "Document not found"), s)
  | Some (pkg, _, _) =>
      if negb (same_wallet (pkg_owner_wallet_address pkg) walletAddress) then
        (json 403 (BError "Not authorized to cancel this document"), s)
      else if negb (DocumentStatus_eqb (pkg_status pkg) st_pending) then
        (json 400
           (BError ("Cannot cancel a document with status " +++ Js.dquote
                    +++ DocumentStatus_text (pkg_status pkg) +++ Js.dquote
                    +++ ". Only pending documents can be cancelled.")),
         s)
      else
        let '(updated, s1) := DocumentService.cancelDocument s now id in
        (json 200 (BDocumentMessage updated "Document cancelled successfully"), s1)
  end.

(** [DELETE /:id] *)
Definition delete_document (s : Store) (id : string) (walletAddress : option string)
    : Response * Store :=
  match DocumentService.getDocument s id with
  | None => (json 404 (BError "Document not found"), s)
  | Some (pkg, _, _) =>
      if negb (same_wallet (pkg_owner_wallet_address pkg) walletAddress) then
        (json 403 (BError "Not authorized to delete this document"), s)
      else if negb (DocumentStatus_eqb (pkg_status pkg) st_draft)
              && negb (DocumentStatus_eqb (pkg_status pkg) st_cancelled) then
        (json 400
           (BError ("Cannot delete a document with status " +++ Js.dquote
                    +++ DocumentStatus_text (pkg_status pkg) +++ Js.dquote
                    +++ ". Only draft or cancelled documents can be deleted.")),
         s)
      else
        (json 200 (BMessage "Document deleted successfully"),
         DocumentService.deleteDocument s id)
  end.

End DocumentRoutes.

(** ** Runs of the service

    The operations a client or a caller inside the backend can perform,
    and the store they lead to from the empty database. *)

Inductive Op :=
| CreateDocument (now : timestamp) (req : Request) (body : CreateDocumentRequest)
| PutFields (id : string) (fields : option (list DocumentRoutes.FieldInput))
| PutRecipients (now : timestamp) (id : string) (inputs : option (list RecipientInput))
| Distribute (now : timestamp) (id : string)
| Cancel (now : timestamp) (id : string) (walletAddress : option string)
| Delete (id : string) (walletAddress : option string)
| GetSession (now : timestamp) (req : Request) (token : string) (wallet : option string)
| SignField (now : timestamp) (req : Request) (token fieldId : string) (body : SignFieldRequest)
| UnsignField (now : timestamp) (token fieldId : string)
| CompleteSigning (now : timestamp) (req : Request) (token : string)
(* the lifecycle functions of the service, called without the route guards *)
| ServiceCreate (now : timestamp) (body : CreateDocumentRequest) (paymentInfo : PaymentInfo)
| ServiceDistribute (now : timestamp) (id : string)
| ServiceCancel (now : timestamp) (id : string)
| ServiceCheckAndComplete (now : timestamp) (id : string)
| ServiceDelete (id : string).

Definition step {E : Env} (s : Store) (op : Op) : Store :=
  match op with
  | CreateDocument now req body => snd (DocumentRoutes.post_create s now req body)
  | PutFields id fields => snd (DocumentRoutes.put_fields s id fields)
  | PutRecipients now id inputs => snd (DocumentRoutes.put_recipients s now id inputs)
  | Distribute now id => snd (DocumentRoutes.post_distribute s now id)
  | Cancel now id w => snd (DocumentRoutes.post_cancel s now id w)
  | Delete id w => snd (DocumentRoutes.delete_document s id w)
  | GetSession now req token w => snd (SigningRoutes.get_session s now req token w)
  | SignField now req token fieldId body =>
      snd (SigningRoutes.sign_field s now req token fieldId body)
  | UnsignField now token fieldId => snd (SigningRoutes.unsign_field s now token fieldId)
  | CompleteSigning now req token => snd (SigningRoutes.complete_signing s now req token)
  | ServiceCreate now body paymentInfo =>
      snd (DocumentService.createDocument s now body paymentInfo)
  | ServiceDistribute now id => snd (DocumentService.distributeDocument s now id)
  | ServiceCancel now id => snd (DocumentService.cancelDocument s now id)
  | ServiceCheckAndComplete now id => snd (DocumentService.checkAndCompleteDocument s now id)
  | ServiceDelete id => DocumentService.deleteDocument s id
  end.

Definition run {E : Env} (s : Store) (ops : list Op) : Store := fold_left step ops s.

(** ** Sample data

    A deployment and a few database states on which the handlers can be run. *)

Module Sample.

Definition sample_config : Config :=
  {| x402_facilitatorUrl := "https://facilitator.example/facilitator";
     x402_paymentRecipientAddress := "0xpayee";
     x402_signaturePriceUsdc := "1";
     x402_priceAtomic := "1000000";
     x402_usdcAssetAddress := "0xusdc";
     x402_network := "aptos:2";
     kyc_collectionAddress := "0xkyc";
     frontendUrl := "http://localhost:3000" |}.

(** A payment payload and the header that carries it (the base64 text of
    its JSON form). *)
Definition payment_payload : PaymentPayload :=
  {| pp_x402Version := 2%Z;
     pp_resource := {| res_url := "https://sign.example/api/documents/create";
                       res_description := "Soulbound Signature Service - 1 USDC";
                       res_mimeType := "application/json" |};
     pp_accepted :=
       {| scheme := "exact"; network := "aptos:2";
          amount := "1000000"; asset := "0xusdc";
          payTo := "0xpayee"; maxTimeoutSeconds := 300%Z;
          extra_sponsored := Some true |};
     pp_transaction := "AQID";
     pp_senderAuthenticator := None |}.

Definition payment_header : string :=
  "eyJ4NDAyVmVyc2lvbiI6MiwicmVzb3VyY2UiOnsidXJsIjoiaHR0cHM6Ly9zaWduLmV4YW1w"
  +++ "bGUvYXBpL2RvY3VtZW50cy9jcmVhdGUiLCJkZXNjcmlwdGlvbiI6IlNvdWxib3VuZCBTaWdu"
  +++ "YXR1cmUgU2VydmljZSAtIDEgVVNEQyIsIm1pbWVUeXBlIjoiYXBwbGljYXRpb24vanNvbiJ9"
  +++ "LCJhY2NlcHRlZCI6eyJzY2hlbWUiOiJleGFjdCIsIm5ldHdvcmsiOiJhcHRvczoyIiwiYW1v"
  +++ "dW50IjoiMTAwMDAwMCIsImFzc2V0IjoiMHh1c2RjIiwicGF5VG8iOiIweHBheWVlIiwibWF4"
  +++ "VGltZW91dFNlY29uZHMiOjMwMCwiZXh0cmEiOnsic3BvbnNvcmVkIjp0cnVlfX0sInBheWxv"
  +++ "YWQiOnsidHJhbnNhY3Rpb24iOiJBUUlEIn19".

Definition alice_token : OwnedToken :=
  {| token_data_id := Some "0xnft-alice";
     current_token_data :=
       Some {| collection_id := Some "0xkyc";
               token_properties :=
                 Some {| kyc_status := Some "approved";
                         full_name := Some "Alice Smith";
                         prop_country := Some "NL";
                         verification_date := Some 1700000000000%Z |} |} |}.

(** A deployment whose collaborators answer as given: [render_ok] says
    whether the PDF library succeeds, [verify] and [settle] are the
    facilitator's behaviour. *)
Definition env_with (render_ok : bool) (verify : FetchResult VerifyResult)
    (settle : FetchResult SettleResult) : Env :=
  {| config := sample_config;
     toLowerCase := Js.ascii_toLowerCase;
     slice_to := Js.ascii_slice_to;
     slice_last := Js.ascii_slice_last;
     trim := Js.ascii_trim;
     uuid := fun n => "id-" +++ DocumentService.nat_text n;
     getOwnedDigitalAssets :=
       fun w => if String.eqb w "0xalice" then Some [alice_token] else Some [];
     facilitator_verify := fun _ _ => verify;
     facilitator_settle := fun _ _ => settle;
     decodePaymentSignature :=
       fun h => if String.eqb h payment_header then Some payment_payload else None;
     encodePaymentRequired := fun r => "b64:" +++ res_url (pr_resource r);
     encodeSettlementResponse := fun _ n _ _ => "b64:" +++ n;
     base64_decode := fun x => x;
     base64_encode := fun x => x;
     renderFieldsOnPdf := fun _ pdf _ => if render_ok then Some (pdf +++ "+fields") else None;
     appendConfirmationPage := fun _ pdf _ _ => Some (pdf +++ "+confirmation");
     parseSigFields := fun _ => [] |}.

Definition paid : FetchResult VerifyResult :=
  Parsed {| isValid := true; vr_payer := Some "0xowner"; invalidReason := None |}.

Definition settled : FetchResult SettleResult :=
  Parsed {| success := true; transaction := Some "0xtx"; sr_payer := Some "0xowner";
            errorReason := None |}.

Definition env_ok : Env := env_with true paid settled.
Definition env_render_fails : Env := env_with false paid settled.
Definition env_facilitator_down : Env := env_with true RequestFailed RequestFailed.

(** The facilitator answers the verify call with the body [null]. *)
Definition env_verify_null : Env := env_with true ParsedNull settled.

Definition package (id : string) (st : DocumentStatus) (completedAt : option timestamp)
    : SignaturePackage :=
  {| pkg_id := id; pkg_title := "NDA"; pkg_status := st;
     pkg_owner_wallet_address := "0xowner"; pkg_payment_tx_hash := Some "0xtx";
     pkg_document_data := Some "pdf"; pkg_document_html := None;
     pkg_created_at := 10%Z; pkg_updated_at := 10%Z; pkg_completed_at := completedAt |}.

Definition recipient (id pkg token : string) (wallet : option string)
    (role : RecipientRole) (st : SigningStatus) : Recipient :=
  {| rcp_id := id; rcp_package_id := pkg; rcp_wallet_address := wallet;
     rcp_email := Some "a@x.com"; rcp_name := "Alice"; rcp_role := role;
     rcp_signing_order := Some 1%Z; rcp_signing_status := st;
     rcp_signed_at := match st with sg_signed => Some 20%Z | _ => None end;
     rcp_ip_address := None; rcp_user_agent := None;
     rcp_token := token; rcp_created_at := 10%Z |}.

Definition field (id pkg rcp : string) (t : FieldType) : SignatureField :=
  {| fld_id := id; fld_package_id := pkg; fld_recipient_id := rcp;
     fld_field_type := t; fld_page := 1%Z;
     fld_position_x := inject_Z 10; fld_position_y := inject_Z 20;
     fld_width := inject_Z 30; fld_height := inject_Z 5;
     fld_value := None; fld_field_meta := None; fld_inserted := false |}.

Definition typed_signature (id fld rcp text : string) : Signature :=
  {| sig_id := id; sig_field_id := fld; sig_recipient_id := rcp;
     sig_signature_image := None; sig_typed_signature := Some text;
     sig_kyc_verified_name := None; sig_kyc_nft_address := None;
     sig_wallet_signature := None; sig_wallet_address := None;
     sig_document_hash := None; sig_signed_at := 15%Z |}.

Definition audit (id pkg : string) (e : AuditEventType) : AuditLog :=
  {| log_id := id; log_package_id := Some pkg; log_event_type := e;
     log_user_wallet := Some "0xowner"; log_user_email := None;
     log_ip_address := None; log_user_agent := None; log_data := [];
     log_created_at := 10%Z |}.

Definition store_of (pkgs : list SignaturePackage) (rs : list Recipient)
    (fs : list SignatureField) (gs : list Signature) (ls : list AuditLog) : Store :=
  {| signature_packages := pkgs; recipients := rs; signature_fields := fs;
     signatures := gs; audit_logs := ls; uuid_counter := 100 |}.

(** A pending document, one signer (wallet [0xalice]) with a signature
    field and a text field, nothing signed yet. *)
Definition pending_unsigned : Store :=
  store_of [package "doc1" st_pending None]
    [recipient "r1" "doc1" "tok1" (Some "0xalice") signer sg_pending]
    [field "f1" "doc1" "r1" ft_signature; field "f2" "doc1" "r1" ft_text]
    []
    [audit "a1" "doc1" document_created].

(** The same document after the signer signed [f1] and completed. *)
Definition pending_all_signed : Store :=
  store_of [package "doc1" st_pending None]
    [recipient "r1" "doc1" "tok1" (Some "0xalice") signer sg_signed]
    [field "f1" "doc1" "r1" ft_signature; field "f2" "doc1" "r1" ft_text]
    [typed_signature "s1" "f1" "r1" "Alice A."]
    [audit "a1" "doc1" document_created].

(** A pending document whose only recipient is a viewer. *)
Definition pending_viewer_only : Store :=
  store_of [package "doc1" st_pending None]
    [recipient "r1" "doc1" "tok1" None viewer sg_pending]
    [] []
    [audit "a1" "doc1" document_created].

Definition cancelled_doc : Store :=
  store_of [package "doc1" st_cancelled None]
    [recipient "r1" "doc1" "tok1" (Some "0xalice") signer sg_pending]
    [field "f1" "doc1" "r1" ft_signature]
    [typed_signature "s1" "f1" "r1" "Alice A."]
    [audit "a1" "doc1" document_created; audit "a2" "doc1" document_cancelled].

(** Two documents: the cancelled one, and a pending one with its own
    signer, field, signature and audit event. *)
Definition two_documents : Store :=
  store_of [package "doc1" st_cancelled None; package "doc2" st_pending None]
    [recipient "r1" "doc1" "tok1" (Some "0xalice") signer sg_pending;
     recipient "r2" "doc2" "tok2" (Some "0xbob") signer sg_pending]
    [field "f1" "doc1" "r1" ft_signature; field "f9" "doc2" "r2" ft_signature]
    [typed_signature "s1" "f1" "r1" "Alice A."; typed_signature "s9" "f9" "r2" "Bob B."]
    [audit "a1" "doc1" document_created; audit "a9" "doc2" document_created].

Definition plain_request : Request :=
  {| protocol := "https"; host := "sign.example"; originalUrl := "/api/documents/create";
     header_payment_signature := None; header_user_agent := Some "curl/8";
     header_x_forwarded_for := None; remoteAddress := Some "10.0.0.7" |}.

Definition paying_request : Request :=
  {| protocol := "https"; host := "sign.example"; originalUrl := "/api/documents/create";
     header_payment_signature := Some payment_header; header_user_agent := Some "curl/8";
     header_x_forwarded_for := None; remoteAddress := Some "10.0.0.7" |}.

Definition nda_request : CreateDocumentRequest :=
  {| title := Some "NDA"; doc_format := Some "pdf"; content := None;
     pdfBase64 := Some "pdf";
     req_recipients :=
       Some [{| in_walletAddress := None; in_email := Some "a@x.com"; in_name := "Alice";
                in_role := None; in_signingOrder := None |}] |}.

(** An identity-verified payload. *)
Definition kyc_body (nft name : string) : SignFieldRequest :=
  {| signatureImage := None; typedSignature := None; kycNftAddress := Some nft;
     verifiedName := Some name; walletSignature := None; walletAddress := None;
     documentHash := None; value := None |}.

(** A payload for a non-signature field. *)
Definition value_body (v : string) : SignFieldRequest :=
  {| signatureImage := None; typedSignature := None; kycNftAddress := None;
     verifiedName := None; walletSignature := None; walletAddress := None;
     documentHash := None; value := Some v |}.

(** A payload that offers a typed and a drawn signature at once. *)
Definition typed_and_drawn_body : SignFieldRequest :=
  {| signatureImage := Some "data:image/png;base64,AAAA";
     typedSignature := Some "Alice A."; kycNftAddress := None;
     verifiedName := None; walletSignature := None; walletAddress := None;
     documentHash := None; value := None |}.

(** A draft with one signer and a field for the signer. *)
Definition draft_ready : Store :=
  store_of [package "doc1" st_draft None]
    [recipient "r1" "doc1" "tok1" (Some "0xalice") signer sg_pending]
    [field "f1" "doc1" "r1" ft_signature]
    []
    [audit "a1" "doc1" document_created].


(** An identity-verified payload that also carries a wallet proof. *)
Definition kyc_and_wallet_body : SignFieldRequest :=
  {| signatureImage := None; typedSignature := None; kycNftAddress := Some "0xnft-alice";
     verifiedName := Some "alice smith"; walletSignature := Some "0xsig";
     walletAddress := Some "0xalice"; documentHash := Some "abc123"; value := None |}.

End Sample.

(** ** Vocabulary of the properties *)

Module Spec.

(** "every recipient with role signer has signingStatus signed" *)
Definition all_signers_signed (s : Store) (documentId : string) : Prop :=
  forall r, In r (recipients s) -> rcp_package_id r = documentId ->
            rcp_role r = signer -> rcp_signing_status r = sg_signed.

Definition has_signer (s : Store) (documentId : string) : Prop :=
  exists r, In r (recipients s) /\ rcp_package_id r = documentId /\ rcp_role r = signer.

(** The status of the document, as a query would read it. *)
Definition status_of (s : Store) (documentId : string) : option DocumentStatus :=
  option_map pkg_status (Db.getPackageById s documentId).

(** "completedAt is non-null iff status == completed" *)
Definition completedAt_matches_status (p : SignaturePackage) : Prop :=
  pkg_completed_at p <> None <-> pkg_status p = st_completed.

(** Every package row of the store satisfies it. *)
Definition stamped (s : Store) : Prop :=
  forall p, In p (signature_packages s) -> completedAt_matches_status p.

(** The finalization pipeline runs on the document and throws. *)
Definition finalization_fails {E : Env} (s : Store) (documentId : string) : Prop :=
  Db.checkAllRecipientsSigned s documentId = true
  /\ exists doc data,
       Db.getPackageById s documentId = Some doc
       /\ pkg_document_data doc = Some data /\ data <> ""
       /\ DocumentService.finalPdfBase64 s documentId doc data = None.

(** The sentence about a failing finalization, as the specification has it. *)
Definition stays_pending_when_finalization_fails {E : Env}
    (s : Store) (now : timestamp) (documentId : string) : Prop :=
  status_of s documentId = Some st_pending ->
  finalization_fails s documentId ->
  status_of (snd (DocumentService.checkAndCompleteDocument s now documentId)) documentId
  = Some st_pending.

(** The sentence about completion, as the specification has it, the
    vacuous case of a document without signers included. *)
Definition completes_iff_all_signers_signed {E : Env}
    (s : Store) (now : timestamp) (documentId : string) : Prop :=
  fst (DocumentService.checkAndCompleteDocument s now documentId) = true
  <-> all_signers_signed s documentId.


(** [s'] holds no recipient, field or signature row that [s] does not hold. *)
Definition shrinks (s s' : Store) : Prop :=
  incl (recipients s') (recipients s)
  /\ incl (signature_fields s') (signature_fields s)
  /\ incl (signatures s') (signatures s).

(** The four signing modes of a signature-class field. *)
Inductive SigningMode := IdentityVerified | WalletCryptographic | Typed | Drawn.

(** The mode a payload asks for, by the precedence the handler follows:
    the wallet mode is open to every payload without a complete identity
    pair.  A payload field is present when it is defined and not empty. *)
Definition mode_by_precedence (body : SignFieldRequest) : option SigningMode :=
  if Js.truthy (kycNftAddress body) && Js.truthy (verifiedName body) then
    Some IdentityVerified
  else if Js.truthy (walletSignature body) && Js.truthy (walletAddress body)
          && Js.truthy (documentHash body) then
    Some WalletCryptographic
  else if Js.truthy (typedSignature body) then Some Typed
  else if Js.truthy (signatureImage body) then Some Drawn
  else None.


(** The request reached the branch on the field type: the token names a
    recipient, the field exists, is assigned to the recipient and is unsigned. *)
Definition may_sign (s : Store) (token fieldId : string)
    (recipient : Recipient) (field : SignatureField) : Prop :=
  Db.getRecipientByToken s token = Some recipient
  /\ Db.getFieldById s fieldId = Some field
  /\ fld_recipient_id field = rcp_id recipient
  /\ Db.getSignatureByField s fieldId = None.

(** After the call the field is signed by exactly the row [g] and shows [v]. *)
Definition signed_with (s s' : Store) (fieldId : string) (field : SignatureField)
    (g : Signature) (v : string) : Prop :=
  signatures s' = signatures s ++ [g]
  /\ sig_field_id g = fieldId
  /\ Db.getSignatureByField s' fieldId = Some g
  /\ Db.getFieldById s' fieldId = Some (Db.set_field_value field (Some v) true).



End Spec.

(** ** Read-only document routes ([routes/documents.ts]) *)

Module DocumentReads.

(** A recipient as [GET /:id] shows it: the access token is left out. *)
Record MaskedRecipient := {
  mr_id : string;
  mr_name : string;
  mr_email : option string;
  mr_walletAddress : option string;
  mr_role : RecipientRole;
  mr_signingStatus : SigningStatus;
  mr_signedAt : option timestamp
}.

Definition mask (r : Recipient) : MaskedRecipient :=
  {| mr_id := rcp_id r; mr_name := rcp_name r; mr_email := rcp_email r;
     mr_walletAddress := rcp_wallet_address r; mr_role := rcp_role r;
     mr_signingStatus := rcp_signing_status r; mr_signedAt := rcp_signed_at r |}.

Inductive Reply :=
| NotFound (error : string)
| Document (document : SignaturePackage) (recipients : list MaskedRecipient)
    (fields : list SignatureField)
| File (headers : list (string * string)) (bytes : string)
| Documents (documents : list SignaturePackage).

(** [GET /:id] *)
Definition get_document (s : Store) (id : string) : Reply :=
  match DocumentService.getDocument s id with
  | None => NotFound "Document not found"
  | Some (pkg, doc_recipients, doc_fields) =>
      Document pkg (map mask doc_recipients) doc_fields
  end.

(** [GET /:id/preview] *)
Definition get_preview {E : Env} (s : Store) (id : string) : Reply :=
  match DocumentService.getDocument s id with
  | None => NotFound "Document not found"
  | Some (pkg, _, _) =>
      if Js.truthy (pkg_document_data pkg) then
        File [("Content-Type", "application/pdf");
              ("Content-Disposition",
               "inline; filename=" +++ Js.dquote +++ pkg_title pkg +++ ".pdf" +++ Js.dquote)]
          (base64_decode (Js.or_str (pkg_document_data pkg) ""))
      else NotFound "PDF preview not available yet"
  end.


(** [GET /owner/:walletAddress] *)
Definition get_owner_documents (s : Store) (walletAddress : string) : Reply :=
  Documents (DocumentService.getDocumentsByOwner s walletAddress).

End DocumentReads.

(** ** The inbox routes *)

Module InboxRoutes.

Record InboxDocument := {
  ib_id : string;
  ib_title : string;
  ib_status : DocumentStatus;
  ib_ownerWallet : string;
  ib_createdAt : timestamp;
  ib_recipientRole : RecipientRole;
  ib_signingStatus : SigningStatus;
  ib_signingToken : string;
  ib_signingUrl : string
}.

(** The document view of the inbox; [document] and [recipient] are sent
    as the summaries the handler builds from these rows, the recipient's
    token among them. *)
Record InboxView := {
  iv_document : SignaturePackage;
  iv_recipient : Recipient;
  iv_token : string;
  iv_fields : list (SignatureField * bool);
  iv_totalFields : nat;
  iv_signedFields : nat;
  iv_allFieldsSigned : bool;
  iv_kycVerifiedNames : list KYCVerifiedIdentity;
  iv_hasKYC : bool;
  iv_signingUrl : string
}.

Inductive Reply :=
| Refused (code : nat) (error : string)
| Forbidden (error : string) (walletAddress : string)
| Inbox (walletAddress : string) (hasKYC : bool) (names : list KYCVerifiedIdentity)
    (pendingCount : nat) (documents : list InboxDocument)
| View (view : InboxView).

Definition inboxDocument (row : Recipient * SignaturePackage) : InboxDocument :=
  let '(r, p) := row in
  {| ib_id := rcp_package_id r; ib_title := pkg_title p; ib_status := pkg_status p;
     ib_ownerWallet := pkg_owner_wallet_address p; ib_createdAt := pkg_created_at p;
     ib_recipientRole := rcp_role r; ib_signingStatus := rcp_signing_status r;
     ib_signingToken := rcp_token r; ib_signingUrl := "/sign/" +++ rcp_token r |}.

(** [GET /:walletAddress] *)
Definition get_inbox {E : Env} (s : Store) (now : timestamp) (walletAddress : string)
    : Reply :=
  if negb (String.prefix "0x" walletAddress) then
    Refused 400 "Invalid wallet address format"
  else
    let rows := Db.getRecipientsByWallet s walletAddress in
    let documents := map inboxDocument rows in
    let kycNames := Kyc.getKYCVerifiedNames now walletAddress in
    Inbox walletAddress (0 <? List.length kycNames)%nat kycNames
      (List.length documents) documents.



End InboxRoutes.

(** ** Text helpers of the renderers
    ([services/html-renderer.ts], [services/pdf-converter.ts]) *)

Module Html.

(** [s.replace(/c/g, rep)] for a single character [c]. *)
Fixpoint replace_all_char (c : ascii) (rep : string) (s : string) : string :=
  match s with
  | EmptyString => EmptyString
  | String x r =>
      if Ascii.eqb x c then rep +++ replace_all_char c rep r
      else String x (replace_all_char c rep r)
  end.

Definition amp : ascii := "&"%char.
Definition lt : ascii := "<"%char.
Definition gt : ascii := ">"%char.
Definition quot : ascii := ascii_of_nat 34.
Definition apos : ascii := ascii_of_nat 39.

Definition escapeHtml (str : string) : string :=
  replace_all_char apos "&#039;"
    (replace_all_char quot "&quot;"
       (replace_all_char gt "&gt;"
          (replace_all_char lt "&lt;"
             (replace_all_char amp "&amp;" str)))).

(** One turn of the loop of [wrapListItems]: the lines pushed so far and
    the [inList] flag. *)
Definition wrap_step (st : list string * bool) (el : string) : list string * bool :=
  let '(result, inList) := st in
  if String.prefix "<li>" el then
    let result := if negb inList then result ++ ["<ul>"] else result in
    (result ++ ["  " +++ el], true)
  else
    let result := if inList then result ++ ["</ul>"] else result in
    (result ++ [el], false).

(** The [result] array of [wrapListItems] when the loop and the final
    closing push are done. *)
Definition wrapListItems_lines (elements : list string) : list string :=
  let '(result, inList) := fold_left wrap_step elements ([], false) in
  if inList then result ++ ["</ul>"] else result.

Definition newline : string := String (ascii_of_nat 10) EmptyString.

Definition wrapListItems (elements : list string) : string :=
  Js.join newline (map (fun el => "  " +++ el) (wrapListItems_lines elements)).

End Html.

(** ** Vocabulary of the further properties *)

Module Laws.

(** A field of the recipient that must be signed and is not. *)
Definition required_unsigned (s : Store) (r : Recipient) (f : SignatureField) : Prop :=
  In f (signature_fields s)
  /\ fld_recipient_id f = rcp_id r
  /\ SigningRoutes.isRequiredField (fld_field_type f) (fld_field_meta f) = true
  /\ Db.getSignatureByField s (fld_id f) = None.

(** The recipient, field and signature tables are the same in both stores. *)
Definition same_rows (s s' : Store) : Prop :=
  recipients s' = recipients s
  /\ signature_fields s' = signature_fields s
  /\ signatures s' = signatures s.

(** The audit trail of [s'] extends the one of [s]. *)
Definition audit_grows (s s' : Store) : Prop :=
  exists l, audit_logs s' = audit_logs s ++ l.

(** The signature type the signing session reports for a payload that was
    recorded on a signature-class field. *)
Definition reported_type (body : SignFieldRequest) : option SignatureType :=
  match Spec.mode_by_precedence body with
  | Some Spec.IdentityVerified =>
      Some (if Js.truthy (walletSignature body) then type_wallet else type_kyc)
  | Some Spec.WalletCryptographic => Some type_wallet
  | Some Spec.Typed => Some type_typed
  | Some Spec.Drawn => Some type_drawn
  | None => None
  end.

(** A recipient row as it is inserted: on the document, not signed. *)
Definition fresh_recipient (d : string) (r : Recipient) : Prop :=
  rcp_package_id r = d /\ rcp_signing_status r = sg_pending /\ rcp_signed_at r = None.

(** [input.role || 'signer'] *)
Definition role_or_signer (input : RecipientInput) : RecipientRole :=
  match in_role input with
  | Some r => r
  | None => signer
  end.

(** The handler refused the request itself: an answer of the 4xx class. *)
Definition client_error (r : Response) : Prop := (400 <= status r < 500)%nat.

(** The operations that delete a document. *)
Definition deletes (op : Op) : bool :=
  match op with
  | Delete _ _ | ServiceDelete _ => true
  | _ => false
  end.

(** No field carries more than one signature row. *)
Definition one_signature_per_field (s : Store) : Prop :=
  NoDup (map sig_field_id (signatures s)).

(** A recipient row has a signing time exactly when it is signed. *)
Definition signed_at_matches_status (s : Store) : Prop :=
  forall r, In r (recipients s) ->
            (rcp_signed_at r <> None <-> rcp_signing_status r = sg_signed).

(** How one operation changes the signature table: it adds a row for a
    field that had none, or it keeps a selection of the rows. *)
Definition signatures_step (s s' : Store) : Prop :=
  (exists g, signatures s' = signatures s ++ [g]
             /\ Db.getSignatureByField s (sig_field_id g) = None)
  \/ (exists p, signatures s' = filter p (signatures s)).

(** How one operation changes the recipient table: it adds fresh rows,
    marks a recipient signed, or keeps a selection of the rows. *)
Definition recipients_step (s s' : Store) : Prop :=
  (exists d created,
      recipients s' = recipients s ++ created /\ Forall (fresh_recipient d) created)
  \/ (exists now id ip ua,
         recipients s' = recipients (snd (Db.updateRecipientStatus s now id sg_signed ip ua)))
  \/ (exists p, recipients s' = filter p (recipients s)).

Definition footprint (s s' : Store) : Prop :=
  signatures_step s s' /\ recipients_step s s' /\ audit_grows s s'.

(** The text that stands for one character in escaped HTML. *)
Definition entity (c : ascii) : string :=
  if Ascii.eqb c Html.amp then "&amp;"
  else if Ascii.eqb c Html.lt then "&lt;"
  else if Ascii.eqb c Html.gt then "&gt;"
  else if Ascii.eqb c Html.quot then "&quot;"
  else if Ascii.eqb c Html.apos then "&#039;"
  else String c EmptyString.

(** A text with each character replaced by its entity, once. *)
Fixpoint escape_each (s : string) : string :=
  match s with
  | EmptyString => EmptyString
  | String c r => entity c +++ escape_each r
  end.

Definition is_item (el : string) : bool := String.prefix "<li>" el.

Definition indent (el : string) : string := "  " +++ el.

(** [Wrapped elements lines]: [lines] is [elements] with every maximal
    run of consecutive list items put, indented, between one ["<ul>"]
    line and one ["</ul>"] line, and every other element left as it is. *)
Inductive Wrapped : list string -> list string -> Prop :=
| Wrapped_nil : Wrapped [] []
| Wrapped_plain (el : string) (rest out : list string) :
    is_item el = false -> Wrapped rest out -> Wrapped (el :: rest) (el :: out)
| Wrapped_list (items rest out : list string) :
    items <> [] ->
    Forall (fun el => is_item el = true) items ->
    match rest with [] => True | el :: _ => is_item el = false end ->
    Wrapped rest out ->
    Wrapped (items ++ rest) ("<ul>" :: map indent items ++ "</ul>" :: out).

(** The lines the loop of [wrapListItems] pushes from a given state on,
    the closing push included. *)
Fixpoint wrap_from (inList : bool) (elements : list string) : list string :=
  match elements with
  | [] => if inList then ["</ul>"] else []
  | el :: rest =>
      if is_item el then
        (if inList then [] else ["<ul>"]) ++ indent el :: wrap_from true rest
      else
        (if inList then ["</ul>"] else []) ++ el :: wrap_from false rest
  end.

End Laws.

(** * Properties *)

Import Spec.

(** ** Lists, rows and queries *)

Lemma DocumentStatus_eqb_eq (a b : DocumentStatus) :
  DocumentStatus_eqb a b = true <-> a = b.
Proof. destruct a, b; simpl; split; congruence. Qed.

Lemma RecipientRole_eqb_eq (a b : RecipientRole) :
  RecipientRole_eqb a b = true <-> a = b.
Proof. destruct a, b; simpl; split; congruence. Qed.

Lemma SigningStatus_eqb_eq (a b : SigningStatus) :
  SigningStatus_eqb a b = true <-> a = b.
Proof. destruct a, b; simpl; split; congruence. Qed.

Lemma truthy_some (x : string) : Js.truthy (Some x) = true <-> x <> "".
Proof.
  unfold Js.truthy. destruct (String.eqb_spec x ""); simpl; split; congruence.
Qed.

Lemma or_str_truthy (o : option string) (d : string) :
  Js.truthy o = true -> o = Some (Js.or_str o d).
Proof.
  unfold Js.or_str, Js.or. intros H. rewrite H. destruct o; [reflexivity | discriminate].
Qed.


Lemma filter_length_all {A} (p : A -> bool) (l : list A) :
  List.length (filter p l) = List.length l <-> forall x, In x l -> p x = true.
Proof.
  induction l as [|a l IH]; simpl.
  - split; [intros _ x [] | reflexivity].
  - pose proof (filter_length_le p l) as Hle.
    destruct (p a) eqn:Ha; simpl; split.
    + intros H x [<- | Hx]; [assumption | apply IH; [lia | assumption]].
    + intros H. f_equal. apply IH. intros x Hx. apply H. now right.
    + intros H. lia.
    + intros H. specialize (H a (or_introl eq_refl)). congruence.
Qed.

Lemma filter_nil_iff {A} (p : A -> bool) (l : list A) :
  filter p l = [] <-> forall x, In x l -> p x = false.
Proof.
  induction l as [|a l IH]; simpl.
  - split; [intros _ x [] | reflexivity].
  - destruct (p a) eqn:Ha; split.
    + discriminate.
    + intros H. specialize (H a (or_introl eq_refl)). congruence.
    + intros H x [<- | Hx]; [assumption | now apply IH].
    + intros H. apply IH. intros x Hx. apply H. now right.
Qed.

Lemma hd_error_filter_none {A} (p : A -> bool) (l : list A) :
  hd_error (filter p l) = None <-> filter p l = [].
Proof. destruct (filter p l); simpl; split; congruence. Qed.

Lemma hd_error_filter_app_new {A} (p : A -> bool) (l : list A) (x : A) :
  hd_error (filter p l) = None -> p x = true ->
  hd_error (filter p (l ++ [x])) = Some x.
Proof.
  intros Hnone Hx. apply hd_error_filter_none in Hnone.
  rewrite filter_app, Hnone. simpl. now rewrite Hx.
Qed.

(** A row update that keeps the key maps the first hit of a lookup. *)
Lemma hd_error_filter_map {A} (p : A -> bool) (f : A -> A) (l : list A) :
  (forall x, p (f x) = p x) ->
  hd_error (filter p (map f l)) = option_map f (hd_error (filter p l)).
Proof.
  intros Hp. induction l as [|a l IH]; simpl; [reflexivity|].
  rewrite Hp. destruct (p a); simpl; [reflexivity | exact IH].
Qed.


Lemma In_insert_by {A} (le : A -> A -> bool) (x a : A) (l : list A) :
  In x (Db.insert_by le a l) <-> x = a \/ In x l.
Proof.
  induction l as [|y r IH]; simpl.
  - intuition congruence.
  - destruct (le a y); simpl; [intuition congruence|].
    rewrite IH. intuition congruence.
Qed.

Lemma In_sort_by {A} (le : A -> A -> bool) (x : A) (l : list A) :
  In x (Db.sort_by le l) <-> In x l.
Proof.
  unfold Db.sort_by. induction l as [|a l IH]; simpl; [tauto|].
  rewrite In_insert_by, IH. intuition congruence.
Qed.

(** ** Completion check *)

Lemma checkAllRecipientsSigned_spec (s : Store) (d : string) :
  Db.checkAllRecipientsSigned s d = true <-> has_signer s d /\ all_signers_signed s d.
Proof.
  unfold Db.checkAllRecipientsSigned, has_signer, all_signers_signed.
  rewrite andb_true_iff, Nat.ltb_lt, Nat.eqb_eq.
  assert (Hin : forall r, In r (Db.signers_of s d)
                          <-> In r (recipients s) /\ rcp_package_id r = d /\ rcp_role r = signer).
  { intros r. unfold Db.signers_of. rewrite filter_In, andb_true_iff.
    rewrite String.eqb_eq, RecipientRole_eqb_eq. tauto. }
  split.
  - intros [Hpos Hall]. split.
    + revert Hpos Hin. destruct (Db.signers_of s d) as [|r l]; intros Hpos Hin;
        [simpl in Hpos; lia|].
      exists r. apply Hin. now left.
    + symmetry in Hall. rewrite filter_length_all in Hall.
      intros r Hr Hd Hrole. apply SigningStatus_eqb_eq, Hall, Hin. tauto.
  - intros [[r Hr] Hall]. split.
    + apply Hin in Hr. revert Hr. destruct (Db.signers_of s d); simpl; [tauto | lia].
    + symmetry. apply filter_length_all. intros x Hx. apply Hin in Hx.
      apply SigningStatus_eqb_eq. apply Hall; tauto.
Qed.

Lemma getPackageById_updatePackageStatus (s : Store) (now : timestamp) (d : string)
    (st : DocumentStatus) :
  Db.getPackageById (snd (Db.updatePackageStatus s now d st)) d
  = option_map
      (fun p =>
         {| pkg_id := pkg_id p; pkg_title := pkg_title p; pkg_status := st;
            pkg_owner_wallet_address := pkg_owner_wallet_address p;
            pkg_payment_tx_hash := pkg_payment_tx_hash p;
            pkg_document_data := pkg_document_data p;
            pkg_document_html := pkg_document_html p;
            pkg_created_at := pkg_created_at p; pkg_updated_at := now;
            pkg_completed_at :=
              if DocumentStatus_eqb st st_completed then Some now else None |})
      (Db.getPackageById s d).
Proof.
  unfold Db.updatePackageStatus, Db.getPackageById. simpl.
  rewrite hd_error_filter_map.
  - destruct (hd_error (filter (fun p => String.eqb (pkg_id p) d) (signature_packages s)))
      as [p|] eqn:Hp; simpl; [|reflexivity].
    assert (Hid : String.eqb (pkg_id p) d = true).
    { destruct (filter (fun p => String.eqb (pkg_id p) d) (signature_packages s)) as [|q l] eqn:Hf;
        [discriminate|].
      simpl in Hp. injection Hp as ->.
      assert (In p (filter (fun p => String.eqb (pkg_id p) d) (signature_packages s)))
        by (rewrite Hf; now left).
      apply filter_In in H. tauto. }
    now rewrite Hid.
  - intros x. destruct (String.eqb (pkg_id x) d) eqn:Hx; simpl; now rewrite Hx.
Qed.

Lemma updatePackageStatus_rows (s : Store) (now : timestamp) (d : string)
    (st : DocumentStatus) (p : SignaturePackage) :
  In p (signature_packages (snd (Db.updatePackageStatus s now d st))) ->
  pkg_id p = d ->
  pkg_status p = st
  /\ pkg_completed_at p = (if DocumentStatus_eqb st st_completed then Some now else None).
Proof.
  unfold Db.updatePackageStatus. simpl. rewrite in_map_iff.
  intros [q [Hq _]] Hid. subst p.
  destruct (String.eqb (pkg_id q) d) eqn:Hqd; simpl in *; [tauto|].
  apply String.eqb_neq in Hqd. contradiction.
Qed.

Lemma createAuditLog_packages {E : Env} (s : Store) (now : timestamp)
    (pkg : option string) (e : AuditEventType) (data : AuditData) :
  signature_packages (snd (Db.createAuditLog s now pkg e data)) = signature_packages s.
Proof. reflexivity. Qed.

Lemma getPackageById_updatePackageDocument (s : Store) (now : timestamp) (d data : string) :
  Db.getPackageById (snd (Db.updatePackageDocument s now d data)) d
  = option_map
      (fun p =>
         {| pkg_id := pkg_id p; pkg_title := pkg_title p; pkg_status := pkg_status p;
            pkg_owner_wallet_address := pkg_owner_wallet_address p;
            pkg_payment_tx_hash := pkg_payment_tx_hash p;
            pkg_document_data := Some data;
            pkg_document_html := pkg_document_html p;
            pkg_created_at := pkg_created_at p; pkg_updated_at := now;
            pkg_completed_at := pkg_completed_at p |})
      (Db.getPackageById s d).
Proof.
  unfold Db.updatePackageDocument, Db.getPackageById. simpl.
  rewrite hd_error_filter_map.
  - destruct (hd_error (filter (fun p => String.eqb (pkg_id p) d) (signature_packages s)))
      as [p|] eqn:Hp; simpl; [|reflexivity].
    assert (Hid : String.eqb (pkg_id p) d = true).
    { destruct (filter (fun p => String.eqb (pkg_id p) d) (signature_packages s)) as [|q l] eqn:Hf;
        [discriminate|].
      simpl in Hp. injection Hp as ->.
      assert (In p (filter (fun p => String.eqb (pkg_id p) d) (signature_packages s)))
        by (rewrite Hf; now left).
      apply filter_In in H. tauto. }
    now rewrite Hid.
  - intros x. destruct (String.eqb (pkg_id x) d) eqn:Hx; simpl; now rewrite Hx.
Qed.

(** Finalization never removes the document, whatever the renderer does. *)
Lemma generateFinalDocument_keeps_document {E : Env} (s : Store) (now : timestamp)
    (d : string) (p : SignaturePackage) :
  Db.getPackageById s d = Some p ->
  exists p', Db.getPackageById (DocumentService.generateFinalDocument s now d) d = Some p'
             /\ pkg_status p' = pkg_status p.
Proof.
  intros Hp. unfold DocumentService.generateFinalDocument. rewrite Hp.
  destruct (negb (Js.truthy (pkg_document_data p))); [now exists p|].
  destruct (DocumentService.finalPdfBase64 s d p _) as [final|]; [|now exists p].
  rewrite getPackageById_updatePackageDocument, Hp. simpl. eexists. split; reflexivity.
Qed.

Lemma checkAndCompleteDocument_true {E : Env} (s : Store) (now : timestamp) (d : string) :
  Db.checkAllRecipientsSigned s d = true ->
  DocumentService.checkAndCompleteDocument s now d
  = (true,
     snd (Db.createAuditLog
            (snd (Db.updatePackageStatus (DocumentService.generateFinalDocument s now d)
                    now d st_completed))
            now (Some d) document_completed
            {| userWallet := None; userEmail := None; ipAddress := None; userAgent := None;
               metadata := Some [("completedAt", MIsoDate now)] |})).
Proof. intros H. unfold DocumentService.checkAndCompleteDocument. rewrite H. reflexivity. Qed.

Lemma checkAndCompleteDocument_false {E : Env} (s : Store) (now : timestamp) (d : string) :
  Db.checkAllRecipientsSigned s d = false ->
  DocumentService.checkAndCompleteDocument s now d = (false, s).
Proof. intros H. unfold DocumentService.checkAndCompleteDocument. now rewrite H. Qed.

(** ** The claims about completion *)

(** C2 (as the code has it).  [checkAndComplete] reports completion exactly
    when the document has at least one recipient with role signer and every
    such recipient has signing status signed.  In that case every row of the
    document carries status completed afterwards; otherwise the call returns
    false and leaves the whole store, the status included, as it was. *)
Theorem checkAndComplete_iff_signers_done {E : Env}
    (s : Store) (now : timestamp) (d : string) :
  let out := DocumentService.checkAndCompleteDocument s now d in
  (fst out = true <-> has_signer s d /\ all_signers_signed s d)
  /\ (fst out = true ->
      (forall p, In p (signature_packages (snd out)) -> pkg_id p = d ->
                 pkg_status p = st_completed)
      /\ (forall p, Db.getPackageById s d = Some p -> status_of (snd out) d = Some st_completed))
  /\ (fst out = false -> snd out = s).
Proof.
  cbv zeta. rewrite <- checkAllRecipientsSigned_spec.
  destruct (Db.checkAllRecipientsSigned s d) eqn:Hall.
  - rewrite (checkAndCompleteDocument_true s now d Hall). cbn [fst snd].
    split; [tauto|]. split; [|discriminate]. intros _. split.
    + intros p Hin Hid. rewrite createAuditLog_packages in Hin.
      now apply (updatePackageStatus_rows _ _ _ _ _ Hin).
    + intros p Hp. unfold status_of, Db.getPackageById.
      rewrite createAuditLog_packages. fold (Db.getPackageById
        (snd (Db.updatePackageStatus (DocumentService.generateFinalDocument s now d)
                now d st_completed)) d).
      rewrite getPackageById_updatePackageStatus.
      destruct (generateFinalDocument_keeps_document s now d p Hp) as [p' [Hp' _]].
      now rewrite Hp'.
  - rewrite (checkAndCompleteDocument_false s now d Hall). simpl.
    split; [split; congruence|]. split; [discriminate | reflexivity].
Qed.

Lemma checkAndComplete_iff_signers_done_witness :
  has_signer Sample.pending_all_signed "doc1"
  /\ all_signers_signed Sample.pending_all_signed "doc1"
  /\ fst (DocumentService.checkAndCompleteDocument (E := Sample.env_ok)
            Sample.pending_all_signed 30%Z "doc1") = true
  /\ status_of (snd (DocumentService.checkAndCompleteDocument (E := Sample.env_ok)
                       Sample.pending_all_signed 30%Z "doc1")) "doc1" = Some st_completed.
Proof.
  assert (Hs : has_signer Sample.pending_all_signed "doc1").
  { eexists. split; [left; reflexivity | split; reflexivity]. }
  assert (Ha : all_signers_signed Sample.pending_all_signed "doc1").
  { intros r [<- | []] _ _. reflexivity. }
  destruct (checkAndComplete_iff_signers_done (E := Sample.env_ok)
              Sample.pending_all_signed 30%Z "doc1") as (Hiff & Hdone & _).
  pose proof (proj2 Hiff (conj Hs Ha)) as Htrue.
  exact (conj Hs (conj Ha (conj Htrue
           (proj2 (Hdone Htrue) (Sample.package "doc1" st_pending None) eq_refl)))).
Defined.

(** C2, the sentence as the specification has it, fails on a document
    without signers: all of its (zero) signers have signed, yet the call
    does not complete it. *)
Lemma completes_iff_all_signers_signed_counterexample :
  ~ completes_iff_all_signers_signed (E := Sample.env_ok)
      Sample.pending_viewer_only 30%Z "doc1".
Proof.
  unfold completes_iff_all_signers_signed. intros [_ H].
  assert (Hall : all_signers_signed Sample.pending_viewer_only "doc1").
  { intros r [<- | []] _ Hrole. discriminate Hrole. }
  specialize (H Hall). vm_compute in H. discriminate H.
Qed.

(** C1 (as the code has it).  When every signer has signed and the
    finalization pipeline throws, [generateFinalDocument] catches the
    failure: the stored artifact stays as it was, and [checkAndComplete]
    goes on to mark the document completed, stamps [completed_at] and
    returns true. *)
Theorem finalization_failure_still_completes {E : Env}
    (s : Store) (now : timestamp) (d : string) :
  finalization_fails s d ->
  let out := DocumentService.checkAndCompleteDocument s now d in
  fst out = true
  /\ exists p p',
       Db.getPackageById s d = Some p
       /\ Db.getPackageById (snd out) d = Some p'
       /\ pkg_status p' = st_completed
       /\ pkg_completed_at p' = Some now
       /\ pkg_document_data p' = pkg_document_data p.
Proof.
  intros (Hall & doc & data & Hdoc & Hdata & Hne & Hfail). cbv zeta.
  rewrite (checkAndCompleteDocument_true s now d Hall). cbn [fst snd].
  split; [reflexivity|]. exists doc.
  assert (Hgen : DocumentService.generateFinalDocument s now d = s).
  { unfold DocumentService.generateFinalDocument. rewrite Hdoc, Hdata.
    apply truthy_some in Hne. rewrite Hne. simpl. unfold Js.or_str, Js.or. rewrite Hne.
    now rewrite Hfail. }
  rewrite Hgen. unfold Db.getPackageById at 2. rewrite createAuditLog_packages.
  fold (Db.getPackageById (snd (Db.updatePackageStatus s now d st_completed)) d).
  rewrite getPackageById_updatePackageStatus, Hdoc. simpl.
  eexists. repeat split; reflexivity.
Qed.

Lemma finalization_failure_still_completes_witness :
  finalization_fails (E := Sample.env_render_fails) Sample.pending_all_signed "doc1"
  /\ fst (DocumentService.checkAndCompleteDocument (E := Sample.env_render_fails)
            Sample.pending_all_signed 30%Z "doc1") = true.
Proof.
  assert (Hf : finalization_fails (E := Sample.env_render_fails)
                 Sample.pending_all_signed "doc1").
  { split; [reflexivity|].
    exists (Sample.package "doc1" st_pending None), "pdf".
    repeat split; try reflexivity. discriminate. }
  split; [exact Hf|].
  exact (proj1 (finalization_failure_still_completes (E := Sample.env_render_fails)
                  Sample.pending_all_signed 30%Z "doc1" Hf)).
Defined.

(** C1, the sentence as the specification has it, fails: the renderer
    throws on a pending document whose signers have all signed, and the
    document is completed all the same. *)
Lemma stays_pending_when_finalization_fails_counterexample :
  ~ stays_pending_when_finalization_fails (E := Sample.env_render_fails)
      Sample.pending_all_signed 30%Z "doc1".
Proof.
  unfold stays_pending_when_finalization_fails. intros H.
  assert (Hf : finalization_fails (E := Sample.env_render_fails)
                 Sample.pending_all_signed "doc1").
  { split; [reflexivity|].
    exists (Sample.package "doc1" st_pending None), "pdf".
    repeat split; try reflexivity. discriminate. }
  specialize (H eq_refl Hf). vm_compute in H. discriminate H.
Qed.

(** ** Signing sessions *)

(** C7.  A recipient whose signing status is signed cannot unsign: the
    call answers 400 whatever the field is (existing or not, theirs or
    not, signed or not), and the store is untouched, so no signature is
    deleted and no field value is cleared. *)
Theorem unsign_after_completion_is_refused {E : Env}
    (s : Store) (now : timestamp) (token fieldId : string) (recipient : Recipient) :
  Db.getRecipientByToken s token = Some recipient ->
  rcp_signing_status recipient = sg_signed ->
  let out := SigningRoutes.unsign_field s now token fieldId in
  fst out = json 400 (BError "Cannot unsign after completing the signing session")
  /\ snd out = s
  /\ signatures (snd out) = signatures s
  /\ signature_fields (snd out) = signature_fields s.
Proof.
  intros Htoken Hsigned. cbv zeta. unfold SigningRoutes.unsign_field.
  rewrite Htoken, Hsigned. simpl. repeat split; reflexivity.
Qed.

Lemma unsign_after_completion_is_refused_witness :
  Db.getRecipientByToken Sample.pending_all_signed "tok1"
  = Some (Sample.recipient "r1" "doc1" "tok1" (Some "0xalice") signer sg_signed)
  /\ fst (SigningRoutes.unsign_field (E := Sample.env_ok)
            Sample.pending_all_signed 40%Z "tok1" "f1")
     = json 400 (BError "Cannot unsign after completing the signing session")
  /\ snd (SigningRoutes.unsign_field (E := Sample.env_ok)
            Sample.pending_all_signed 40%Z "tok1" "f1")
     = Sample.pending_all_signed.
Proof.
  pose proof (unsign_after_completion_is_refused (E := Sample.env_ok)
                Sample.pending_all_signed 40%Z "tok1" "f1"
                (Sample.recipient "r1" "doc1" "tok1" (Some "0xalice") signer sg_signed)
                eq_refl eq_refl) as H.
  exact (conj eq_refl (conj (proj1 H) (proj1 (proj2 H)))).
Defined.

(** C10.  A valid access token opens a signing session only while the
    document is neither cancelled nor completed: for those two statuses
    the request is answered 400 with an error body, nothing of the
    session (fields, signatures) is sent, and nothing is written, not
    even the [document_viewed] audit entry. *)
Theorem session_refused_for_closed_document {E : Env}
    (s : Store) (now : timestamp) (req : Request) (token : string)
    (wallet : option string) (recipient : Recipient) (pkg : SignaturePackage) :
  Db.getRecipientByToken s token = Some recipient ->
  Db.getPackageById s (rcp_package_id recipient) = Some pkg ->
  pkg_status pkg = st_cancelled \/ pkg_status pkg = st_completed ->
  SigningRoutes.get_session s now req token wallet
  = (json 400
       (BError (match pkg_status pkg with
                | st_cancelled => "This document has been cancelled"
                | _ => "This document has already been completed"
                end)),
     s).
Proof.
  intros Htoken Hpkg Hclosed.
  unfold SigningRoutes.get_session, DocumentService.getDocument, Db.getPackageWithRecipients.
  rewrite Htoken, Hpkg. destruct Hclosed as [-> | ->]; reflexivity.
Qed.

Lemma session_refused_for_closed_document_witness :
  Db.getRecipientByToken Sample.cancelled_doc "tok1"
  = Some (Sample.recipient "r1" "doc1" "tok1" (Some "0xalice") signer sg_pending)
  /\ Db.getPackageById Sample.cancelled_doc "doc1"
     = Some (Sample.package "doc1" st_cancelled None)
  /\ SigningRoutes.get_session (E := Sample.env_ok) Sample.cancelled_doc 40%Z
       Sample.plain_request "tok1" (Some "0xalice")
     = (json 400 (BError "This document has been cancelled"), Sample.cancelled_doc).
Proof.
  exact (conj eq_refl (conj eq_refl
           (session_refused_for_closed_document (E := Sample.env_ok)
              Sample.cancelled_doc 40%Z Sample.plain_request "tok1" (Some "0xalice")
              (Sample.recipient "r1" "doc1" "tok1" (Some "0xalice") signer sg_pending)
              (Sample.package "doc1" st_cancelled None)
              eq_refl eq_refl (or_introl eq_refl)))).
Defined.

(** In the two other statuses the same request is answered with the session. *)
Lemma session_granted_for_open_document {E : Env}
    (s : Store) (now : timestamp) (req : Request) (token : string)
    (wallet : option string) (recipient : Recipient) (pkg : SignaturePackage) :
  Db.getRecipientByToken s token = Some recipient ->
  Db.getPackageById s (rcp_package_id recipient) = Some pkg ->
  pkg_status pkg = st_draft \/ pkg_status pkg = st_pending ->
  exists session,
    fst (SigningRoutes.get_session s now req token wallet) = json 200 (BSession session)
    /\ ss_recipient session = recipient.
Proof.
  intros Htoken Hpkg Hopen.
  unfold SigningRoutes.get_session, DocumentService.getDocument, Db.getPackageWithRecipients.
  rewrite Htoken, Hpkg. destruct Hopen as [-> | ->]; simpl; eexists; split; reflexivity.
Qed.

(** ** Deletion *)

Lemma mem_In (x : string) (l : list string) : Db.mem x l = true <-> In x l.
Proof.
  unfold Db.mem. rewrite existsb_exists. split.
  - intros [y [Hy Heq]]. apply String.eqb_eq in Heq. now subst.
  - intros H. exists x. split; [assumption | apply String.eqb_refl].
Qed.






Lemma incl_filter' {A} (p : A -> bool) (l : list A) : incl (filter p l) l.
Proof. intros x Hx. apply filter_In in Hx. tauto. Qed.

Lemma shrinks_refl (s : Store) : shrinks s s.
Proof. repeat split; apply incl_refl. Qed.


Lemma delete_signatures_where_shrinks (p : Signature -> bool) (s : Store) :
  shrinks s (Db.delete_signatures_where p s).
Proof. repeat split; simpl; try apply incl_refl. apply incl_filter'. Qed.









(** The referential action of the schema alone would have kept the audit
    events: deleting only the package row detaches them. *)
Example deletePackage_alone_detaches_audit_events :
  map log_package_id (audit_logs (Db.deletePackage Sample.cancelled_doc "doc1"))
  = [None; None].
Proof. reflexivity. Qed.

(** ** The completion stamp *)

Ltac break_match :=
  match goal with
  | |- context [match ?x with _ => _ end] => destruct x eqn:?
  end.

(** Closes a goal [signature_packages (snd (handler ...)) = signature_packages s]
    for a handler that never writes to the package table. *)
Ltac packages_untouched := repeat first [reflexivity | break_match].

Lemma stamped_same_packages (s s' : Store) :
  signature_packages s' = signature_packages s -> stamped s -> stamped s'.
Proof. unfold stamped. intros ->. auto. Qed.

Lemma createPackage_stamped {E : Env} (s : Store) (now : timestamp) (t o : string)
    (tx data html : option string) :
  stamped s -> stamped (snd (Db.createPackage s now t o tx data html)).
Proof.
  intros H p Hp. simpl in Hp. apply in_app_or in Hp. destruct Hp as [Hp | [<- | []]].
  - now apply H.
  - unfold completedAt_matches_status. simpl. split; [congruence | discriminate].
Qed.

Lemma updatePackageStatus_stamped (s : Store) (now : timestamp) (d : string)
    (st : DocumentStatus) :
  stamped s -> stamped (snd (Db.updatePackageStatus s now d st)).
Proof.
  intros H p Hp. simpl in Hp. apply in_map_iff in Hp. destruct Hp as [q [<- Hq]].
  destruct (String.eqb (pkg_id q) d); [|now apply H].
  unfold completedAt_matches_status. simpl.
  destruct st; simpl; split; congruence.
Qed.

Lemma updatePackageDocument_stamped (s : Store) (now : timestamp) (d data : string) :
  stamped s -> stamped (snd (Db.updatePackageDocument s now d data)).
Proof.
  intros H p Hp. simpl in Hp. apply in_map_iff in Hp. destruct Hp as [q [<- Hq]].
  destruct (String.eqb (pkg_id q) d); [|now apply H].
  exact (H q Hq).
Qed.

Lemma deleteDocument_stamped (s : Store) (d : string) :
  stamped s -> stamped (DocumentService.deleteDocument s d).
Proof.
  intros H p Hp. apply H.
  unfold DocumentService.deleteDocument, DocumentService.run_statements in Hp.
  simpl in Hp. apply filter_In in Hp. tauto.
Qed.

Lemma createRecipients_packages {E : Env} (inputs : list RecipientInput) :
  forall (s : Store) (now : timestamp) (d : string) (i : nat),
    signature_packages (snd (DocumentService.createRecipients s now d i inputs))
    = signature_packages s.
Proof.
  induction inputs as [|input rest IH]; intros s now d i; [reflexivity|].
  simpl.
  match goal with
  | |- context [DocumentService.createRecipients ?s1 now d (S i) rest] =>
      specialize (IH s1 now d (S i));
      destruct (DocumentService.createRecipients s1 now d (S i) rest) as [more s2]
  end.
  simpl in *. exact IH.
Qed.

Lemma createFieldsFromTags_packages {E : Env} (tags : list SigFieldTag) :
  forall (s : Store) (d : string) (m : list (nat * string)) (i : nat),
    signature_packages (DocumentService.createFieldsFromTags s d m i tags)
    = signature_packages s.
Proof.
  induction tags as [|t rest IH]; intros s d m i; [reflexivity|].
  cbn [DocumentService.createFieldsFromTags].
  destruct (negb (Js.truthy (DocumentService.recipientMap_get m (tag_recipient t)))).
  - apply IH.
  - simpl. rewrite IH. reflexivity.
Qed.

Lemma addFields_packages {E : Env} (fields : list DocumentRoutes.FieldInput) :
  forall (s : Store) (d : string),
    signature_packages (snd (DocumentRoutes.addFields s d fields)) = signature_packages s.
Proof.
  induction fields as [|f rest IH]; intros s d; [reflexivity|].
  simpl.
  match goal with
  | |- context [DocumentRoutes.addFields ?s1 d rest] =>
      specialize (IH s1 d); destruct (DocumentRoutes.addFields s1 d rest) as [more s2]
  end.
  simpl in *. exact IH.
Qed.

Lemma addRecipients_packages {E : Env} (inputs : list RecipientInput) :
  forall (s : Store) (now : timestamp) (d : string),
    signature_packages (snd (DocumentRoutes.addRecipients s now d inputs))
    = signature_packages s.
Proof.
  induction inputs as [|r rest IH]; intros s now d; [reflexivity|].
  simpl.
  match goal with
  | |- context [DocumentRoutes.addRecipients ?s1 now d rest] =>
      specialize (IH s1 now d); destruct (DocumentRoutes.addRecipients s1 now d rest) as [more s2]
  end.
  simpl in *. exact IH.
Qed.

Lemma generateFinalDocument_stamped {E : Env} (s : Store) (now : timestamp) (d : string) :
  stamped s -> stamped (DocumentService.generateFinalDocument s now d).
Proof.
  intros H. unfold DocumentService.generateFinalDocument.
  repeat first [assumption | apply updatePackageDocument_stamped | break_match].
Qed.

Lemma checkAndCompleteDocument_stamped {E : Env} (s : Store) (now : timestamp) (d : string) :
  stamped s -> stamped (snd (DocumentService.checkAndCompleteDocument s now d)).
Proof.
  intros H. destruct (Db.checkAllRecipientsSigned s d) eqn:Hall.
  - rewrite (checkAndCompleteDocument_true s now d Hall). cbn [snd].
    eapply stamped_same_packages; [apply createAuditLog_packages|].
    apply updatePackageStatus_stamped. now apply generateFinalDocument_stamped.
  - now rewrite (checkAndCompleteDocument_false s now d Hall).
Qed.

Lemma distributeDocument_stamped {E : Env} (s : Store) (now : timestamp) (d : string) :
  stamped s -> stamped (snd (DocumentService.distributeDocument s now d)).
Proof.
  intros H. pose proof (updatePackageStatus_stamped s now d st_pending H) as H1.
  unfold DocumentService.distributeDocument.
  destruct (Db.updatePackageStatus s now d st_pending) as [[p|] s1]; exact H1.
Qed.

Lemma cancelDocument_stamped {E : Env} (s : Store) (now : timestamp) (d : string) :
  stamped s -> stamped (snd (DocumentService.cancelDocument s now d)).
Proof.
  intros H. pose proof (updatePackageStatus_stamped s now d st_cancelled H) as H1.
  unfold DocumentService.cancelDocument.
  destruct (Db.updatePackageStatus s now d st_cancelled) as [[p|] s1]; exact H1.
Qed.

Lemma createDocument_stamped {E : Env} (s : Store) (now : timestamp)
    (request : CreateDocumentRequest) (paymentInfo : PaymentInfo) :
  stamped s -> stamped (snd (DocumentService.createDocument s now request paymentInfo)).
Proof.
  intros H. unfold DocumentService.createDocument.
  destruct (payer paymentInfo) as [owner|]; [|exact H].
  match goal with
  | |- context [Db.createPackage s now ?t ?o ?tx ?data ?html] =>
      pose proof (createPackage_stamped s now t o tx data html H) as H1;
      destruct (Db.createPackage s now t o tx data html) as [pkg s1]
  end.
  cbn [snd] in H1.
  match goal with
  | |- context [DocumentService.createRecipients s1 now ?d 0 ?inputs] =>
      pose proof (createRecipients_packages inputs s1 now d 0) as H2;
      destruct (DocumentService.createRecipients s1 now d 0 inputs) as [created s2]
  end.
  cbn [snd] in H2.
  eapply stamped_same_packages; [|exact H1]. rewrite <- H2.
  destruct (Db.opt_eqb (doc_format request) "html" && Js.truthy (content request));
    [|reflexivity].
  match goal with
  | |- context [DocumentService.parseAndCreateFieldsFromHtml ?a ?b ?c ?m] =>
      transitivity (signature_packages (DocumentService.parseAndCreateFieldsFromHtml a b c m));
      [reflexivity | apply createFieldsFromTags_packages]
  end.
Qed.

Lemma sign_branch_packages {E : Env} (s s' : Store) (now : timestamp)
    (recipient : Recipient) (field : SignatureField) (fieldId : string)
    (body : SignFieldRequest) :
  SigningRoutes.sign_branch s now recipient field fieldId body = SigningRoutes.Recorded s' ->
  signature_packages s' = signature_packages s.
Proof.
  unfold SigningRoutes.sign_branch.
  repeat match goal with
         | |- context [if ?c then _ else _] => destruct c eqn:?
         | |- context [match value ?b with _ => _ end] => destruct (value b) eqn:?
         end;
    intros H; try discriminate H; simpl in H; injection H as <-; reflexivity.
Qed.

Lemma sign_field_packages {E : Env} (s : Store) (now : timestamp) (req : Request)
    (token fieldId : string) (body : SignFieldRequest) :
  signature_packages (snd (SigningRoutes.sign_field s now req token fieldId body))
  = signature_packages s.
Proof.
  unfold SigningRoutes.sign_field.
  repeat first [reflexivity
               | match goal with
                 | Hb : SigningRoutes.sign_branch _ _ _ _ _ _ = SigningRoutes.Recorded _ |- _ =>
                     apply sign_branch_packages in Hb; simpl; exact Hb
                 end
               | break_match].
Qed.

Lemma step_stamped {E : Env} (s : Store) (op : Op) : stamped s -> stamped (step s op).
Proof.
  intros H. destruct op; cbn [step].
  - (* POST /create *)
    unfold DocumentRoutes.post_create, DocumentRoutes.create_handler.
    repeat first [assumption | break_match].
    all: try (match goal with
              | Hc : DocumentService.createDocument ?a ?n ?b ?pi = (_, ?s1)
                |- stamped (snd (_, ?s1)) =>
                  cbn [snd];
                  replace s1 with (snd (DocumentService.createDocument a n b pi))
                    by (rewrite Hc; reflexivity);
                  now apply createDocument_stamped
              end).
  - (* PUT /:id/fields *)
    eapply stamped_same_packages; [|exact H].
    unfold DocumentRoutes.put_fields.
    repeat first [reflexivity | apply addFields_packages
                 | match goal with
                   | |- context [DocumentRoutes.addFields ?a ?b ?c] =>
                       pose proof (addFields_packages c a b);
                       destruct (DocumentRoutes.addFields a b c)
                   end
                 | break_match].
    assumption.
  - (* PUT /:id/recipients *)
    eapply stamped_same_packages; [|exact H].
    unfold DocumentRoutes.put_recipients.
    repeat first [reflexivity
                 | match goal with
                   | |- context [DocumentRoutes.addRecipients ?a ?n ?b ?c] =>
                       pose proof (addRecipients_packages c a n b);
                       destruct (DocumentRoutes.addRecipients a n b c)
                   end
                 | break_match].
    assumption.
  - (* POST /:id/distribute *)
    unfold DocumentRoutes.post_distribute.
    repeat first [assumption
                 | match goal with
                   | |- context [DocumentService.distributeDocument ?a ?n ?b] =>
                       pose proof (distributeDocument_stamped a n b H);
                       destruct (DocumentService.distributeDocument a n b)
                   end
                 | break_match].
  - (* POST /:id/cancel *)
    unfold DocumentRoutes.post_cancel.
    repeat first [assumption
                 | match goal with
                   | |- context [DocumentService.cancelDocument ?a ?n ?b] =>
                       pose proof (cancelDocument_stamped a n b H);
                       destruct (DocumentService.cancelDocument a n b)
                   end
                 | break_match].
  - (* DELETE /:id *)
    unfold DocumentRoutes.delete_document.
    repeat first [assumption | apply deleteDocument_stamped | break_match].
  - (* GET /sign/:token *)
    eapply stamped_same_packages; [|exact H].
    unfold SigningRoutes.get_session. packages_untouched.
  - (* POST /sign/:token/field/:fieldId *)
    eapply stamped_same_packages; [apply sign_field_packages | exact H].
  - (* DELETE /sign/:token/field/:fieldId *)
    eapply stamped_same_packages; [|exact H].
    unfold SigningRoutes.unsign_field. packages_untouched.
  - (* POST /sign/:token/complete *)
    unfold SigningRoutes.complete_signing.
    destruct (Db.getRecipientByToken s token) as [r|]; [|exact H].
    match goal with |- context [if ?c then _ else _] => destruct c end; [exact H|].
    cbn [Db.updateRecipientStatus Db.createAuditLog Db.fresh].
    match goal with
    | |- context [DocumentService.checkAndCompleteDocument ?a ?n ?b] =>
        assert (K : stamped a)
          by (eapply stamped_same_packages; [|exact H]; reflexivity);
        apply (checkAndCompleteDocument_stamped a n b) in K;
        destruct (DocumentService.checkAndCompleteDocument a n b)
    end.
    exact K.
  - now apply createDocument_stamped.
  - now apply distributeDocument_stamped.
  - now apply cancelDocument_stamped.
  - now apply checkAndCompleteDocument_stamped.
  - now apply deleteDocument_stamped.
Qed.

Lemma run_stamped {E : Env} (ops : list Op) :
  forall s, stamped s -> stamped (run s ops).
Proof.
  unfold run. induction ops as [|op ops IH]; intros s H; simpl; [exact H|].
  apply IH. now apply step_stamped.
Qed.

(** C3.  A new package starts as a draft without completion time; a
    status update writes the new status and stamps the completion time
    exactly when that status is completed, clearing it otherwise; and so,
    after any sequence of operations on an empty database (creation,
    field and recipient edits, distribution, cancellation, deletion,
    signing, completion, through the routes or by calling the service
    functions directly), every package has a completion time if and only
    if its status is completed. *)
Theorem completedAt_iff_completed {E : Env} :
  (forall s now t o tx data html,
      pkg_status (fst (Db.createPackage s now t o tx data html)) = st_draft
      /\ pkg_completed_at (fst (Db.createPackage s now t o tx data html)) = None)
  /\ (forall s now d st p,
         In p (signature_packages (snd (Db.updatePackageStatus s now d st))) ->
         pkg_id p = d ->
         pkg_status p = st
         /\ pkg_completed_at p = (if DocumentStatus_eqb st st_completed then Some now else None))
  /\ (forall ops p,
         In p (signature_packages (run empty_store ops)) ->
         (pkg_completed_at p <> None <-> pkg_status p = st_completed)).
Proof.
  split; [|split].
  - intros. split; reflexivity.
  - intros s now d st p. apply updatePackageStatus_rows.
  - intros ops p Hp. apply (run_stamped ops empty_store); [|exact Hp].
    intros q [].
Qed.

Lemma completedAt_iff_completed_witness :
  let ops := [CreateDocument 5%Z Sample.paying_request Sample.nda_request;
              ServiceDistribute 6%Z "id-0";
              CompleteSigning 8%Z Sample.plain_request "id-1"] in
  let p := {| pkg_id := "id-0"; pkg_title := "NDA"; pkg_status := st_completed;
              pkg_owner_wallet_address := "0xowner"; pkg_payment_tx_hash := Some "0xtx";
              pkg_document_data := Some "pdf+fields+confirmation";
              pkg_document_html := None;
              pkg_created_at := 5%Z; pkg_updated_at := 8%Z;
              pkg_completed_at := Some 8%Z |} in
  In p (signature_packages (run (E := Sample.env_ok) empty_store ops))
  /\ (pkg_completed_at p <> None <-> pkg_status p = st_completed).
Proof.
  intros ops p.
  assert (Hin : In p (signature_packages (run (E := Sample.env_ok) empty_store ops)))
    by (vm_compute; left; reflexivity).
  exact (conj Hin
           (proj2 (proj2 (completedAt_iff_completed (E := Sample.env_ok))) ops p Hin)).
Defined.

(** ** Field signing *)

Lemma hd_error_filter_some {A} (p : A -> bool) (l : list A) (x : A) :
  hd_error (filter p l) = Some x -> In x l /\ p x = true.
Proof.
  intros H. destruct (filter p l) as [|y r] eqn:Hf; [discriminate|].
  simpl in H. injection H as ->.
  apply filter_In. rewrite Hf. now left.
Qed.


(** A store that differs from [s] by one more signature for the field
    and by the field's value shows the field as signed. *)
Lemma signed_with_intro (s s' : Store) (fieldId : string) (field : SignatureField)
    (g : Signature) (v : string) :
  Db.getFieldById s fieldId = Some field ->
  Db.getSignatureByField s fieldId = None ->
  signatures s' = signatures s ++ [g] ->
  sig_field_id g = fieldId ->
  signature_fields s'
  = map (fun f => if String.eqb (fld_id f) fieldId
                  then Db.set_field_value f (Some v) true else f)
      (signature_fields s) ->
  signed_with s s' fieldId field g v.
Proof.
  intros Hfield Hnone Hsigs Hid Hfields. unfold signed_with.
  split; [assumption|]. split; [assumption|]. split.
  - unfold Db.getSignatureByField. rewrite Hsigs.
    apply hd_error_filter_app_new; [exact Hnone|]. rewrite Hid. apply String.eqb_refl.
  - unfold Db.getFieldById. rewrite Hfields, hd_error_filter_map.
    + unfold Db.getFieldById in Hfield. rewrite Hfield. simpl.
      apply hd_error_filter_some in Hfield. destruct Hfield as [_ Heq].
      now rewrite Heq.
    + intros f. destruct (String.eqb (fld_id f) fieldId) eqn:Hf; simpl; now rewrite Hf.
Qed.

(** The preliminary checks of the sign handler pass. *)
Lemma sign_field_reaches_branch {E : Env} (s : Store) (now : timestamp) (req : Request)
    (token fieldId : string) (body : SignFieldRequest)
    (recipient : Recipient) (field : SignatureField) :
  may_sign s token fieldId recipient field ->
  SigningRoutes.sign_field s now req token fieldId body
  = match SigningRoutes.sign_branch s now recipient field fieldId body with
    | SigningRoutes.Rejected r => (r, s)
    | SigningRoutes.Recorded s2 =>
        (json 200 (BFieldOk fieldId "Field signed successfully"),
         snd (Db.createAuditLog s2 now (Some (rcp_package_id recipient)) field_signed
                {| userWallet := Js.or_null (rcp_wallet_address recipient);
                   userEmail := Js.or_null (rcp_email recipient);
                   ipAddress := Some (SigningRoutes.getClientIp req);
                   userAgent := Some (Js.or_str (header_user_agent req) "");
                   metadata :=
                     Some [("fieldId", MStr fieldId);
                           ("fieldType", MFieldType (fld_field_type field));
                           ("isKYC", MBool (Js.truthy (kycNftAddress body)
                                            && Js.truthy (verifiedName body)))] |}))
    end.
Proof.
  intros (Htoken & Hfield & Hown & Hnone). unfold SigningRoutes.sign_field.
  rewrite Htoken, Hfield, Hown, String.eqb_refl, Hnone. simpl.
  destruct (SigningRoutes.sign_branch s now recipient field fieldId body); reflexivity.
Qed.

(** The identity oracle adapter, with a credential named: the claim is
    verified exactly when the wallet holds an approved credential with
    that reference and that name, case ignored. *)
Lemma verifyKYCName_verified_iff {E : Env} (now : timestamp) (wallet name nft : string) :
  nft <> "" ->
  Kyc.verified (Kyc.verifyKYCName now wallet name (Some nft)) = true
  <-> exists v, In v (Kyc.getKYCVerifiedNames now wallet)
                /\ nftAddress v = nft
                /\ toLowerCase (fullName v) = toLowerCase name.
Proof.
  intros Hne. apply truthy_some in Hne. unfold Kyc.verifyKYCName.
  destruct (Kyc.getKYCVerifiedNames now wallet) as [|v0 l] eqn:Hnames.
  - simpl. split; [discriminate | intros [v [[] _]]].
  - cbn [List.length Nat.eqb]. rewrite Hne.
    replace (Js.or_str (Some nft) "") with nft
      by (unfold Js.or_str, Js.or; now rewrite Hne).
    destruct (find _ (v0 :: l)) as [m|] eqn:Hfind.
    + simpl. split; [intros _ | reflexivity].
      apply find_some in Hfind. destruct Hfind as [Hin Hb].
      apply andb_true_iff in Hb. destruct Hb as [Hb1 Hb2].
      exists m. split; [assumption|]. split; apply String.eqb_eq; assumption.
    + simpl. split; [discriminate|]. intros [v [Hin [Hv1 Hv2]]]. exfalso.
      pose proof (find_none _ _ Hfind v Hin) as Hb. cbv beta in Hb.
      unfold Kyc.same_name in Hb. rewrite Hv1, Hv2, !String.eqb_refl in Hb. discriminate.
Qed.

Lemma verifyKYCName_states_reason {E : Env} (now : timestamp) (wallet name : string)
    (nft : option string) :
  Kyc.verified (Kyc.verifyKYCName now wallet name nft) = false ->
  exists reason, Kyc.v_error (Kyc.verifyKYCName now wallet name nft) = Some reason.
Proof.
  unfold Kyc.verifyKYCName.
  repeat match goal with
         | |- context [if ?c then _ else _] => destruct c
         | |- context [match find ?f ?l with _ => _ end] => destruct (find f l)
         end; simpl; intros H; try discriminate H; eexists; reflexivity.
Qed.

(** C6.  An identity-verified sign attempt (credential reference and
    verified name both given, on a signature-class field the recipient may
    sign) whose name does not match an approved credential with that
    reference held by the signer's wallet - in particular when the wallet
    holds no credential with that reference - is answered 400 "KYC
    verification failed" with the reason the oracle adapter states; the
    store is untouched, so no signature row is created and the field's
    value and inserted flag are as before.  The signer's wallet is the one
    recorded for the recipient, or else the one named in the payload;
    names are compared after [toLowerCase] on both sides. *)
Theorem kyc_mismatch_is_rejected {E : Env}
    (s : Store) (now : timestamp) (req : Request) (token fieldId : string)
    (body : SignFieldRequest) (recipient : Recipient) (field : SignatureField)
    (nft name : string) :
  may_sign s token fieldId recipient field ->
  SigningRoutes.isSignatureField (fld_field_type field) = true ->
  kycNftAddress body = Some nft -> nft <> "" ->
  verifiedName body = Some name -> name <> "" ->
  (forall v,
      In v (Kyc.getKYCVerifiedNames now
              (Js.or_str (Js.or (rcp_wallet_address recipient) (walletAddress body)) "")) ->
      ~ (nftAddress v = nft /\ toLowerCase (fullName v) = toLowerCase name)) ->
  let out := SigningRoutes.sign_field s now req token fieldId body in
  (exists reason,
      fst out = json 400 (BErrorReason "KYC verification failed" (Some reason))
      /\ Kyc.v_error
           (Kyc.verifyKYCName now
              (Js.or_str (Js.or (rcp_wallet_address recipient) (walletAddress body)) "")
              name (Some nft))
         = Some reason)
  /\ snd out = s
  /\ Db.getSignatureByField (snd out) fieldId = None
  /\ Db.getFieldById (snd out) fieldId = Some field.
Proof.
  intros Hmay Hsig Hnft Hnft_ne Hname Hname_ne Hno. cbv zeta.
  rewrite (sign_field_reaches_branch s now req token fieldId body recipient field Hmay).
  unfold SigningRoutes.sign_branch. rewrite Hsig, Hnft, Hname.
  rewrite (proj2 (truthy_some nft) Hnft_ne), (proj2 (truthy_some name) Hname_ne).
  cbn [andb].
  replace (Js.or_str (Some name) "") with name
    by (unfold Js.or_str, Js.or; now rewrite (proj2 (truthy_some name) Hname_ne)).
  set (wallet := Js.or_str (Js.or (rcp_wallet_address recipient) (walletAddress body)) "") in *.
  assert (Hv : Kyc.verified (Kyc.verifyKYCName now wallet name (Some nft)) = false).
  { destruct (Kyc.verified (Kyc.verifyKYCName now wallet name (Some nft))) eqn:Hv;
      [|reflexivity].
    apply (verifyKYCName_verified_iff now wallet name nft Hnft_ne) in Hv.
    destruct Hv as [v [Hin Hm]]. exfalso. exact (Hno v Hin Hm). }
  rewrite Hv. cbn [negb fst snd].
  destruct (verifyKYCName_states_reason now wallet name (Some nft) Hv) as [reason Hreason].
  destruct Hmay as (_ & Hfield & _ & Hnone).
  split; [exists reason; rewrite Hreason; split; reflexivity|].
  split; [reflexivity|]. split; assumption.
Qed.

Lemma kyc_mismatch_is_rejected_witness :
  may_sign Sample.pending_unsigned "tok1" "f1"
    (Sample.recipient "r1" "doc1" "tok1" (Some "0xalice") signer sg_pending)
    (Sample.field "f1" "doc1" "r1" ft_signature)
  /\ fst (SigningRoutes.sign_field (E := Sample.env_ok) Sample.pending_unsigned 30%Z
            Sample.plain_request "tok1" "f1" (Sample.kyc_body "0xnft-bob" "Alice Smith"))
     = json 400 (BErrorReason "KYC verification failed"
                   (Some "Name does not match the specified KYC NFT"))
  /\ snd (SigningRoutes.sign_field (E := Sample.env_ok) Sample.pending_unsigned 30%Z
            Sample.plain_request "tok1" "f1" (Sample.kyc_body "0xnft-bob" "Alice Smith"))
     = Sample.pending_unsigned.
Proof.
  assert (Hmay : may_sign Sample.pending_unsigned "tok1" "f1"
                   (Sample.recipient "r1" "doc1" "tok1" (Some "0xalice") signer sg_pending)
                   (Sample.field "f1" "doc1" "r1" ft_signature))
    by (repeat split; reflexivity).
  assert (Hno : forall v,
             In v (Kyc.getKYCVerifiedNames (E := Sample.env_ok) 30%Z "0xalice") ->
             ~ (nftAddress v = "0xnft-bob"
                /\ @toLowerCase Sample.env_ok (fullName v)
                   = @toLowerCase Sample.env_ok "Alice Smith")).
  { intros v Hin [Hn _]. vm_compute in Hin. destruct Hin as [<- | []]. discriminate Hn. }
  pose proof (kyc_mismatch_is_rejected (E := Sample.env_ok) Sample.pending_unsigned 30%Z
                Sample.plain_request "tok1" "f1" (Sample.kyc_body "0xnft-bob" "Alice Smith")
                (Sample.recipient "r1" "doc1" "tok1" (Some "0xalice") signer sg_pending)
                (Sample.field "f1" "doc1" "r1" ft_signature)
                "0xnft-bob" "Alice Smith"
                Hmay eq_refl eq_refl ltac:(discriminate) eq_refl ltac:(discriminate) Hno)
    as (_ & Hstore & _).
  exact (conj Hmay (conj eq_refl Hstore)).
Defined.




(** What the handler does on a non-signature field: an absent value is
    refused, every defined value is written to the field verbatim and a
    signature row is added whose typed text is the value, except that an
    empty value leaves the typed text NULL. *)
Lemma value_field_is_recorded {E : Env}
    (s : Store) (now : timestamp) (req : Request) (token fieldId : string)
    (body : SignFieldRequest) (recipient : Recipient) (field : SignatureField) :
  may_sign s token fieldId recipient field ->
  SigningRoutes.isSignatureField (fld_field_type field) = false ->
  let out := SigningRoutes.sign_field s now req token fieldId body in
  match value body with
  | None => out = (json 400 (BError "value is required for this field type"), s)
  | Some v =>
      fst out = json 200 (BFieldOk fieldId "Field signed successfully")
      /\ exists g,
           signed_with s (snd out) fieldId field g v
           /\ sig_typed_signature g = (if String.eqb v "" then None else Some v)
           /\ sig_signature_image g = None
           /\ sig_kyc_verified_name g = None /\ sig_wallet_signature g = None
  end.
Proof.
  intros Hmay Hsig. cbv zeta.
  rewrite (sign_field_reaches_branch s now req token fieldId body recipient field Hmay).
  destruct Hmay as (_ & Hfield & _ & Hnone).
  unfold SigningRoutes.sign_branch. rewrite Hsig.
  destruct (value body) as [v|]; [|reflexivity].
  split; [reflexivity|]. eexists. split.
  - eapply signed_with_intro; try eassumption; reflexivity.
  - cbn. unfold Js.or_null, Js.or, Js.truthy.
    destruct (String.eqb v ""); repeat split; reflexivity.
Qed.

(** C9, at the empty string.  The value [''] is accepted and written to
    the field verbatim, but the signature row that is created does not
    carry it: [createSignature] stores [data.typedSignature || null], so
    the typed text of the row is NULL instead of the empty string. *)
Theorem empty_value_signature_has_no_typed_text :
  let out := SigningRoutes.sign_field (E := Sample.env_ok) Sample.pending_unsigned 30%Z
               Sample.plain_request "tok1" "f2" (Sample.value_body "") in
  fst out = json 200 (BFieldOk "f2" "Field signed successfully")
  /\ option_map fld_value (Db.getFieldById (snd out) "f2") = Some (Some "")
  /\ option_map fld_inserted (Db.getFieldById (snd out) "f2") = Some true
  /\ option_map sig_typed_signature (Db.getSignatureByField (snd out) "f2") = Some None.
Proof. repeat split; reflexivity. Qed.

(** A non-empty value, zero included, is carried by the signature row. *)
Example zero_value_signature_has_typed_text :
  let out := SigningRoutes.sign_field (E := Sample.env_ok) Sample.pending_unsigned 30%Z
               Sample.plain_request "tok1" "f2" (Sample.value_body "0") in
  option_map fld_value (Db.getFieldById (snd out) "f2") = Some (Some "0")
  /\ option_map sig_typed_signature (Db.getSignatureByField (snd out) "f2") = Some (Some "0").
Proof. split; reflexivity. Qed.

(** ** The payment gate *)

(** C8.  The outcomes of the payment gate on a creation request that
    does not get through, by what the facilitator answers.  Without a
    payment proof the answer is 402 with the encoded challenge - protocol
    version, the URL of the request, the description with the price, the
    mime type and the payment requirements of the configuration - and no
    facilitator call.  With a decodable proof: a verify request that
    throws, a verify body that is not JSON and a verify answer that is
    not valid are answered 402 "Payment verification failed" with the
    reason; after a valid verification, a settle request that throws, a
    settle body that is not JSON and an unsuccessful settlement are
    answered 402 "Payment settlement failed" with the reason.  A verify
    or settle body that is the JSON value [null] is answered 500.  In
    every one of these cases the handler is not entered: the creation
    request is answered with the gate's response and the store is left
    as it was. *)
Theorem payment_gate_fails_closed {E : Env} (req : Request) :
  let requirements :=
    {| scheme := "exact";
       network := x402_network config;
       amount := x402_priceAtomic config;
       asset := x402_usdcAssetAddress config;
       payTo := x402_paymentRecipientAddress config;
       maxTimeoutSeconds := 300;
       extra_sponsored := Some true |} in
  let refused (r : Response) (calls : list X402.FacilitatorCall) :=
    X402.x402PaymentMiddleware req = (X402.Responded r, calls)
    /\ forall s now body, DocumentRoutes.post_create s now req body = (r, s) in
  let unverified reason :=
    refused (json 402 (BErrorReason "Payment verification failed" reason))
      [X402.VerifyCall] in
  let unsettled reason :=
    refused (json 402 (BErrorReason "Payment settlement failed" reason))
      [X402.VerifyCall; X402.SettleCall] in
  let crashed calls :=
    refused (json 500 (BError "Internal server error processing payment")) calls in
  (Js.truthy (header_payment_signature req) = false ->
   refused
     {| status := 402;
        headers :=
          [("PAYMENT-REQUIRED",
            encodePaymentRequired
              {| pr_x402Version := 2;
                 pr_error := "PAYMENT-SIGNATURE header is required";
                 pr_resource :=
                   {| res_url := protocol req +++ "://" +++ host req +++ originalUrl req;
                      res_description :=
                        "Soulbound Signature Service - "
                        +++ x402_signaturePriceUsdc config +++ " USDC";
                      res_mimeType := "application/json" |};
                 pr_accepts := [requirements] |})];
        body := BPaymentRequired "Payment required" 2 |}
     [])
  /\ (forall h p,
         header_payment_signature req = Some h -> h <> "" ->
         decodePaymentSignature h = Some p ->
         (facilitator_verify p requirements = RequestFailed ->
          unverified (Some "Verification request failed"))
         /\ (forall text, facilitator_verify p requirements = NotJson text ->
                          unverified (Some ("Invalid response: " +++ text)))
         /\ (forall v, facilitator_verify p requirements = Parsed v ->
                       isValid v = false -> unverified (invalidReason v))
         /\ (facilitator_verify p requirements = ParsedNull -> crashed [X402.VerifyCall])
         /\ (forall v, facilitator_verify p requirements = Parsed v -> isValid v = true ->
               (facilitator_settle p requirements = RequestFailed ->
                unsettled (Some "Settlement request failed"))
               /\ (forall text, facilitator_settle p requirements = NotJson text ->
                                unsettled (Some "Settlement request failed"))
               /\ (forall t, facilitator_settle p requirements = Parsed t ->
                             success t = false -> unsettled (errorReason t))
               /\ (facilitator_settle p requirements = ParsedNull ->
                   crashed [X402.VerifyCall; X402.SettleCall]))).
Proof.
  cbv zeta.
  assert (Hpost : forall r calls,
             X402.x402PaymentMiddleware req = (X402.Responded r, calls) ->
             X402.x402PaymentMiddleware req = (X402.Responded r, calls)
             /\ forall s now body, DocumentRoutes.post_create s now req body = (r, s)).
  { intros r calls H. split; [exact H|]. intros s now body.
    unfold DocumentRoutes.post_create. now rewrite H. }
  split.
  - intros Hh. apply Hpost. unfold X402.x402PaymentMiddleware. now rewrite Hh.
  - intros h p Hsome Hne Hdec.
    assert (Hh : Js.truthy (header_payment_signature req) = true)
      by (rewrite Hsome; now apply truthy_some).
    assert (Hor : Js.or_str (header_payment_signature req) "" = h).
    { pose proof (or_str_truthy _ "" Hh) as H. congruence. }
    assert (Hgate : X402.x402PaymentMiddleware req
                    = match X402.verifyPayment p X402.buildPaymentRequirements with
                      | None =>
                          (X402.Responded
                             (json 500 (BError "Internal server error processing payment")),
                           [X402.VerifyCall])
                      | Some verifyResult =>
                          if negb (isValid verifyResult) then
                            (X402.Responded
                               (json 402 (BErrorReason "Payment verification failed"
                                            (invalidReason verifyResult))),
                             [X402.VerifyCall])
                          else
                            match X402.settlePayment p X402.buildPaymentRequirements with
                            | None =>
                                (X402.Responded
                                   (json 500
                                      (BError "Internal server error processing payment")),
                                 [X402.VerifyCall; X402.SettleCall])
                            | Some settleResult =>
                                if negb (success settleResult) then
                                  (X402.Responded
                                     (json 402 (BErrorReason "Payment settlement failed"
                                                  (errorReason settleResult))),
                                   [X402.VerifyCall; X402.SettleCall])
                                else
                                  (X402.Next
                                     {| transactionHash := transaction settleResult;
                                        payer := Js.or (vr_payer verifyResult)
                                                   (sr_payer settleResult);
                                        pi_amount := x402_priceAtomic config;
                                        pi_network := x402_network config |},
                                   [X402.VerifyCall; X402.SettleCall])
                            end
                      end).
    { unfold X402.x402PaymentMiddleware. rewrite Hh, Hor, Hdec. reflexivity. }
    unfold X402.verifyPayment, X402.settlePayment, X402.buildPaymentRequirements in Hgate.
    split; [|split; [|split; [|split]]].
    + intros Hv. apply Hpost. rewrite Hgate, Hv. reflexivity.
    + intros text Hv. apply Hpost. rewrite Hgate, Hv. reflexivity.
    + intros v Hv Hinvalid. apply Hpost. rewrite Hgate, Hv, Hinvalid. reflexivity.
    + intros Hv. apply Hpost. rewrite Hgate, Hv. reflexivity.
    + intros v Hv Hvalid. rewrite Hv, Hvalid in Hgate. cbn [negb] in Hgate.
      split; [|split; [|split]].
      * intros Hs. apply Hpost. rewrite Hgate, Hs. reflexivity.
      * intros text Hs. apply Hpost. rewrite Hgate, Hs. reflexivity.
      * intros t Hs Hfail. apply Hpost. rewrite Hgate, Hs, Hfail. reflexivity.
      * intros Hs. apply Hpost. rewrite Hgate, Hs. reflexivity.
Qed.

Lemma payment_gate_fails_closed_witness :
  X402.x402PaymentMiddleware (E := Sample.env_verify_null) Sample.paying_request
  = (X402.Responded (json 500 (BError "Internal server error processing payment")),
     [X402.VerifyCall])
  /\ forall s now body,
       DocumentRoutes.post_create (E := Sample.env_verify_null) s now
         Sample.paying_request body
       = (json 500 (BError "Internal server error processing payment"), s).
Proof.
  exact (proj1 (proj2 (proj2 (proj2
           (proj2 (payment_gate_fails_closed (E := Sample.env_verify_null)
                     Sample.paying_request)
              Sample.payment_header Sample.payment_payload eq_refl
              ltac:(discriminate) eq_refl))))
           eq_refl).
Defined.

(** The sibling paths at the same request: a facilitator that cannot be
    reached is answered 402 with the reason. *)
Example unreachable_facilitator_answers_402 :
  fst (X402.x402PaymentMiddleware (E := Sample.env_facilitator_down) Sample.paying_request)
  = X402.Responded (json 402 (BErrorReason "Payment verification failed"
                                (Some "Verification request failed"))).
Proof. reflexivity. Qed.

Example paid_request_creates_draft :
  status (fst (DocumentRoutes.post_create (E := Sample.env_ok) empty_store 5%Z
                 Sample.paying_request Sample.nda_request)) = 200
  /\ status_of (snd (DocumentRoutes.post_create (E := Sample.env_ok) empty_store 5%Z
                       Sample.paying_request Sample.nda_request)) "id-0"
     = Some st_draft.
Proof. split; reflexivity. Qed.

(** * Further properties of the signing engine *)

Import Laws.

Lemma filter_filter_implied {A} (p q : A -> bool) (l : list A) :
  (forall x, p x = true -> q x = true) -> filter p (filter q l) = filter p l.
Proof.
  intros H. induction l as [|a l IH]; simpl; [reflexivity|].
  destruct (q a) eqn:Hq; simpl.
  - now rewrite IH.
  - destruct (p a) eqn:Hp; [|exact IH]. apply H in Hp. congruence.
Qed.

Lemma filter_map_untouched {A} (p : A -> bool) (f : A -> A) (l : list A) :
  (forall x, p (f x) = p x) -> (forall x, p x = true -> f x = x) ->
  filter p (map f l) = filter p l.
Proof.
  intros Hp Hf. induction l as [|a l IH]; simpl; [reflexivity|].
  rewrite Hp. destruct (p a) eqn:Ha; [|exact IH]. now rewrite IH, (Hf a Ha).
Qed.

Lemma hd_error_filter_app_hit {A} (p : A -> bool) (l : list A) (x : A) :
  p x = true -> exists y, hd_error (filter p (l ++ [x])) = Some y.
Proof.
  intros Hx. rewrite filter_app. simpl. rewrite Hx.
  destruct (filter p l) as [|y r]; simpl; eexists; reflexivity.
Qed.

(** What a recorded signature changes: one more signature row for the
    field, the value of the field, and nothing else. *)
Lemma sign_branch_recorded {E : Env} (s s2 : Store) (now : timestamp)
    (recipient : Recipient) (field : SignatureField) (fieldId : string)
    (body : SignFieldRequest) :
  SigningRoutes.sign_branch s now recipient field fieldId body = SigningRoutes.Recorded s2 ->
  exists g v,
    signatures s2 = signatures s ++ [g]
    /\ sig_field_id g = fieldId
    /\ sig_recipient_id g = rcp_id recipient
    /\ signature_fields s2
       = map (fun f => if String.eqb (fld_id f) fieldId
                       then Db.set_field_value f (Some v) true else f)
           (signature_fields s)
    /\ recipients s2 = recipients s
    /\ signature_packages s2 = signature_packages s
    /\ audit_logs s2 = audit_logs s.
Proof.
  unfold SigningRoutes.sign_branch.
  repeat match goal with
         | |- context [if ?c then _ else _] => destruct c eqn:?
         | |- context [match value ?b with _ => _ end] => destruct (value b) eqn:?
         end;
    intros H; try discriminate H; simpl in H; injection H as <-;
    do 2 eexists; repeat split; reflexivity.
Qed.

Lemma sign_branch_rejected_status {E : Env} (s : Store) (now : timestamp)
    (recipient : Recipient) (field : SignatureField) (fieldId : string)
    (body : SignFieldRequest) (r : Response) :
  SigningRoutes.sign_branch s now recipient field fieldId body = SigningRoutes.Rejected r ->
  status r = 400.
Proof.
  unfold SigningRoutes.sign_branch.
  repeat match goal with
         | |- context [if ?c then _ else _] => destruct c eqn:?
         | |- context [match value ?b with _ => _ end] => destruct (value b) eqn:?
         end;
    intros H; try discriminate H; simpl in H; injection H as <-; reflexivity.
Qed.

(** A sign call that answers 200 passed every check and recorded. *)
Lemma sign_field_ok_inv {E : Env} (s : Store) (now : timestamp) (req : Request)
    (token fieldId : string) (body : SignFieldRequest) :
  status (fst (SigningRoutes.sign_field s now req token fieldId body)) = 200 ->
  exists recipient field s2 entry,
    may_sign s token fieldId recipient field
    /\ SigningRoutes.sign_branch s now recipient field fieldId body
       = SigningRoutes.Recorded s2
    /\ SigningRoutes.sign_field s now req token fieldId body
       = (json 200 (BFieldOk fieldId "Field signed successfully"),
          snd (Db.createAuditLog s2 now (Some (rcp_package_id recipient)) field_signed entry)).
Proof.
  unfold SigningRoutes.sign_field.
  destruct (Db.getRecipientByToken s token) as [recipient|] eqn:Htoken;
    [|simpl; discriminate].
  destruct (Db.getFieldById s fieldId) as [field|] eqn:Hfield; [|simpl; discriminate].
  destruct (String.eqb (fld_recipient_id field) (rcp_id recipient)) eqn:Hown;
    [|simpl; discriminate].
  destruct (Db.getSignatureByField s fieldId) as [g|] eqn:Hsig; [simpl; discriminate|].
  cbn [negb].
  destruct (SigningRoutes.sign_branch s now recipient field fieldId body) as [r|s2] eqn:Hb.
  - apply sign_branch_rejected_status in Hb. cbn [fst]. congruence.
  - intros _. exists recipient, field, s2. eexists. split; [|split; [exact Hb|]].
    + apply String.eqb_eq in Hown. repeat split; assumption.
    + reflexivity.
Qed.

Lemma sign_field_error_keeps_store {E : Env} (s : Store) (now : timestamp) (req : Request)
    (token fieldId : string) (body : SignFieldRequest) :
  status (fst (SigningRoutes.sign_field s now req token fieldId body)) <> 200 ->
  snd (SigningRoutes.sign_field s now req token fieldId body) = s.
Proof.
  unfold SigningRoutes.sign_field.
  destruct (Db.getRecipientByToken s token) as [recipient|]; [|reflexivity].
  destruct (Db.getFieldById s fieldId) as [field|]; [|reflexivity].
  destruct (String.eqb (fld_recipient_id field) (rcp_id recipient)); [|reflexivity].
  destruct (Db.getSignatureByField s fieldId); [reflexivity|].
  cbn [negb].
  destruct (SigningRoutes.sign_branch s now recipient field fieldId body); [reflexivity|].
  intros H. exfalso. apply H. reflexivity.
Qed.

(** X1.  Signing is not idempotent: once a sign call has been answered 200, any
    further sign call for the same field (same token, whatever the
    payload) is answered 400 "Field has already been signed" and writes
    nothing, until the field is unsigned. *)
Theorem sign_twice_is_refused {E : Env}
    (s : Store) (now now' : timestamp) (req req' : Request) (token fieldId : string)
    (body body' : SignFieldRequest) :
  status (fst (SigningRoutes.sign_field s now req token fieldId body)) = 200 ->
  let s' := snd (SigningRoutes.sign_field s now req token fieldId body) in
  SigningRoutes.sign_field s' now' req' token fieldId body'
  = (json 400 (BError "Field has already been signed"), s').
Proof.
  intros Hok. cbv zeta.
  destruct (sign_field_ok_inv s now req token fieldId body Hok)
    as (r & f & s2 & entry & Hmay & Hb & Heq).
  rewrite Heq. cbn [snd].
  destruct (sign_branch_recorded s s2 now r f fieldId body Hb)
    as (g & v & Hsigs & Hgid & _ & Hflds & Hrcp & _ & _).
  destruct Hmay as (Htoken & Hfield & Hown & Hnone).
  set (s3 := snd (Db.createAuditLog s2 now (Some (rcp_package_id r)) field_signed entry)).
  assert (Hsw : signed_with s s3 fieldId f g v)
    by (apply signed_with_intro; assumption).
  destruct Hsw as (_ & _ & Hsig3 & Hfield3).
  assert (Htoken3 : Db.getRecipientByToken s3 token = Some r).
  { unfold Db.getRecipientByToken. change (recipients s3) with (recipients s2).
    rewrite Hrcp. exact Htoken. }
  unfold SigningRoutes.sign_field. rewrite Htoken3, Hfield3.
  cbn [fld_recipient_id Db.set_field_value]. rewrite Hown, String.eqb_refl, Hsig3.
  reflexivity.
Qed.

Lemma sign_twice_is_refused_witness :
  status (fst (SigningRoutes.sign_field (E := Sample.env_ok) Sample.pending_unsigned 30%Z
                 Sample.plain_request "tok1" "f1" Sample.typed_and_drawn_body)) = 200
  /\ fst (SigningRoutes.sign_field (E := Sample.env_ok)
            (snd (SigningRoutes.sign_field (E := Sample.env_ok) Sample.pending_unsigned 30%Z
                    Sample.plain_request "tok1" "f1" Sample.typed_and_drawn_body))
            31%Z Sample.plain_request "tok1" "f1" (Sample.value_body "again"))
     = json 400 (BError "Field has already been signed").
Proof.
  exact (conj eq_refl
           (f_equal fst
              (sign_twice_is_refused (E := Sample.env_ok) Sample.pending_unsigned 30%Z 31%Z
                 Sample.plain_request Sample.plain_request "tok1" "f1"
                 Sample.typed_and_drawn_body (Sample.value_body "again") eq_refl))).
Defined.

(** X2.  A signing route that refuses a request - an answer of the 4xx
    class: unknown token, unknown or foreign field, field already signed,
    payload or identity refused, document closed, session already
    completed, required fields unsigned - has written nothing: no
    signature, no field value, no recipient status and no audit entry.
    Every check of the four handlers comes before their first write. *)
Theorem signing_routes_fail_without_effect {E : Env}
    (s : Store) (now : timestamp) (req : Request) (token fieldId : string)
    (body : SignFieldRequest) (wallet : option string) :
  (client_error (fst (SigningRoutes.get_session s now req token wallet)) ->
   snd (SigningRoutes.get_session s now req token wallet) = s)
  /\ (client_error (fst (SigningRoutes.sign_field s now req token fieldId body)) ->
      snd (SigningRoutes.sign_field s now req token fieldId body) = s)
  /\ (client_error (fst (SigningRoutes.unsign_field s now token fieldId)) ->
      snd (SigningRoutes.unsign_field s now token fieldId) = s)
  /\ (client_error (fst (SigningRoutes.complete_signing s now req token)) ->
      snd (SigningRoutes.complete_signing s now req token) = s).
Proof.
  unfold client_error. split; [|split; [|split]].
  - unfold SigningRoutes.get_session.
    destruct (Db.getRecipientByToken s token) as [r|]; [|reflexivity].
    destruct (DocumentService.getDocument s (rcp_package_id r)) as [[[pkg rs] fs]|];
      [|reflexivity].
    destruct (DocumentStatus_eqb (pkg_status pkg) st_cancelled); [reflexivity|].
    destruct (DocumentStatus_eqb (pkg_status pkg) st_completed); [reflexivity|].
    cbn. lia.
  - intros [Hlo _]. apply sign_field_error_keeps_store. intros Heq.
    rewrite Heq in Hlo. lia.
  - unfold SigningRoutes.unsign_field.
    destruct (Db.getRecipientByToken s token) as [r|]; [|reflexivity].
    destruct (SigningStatus_eqb (rcp_signing_status r) sg_signed); [reflexivity|].
    destruct (Db.getFieldById s fieldId) as [f|]; [|reflexivity].
    destruct (String.eqb (fld_recipient_id f) (rcp_id r)); [|reflexivity].
    cbn. lia.
  - unfold SigningRoutes.complete_signing.
    destruct (Db.getRecipientByToken s token) as [r|]; [|reflexivity].
    match goal with |- context [if ?c then _ else _] => destruct c end; [reflexivity|].
    cbn [Db.updateRecipientStatus Db.createAuditLog Db.fresh].
    match goal with
    | |- context [DocumentService.checkAndCompleteDocument ?a ?n ?b] =>
        destruct (DocumentService.checkAndCompleteDocument a n b)
    end.
    cbn. lia.
Qed.

Lemma signing_routes_fail_without_effect_witness :
  client_error (fst (SigningRoutes.complete_signing (E := Sample.env_ok)
                       Sample.pending_unsigned 30%Z Sample.plain_request "tok1"))
  /\ snd (SigningRoutes.complete_signing (E := Sample.env_ok) Sample.pending_unsigned
            30%Z Sample.plain_request "tok1") = Sample.pending_unsigned.
Proof.
  assert (H : client_error (fst (SigningRoutes.complete_signing (E := Sample.env_ok)
                                   Sample.pending_unsigned 30%Z Sample.plain_request
                                   "tok1")))
    by (vm_compute; split; lia).
  exact (conj H
           (proj2 (proj2 (proj2
              (signing_routes_fail_without_effect (E := Sample.env_ok)
                 Sample.pending_unsigned 30%Z Sample.plain_request "tok1" "f1"
                 Sample.typed_and_drawn_body None))) H)).
Defined.

(** X3.  Unsigning.  A recipient who has not completed may unsign a field of
    theirs whether or not it is signed: the call answers 200, afterwards
    the field has no signature row at all and shows no value, and the
    signatures and values of all other fields are as before. *)
Theorem unsign_clears_the_field {E : Env}
    (s : Store) (now : timestamp) (token fieldId : string)
    (recipient : Recipient) (field : SignatureField) :
  Db.getRecipientByToken s token = Some recipient ->
  rcp_signing_status recipient <> sg_signed ->
  Db.getFieldById s fieldId = Some field ->
  fld_recipient_id field = rcp_id recipient ->
  let out := SigningRoutes.unsign_field s now token fieldId in
  fst out = json 200 (BFieldOk fieldId "Field unsigned successfully")
  /\ (forall g, In g (signatures (snd out)) -> sig_field_id g <> fieldId)
  /\ Db.getSignatureByField (snd out) fieldId = None
  /\ Db.getFieldById (snd out) fieldId = Some (Db.set_field_value field None false)
  /\ (forall other, other <> fieldId ->
        Db.getSignatureByField (snd out) other = Db.getSignatureByField s other
        /\ Db.getFieldById (snd out) other = Db.getFieldById s other).
Proof.
  intros Htoken Hstatus Hfield Hown. cbv zeta. unfold SigningRoutes.unsign_field.
  rewrite Htoken.
  destruct (SigningStatus_eqb (rcp_signing_status recipient) sg_signed) eqn:Hst;
    [apply SigningStatus_eqb_eq in Hst; contradiction|].
  rewrite Hfield, Hown, String.eqb_refl. cbn [negb].
  cbn [Db.clearFieldValue Db.createAuditLog Db.fresh Db.deleteSignatureByField fst snd].
  split; [reflexivity|].
  assert (Hgone : forall g,
             In g (filter (fun g => negb (String.eqb (sig_field_id g) fieldId)) (signatures s)) ->
             sig_field_id g <> fieldId).
  { intros g Hg. apply filter_In in Hg. destruct Hg as [_ Hg].
    apply negb_true_iff in Hg. now apply String.eqb_neq. }
  split; [exact Hgone|]. split; [|split].
  - unfold Db.getSignatureByField. cbn. apply hd_error_filter_none, filter_nil_iff.
    intros g Hg. apply Hgone in Hg. now apply String.eqb_neq.
  - unfold Db.getFieldById. cbn. rewrite hd_error_filter_map.
    + unfold Db.getFieldById in Hfield. rewrite Hfield. simpl.
      apply hd_error_filter_some in Hfield. destruct Hfield as [_ Heq]. now rewrite Heq.
    + intros f. destruct (String.eqb (fld_id f) fieldId) eqn:Hf; simpl; now rewrite Hf.
  - intros other Hother. split.
    + unfold Db.getSignatureByField. cbn. rewrite filter_filter_implied; [reflexivity|].
      intros g Hg. apply String.eqb_eq in Hg. apply negb_true_iff, String.eqb_neq. congruence.
    + unfold Db.getFieldById. cbn. rewrite filter_map_untouched; [reflexivity| |].
      * intros f. destruct (String.eqb (fld_id f) fieldId) eqn:Hf; reflexivity.
      * intros f Hf. apply String.eqb_eq in Hf.
        destruct (String.eqb (fld_id f) fieldId) eqn:Hf'; [|reflexivity].
        apply String.eqb_eq in Hf'. congruence.
Qed.

Lemma unsign_clears_the_field_witness :
  Db.getRecipientByToken Sample.cancelled_doc "tok1"
  = Some (Sample.recipient "r1" "doc1" "tok1" (Some "0xalice") signer sg_pending)
  /\ Db.getSignatureByField Sample.cancelled_doc "f1"
     = Some (Sample.typed_signature "s1" "f1" "r1" "Alice A.")
  /\ Db.getSignatureByField
       (snd (SigningRoutes.unsign_field (E := Sample.env_ok) Sample.cancelled_doc 40%Z
               "tok1" "f1")) "f1" = None.
Proof.
  pose proof (unsign_clears_the_field (E := Sample.env_ok) Sample.cancelled_doc 40%Z
                "tok1" "f1"
                (Sample.recipient "r1" "doc1" "tok1" (Some "0xalice") signer sg_pending)
                (Sample.field "f1" "doc1" "r1" ft_signature)
                eq_refl ltac:(discriminate) eq_refl eq_refl) as (_ & _ & Hnone & _).
  exact (conj eq_refl (conj eq_refl Hnone)).
Defined.

Lemma filter_all {A} (p : A -> bool) (l : list A) :
  (forall x, In x l -> p x = true) -> filter p l = l.
Proof.
  intros H. induction l as [|a l IH]; simpl; [reflexivity|].
  rewrite (H a (or_introl eq_refl)), IH; [reflexivity|].
  intros x Hx. apply H. now right.
Qed.

Lemma set_field_value_same (f : SignatureField) :
  Db.set_field_value f (fld_value f) (fld_inserted f) = f.
Proof. now destruct f. Qed.

(** X4.  Sign followed by unsign is a round trip on the data: the signature
    and field tables are exactly as before the sign call (recipients and
    packages were never touched), and the only trace left is two audit
    entries.  The field is assumed unsigned and empty before, which the
    successful sign call implies for its signature. *)
Theorem sign_then_unsign_restores {E : Env}
    (s : Store) (now now' : timestamp) (req : Request) (token fieldId : string)
    (body : SignFieldRequest) (recipient : Recipient) :
  status (fst (SigningRoutes.sign_field s now req token fieldId body)) = 200 ->
  Db.getRecipientByToken s token = Some recipient ->
  rcp_signing_status recipient <> sg_signed ->
  (forall f, In f (signature_fields s) -> fld_id f = fieldId ->
             fld_value f = None /\ fld_inserted f = false) ->
  let s1 := snd (SigningRoutes.sign_field s now req token fieldId body) in
  let out := SigningRoutes.unsign_field s1 now' token fieldId in
  fst out = json 200 (BFieldOk fieldId "Field unsigned successfully")
  /\ signatures (snd out) = signatures s
  /\ signature_fields (snd out) = signature_fields s
  /\ recipients (snd out) = recipients s
  /\ signature_packages (snd out) = signature_packages s
  /\ exists a b, audit_logs (snd out) = audit_logs s ++ [a; b]
                 /\ log_event_type a = field_signed /\ log_event_type b = field_signed.
Proof.
  intros Hok Htoken Hstatus Hpristine. cbv zeta.
  destruct (sign_field_ok_inv s now req token fieldId body Hok)
    as (r & f & s2 & entry & Hmay & Hb & Heq).
  rewrite Heq. cbn [snd].
  destruct (sign_branch_recorded s s2 now r f fieldId body Hb)
    as (g & v & Hsigs & Hgid & _ & Hflds & Hrcp & Hpkg & Hlog).
  destruct Hmay as (Htoken' & Hfield & Hown & Hnone).
  rewrite Htoken in Htoken'. injection Htoken' as <-.
  set (s3 := snd (Db.createAuditLog s2 now (Some (rcp_package_id recipient))
                    field_signed entry)).
  assert (Hsw : signed_with s s3 fieldId f g v)
    by (apply signed_with_intro; assumption).
  destruct Hsw as (_ & _ & _ & Hfield3).
  assert (Htoken3 : Db.getRecipientByToken s3 token = Some recipient).
  { unfold Db.getRecipientByToken. change (recipients s3) with (recipients s2).
    rewrite Hrcp. exact Htoken. }
  unfold SigningRoutes.unsign_field. rewrite Htoken3.
  destruct (SigningStatus_eqb (rcp_signing_status recipient) sg_signed) eqn:Hst;
    [apply SigningStatus_eqb_eq in Hst; contradiction|].
  rewrite Hfield3. cbn [fld_recipient_id Db.set_field_value].
  rewrite Hown, String.eqb_refl. cbn [negb].
  cbn [Db.clearFieldValue Db.createAuditLog Db.fresh Db.deleteSignatureByField fst snd
       signatures signature_fields recipients signature_packages audit_logs
       Db.set_signatures Db.set_fields Db.set_audit_logs].
  split; [reflexivity|]. split; [|split; [|split; [exact Hrcp|split; [exact Hpkg|]]]].
  - change (signatures s3) with (signatures s2). rewrite Hsigs, filter_app. simpl.
    rewrite Hgid, String.eqb_refl. simpl. rewrite app_nil_r.
    apply filter_all. intros x Hx. apply negb_true_iff.
    apply hd_error_filter_none in Hnone.
    exact (proj1 (filter_nil_iff _ _) Hnone x Hx).
  - change (signature_fields s3) with (signature_fields s2). rewrite Hflds, map_map.
    rewrite <- (map_id (signature_fields s)) at 2. apply map_ext_in.
    intros x Hx. destruct (String.eqb (fld_id x) fieldId) eqn:Hid.
    + cbn [fld_id Db.set_field_value]. rewrite Hid.
      apply String.eqb_eq in Hid. destruct (Hpristine x Hx Hid) as [Hv Hi].
      rewrite <- (set_field_value_same x) at 2. rewrite Hv, Hi. reflexivity.
    + now rewrite Hid.
  - change (audit_logs s3) with (audit_logs s2 ++ [fst (Db.createAuditLog s2 now
             (Some (rcp_package_id recipient)) field_signed entry)]).
    rewrite Hlog, <- app_assoc. simpl. do 2 eexists. split; [reflexivity|].
    split; reflexivity.
Qed.

Lemma sign_then_unsign_restores_witness :
  let s1 := snd (SigningRoutes.sign_field (E := Sample.env_ok) Sample.pending_unsigned 30%Z
                   Sample.plain_request "tok1" "f1" Sample.typed_and_drawn_body) in
  let s2 := snd (SigningRoutes.unsign_field (E := Sample.env_ok) s1 31%Z "tok1" "f1") in
  status (fst (SigningRoutes.sign_field (E := Sample.env_ok) Sample.pending_unsigned 30%Z
                 Sample.plain_request "tok1" "f1" Sample.typed_and_drawn_body)) = 200
  /\ signatures s2 = signatures Sample.pending_unsigned
  /\ signature_fields s2 = signature_fields Sample.pending_unsigned.
Proof.
  intros s1 s2.
  assert (Hp : forall f, In f (signature_fields Sample.pending_unsigned) ->
                         fld_id f = "f1" -> fld_value f = None /\ fld_inserted f = false).
  { intros f [<- | [<- | []]] _; split; reflexivity. }
  pose proof (sign_then_unsign_restores (E := Sample.env_ok) Sample.pending_unsigned
                30%Z 31%Z Sample.plain_request "tok1" "f1" Sample.typed_and_drawn_body
                (Sample.recipient "r1" "doc1" "tok1" (Some "0xalice") signer sg_pending)
                eq_refl eq_refl ltac:(discriminate) Hp) as (_ & Hs & Hf & _).
  exact (conj eq_refl (conj Hs Hf)).
Defined.

(** ** Completing a signing session *)

Lemma audit_grows_refl (s : Store) : audit_grows s s.
Proof. exists []. now rewrite app_nil_r. Qed.

Lemma audit_grows_trans (a b c : Store) :
  audit_grows a b -> audit_grows b c -> audit_grows a c.
Proof. intros [l Hl] [k Hk]. exists (l ++ k). now rewrite Hk, Hl, app_assoc. Qed.

Lemma same_rows_refl (s : Store) : same_rows s s.
Proof. repeat split. Qed.

Lemma same_rows_trans (a b c : Store) : same_rows a b -> same_rows b c -> same_rows a c.
Proof. intros (H1 & H2 & H3) (K1 & K2 & K3). repeat split; congruence. Qed.

Lemma generateFinalDocument_quiet {E : Env} (s : Store) (now : timestamp) (d : string) :
  same_rows s (DocumentService.generateFinalDocument s now d)
  /\ audit_logs (DocumentService.generateFinalDocument s now d) = audit_logs s.
Proof.
  unfold DocumentService.generateFinalDocument.
  destruct (Db.getPackageById s d) as [doc|]; [|repeat split].
  destruct (negb (Js.truthy (pkg_document_data doc))); [repeat split|].
  destruct (DocumentService.finalPdfBase64 s d doc _); repeat split.
Qed.

Lemma checkAndCompleteDocument_quiet {E : Env} (s : Store) (now : timestamp) (d : string) :
  same_rows s (snd (DocumentService.checkAndCompleteDocument s now d))
  /\ audit_grows s (snd (DocumentService.checkAndCompleteDocument s now d)).
Proof.
  destruct (Db.checkAllRecipientsSigned s d) eqn:Hall.
  - rewrite (checkAndCompleteDocument_true s now d Hall). cbn [snd].
    destruct (generateFinalDocument_quiet s now d) as [(H1 & H2 & H3) H4].
    split; [repeat split; cbn; assumption|].
    eexists. cbn. rewrite H4. reflexivity.
  - rewrite (checkAndCompleteDocument_false s now d Hall).
    split; [apply same_rows_refl | apply audit_grows_refl].
Qed.

Lemma In_unsigned_required (s : Store) (r : Recipient) (f : SignatureField) :
  In f (filter
          (fun f =>
             SigningRoutes.isRequiredField (fld_field_type f) (fld_field_meta f)
             && match Db.getSignatureByField s (fld_id f) with
                | Some _ => false
                | None => true
                end)
          (Db.getFieldsByRecipient s (rcp_id r)))
  <-> required_unsigned s r f.
Proof.
  unfold required_unsigned, Db.getFieldsByRecipient.
  rewrite filter_In, In_sort_by, filter_In, andb_true_iff, String.eqb_eq.
  destruct (Db.getSignatureByField s (fld_id f)); intuition congruence.
Qed.

(** The recipient row that a token resolves to after the status update. *)
Lemma getRecipientByToken_updateRecipientStatus (s : Store) (now : timestamp)
    (token : string) (r : Recipient) (st : SigningStatus) (ip ua : option string) :
  Db.getRecipientByToken s token = Some r ->
  exists r',
    Db.getRecipientByToken (snd (Db.updateRecipientStatus s now (rcp_id r) st ip ua)) token
    = Some r'
    /\ rcp_id r' = rcp_id r /\ rcp_package_id r' = rcp_package_id r
    /\ rcp_signing_status r' = st
    /\ rcp_signed_at r' = (if SigningStatus_eqb st sg_signed then Some now else None)
    /\ rcp_ip_address r' = ip /\ rcp_user_agent r' = ua.
Proof.
  intros Htoken. unfold Db.getRecipientByToken, Db.updateRecipientStatus. cbn.
  rewrite hd_error_filter_map.
  - unfold Db.getRecipientByToken in Htoken. rewrite Htoken. cbn.
    rewrite String.eqb_refl. eexists. split; [reflexivity|]. repeat split.
  - intros x. destruct (String.eqb (rcp_id x) (rcp_id r)); reflexivity.
Qed.

(** X5.  For a valid token, completion is answered 400 exactly when a
    required field of the recipient is unsigned; the refusal lists those
    fields and writes nothing.  A completion answered 200 has marked the
    recipient signed, with the time and the client address of the
    request. *)
Theorem complete_refused_iff_required_unsigned {E : Env}
    (s : Store) (now : timestamp) (req : Request) (token : string) (r : Recipient) :
  Db.getRecipientByToken s token = Some r ->
  let out := SigningRoutes.complete_signing s now req token in
  (status (fst out) = 400 <-> exists f, required_unsigned s r f)
  /\ ((exists f, required_unsigned s r f) ->
      exists ids,
        out = (json 400 (BUnsignedFields "Not all required fields are signed" ids), s)
        /\ forall id t, In (id, t) ids
                        <-> exists f, required_unsigned s r f
                                      /\ fld_id f = id /\ fld_field_type f = t)
  /\ (status (fst out) = 200 ->
      exists r',
        Db.getRecipientByToken (snd out) token = Some r'
        /\ rcp_id r' = rcp_id r
        /\ rcp_signing_status r' = sg_signed
        /\ rcp_signed_at r' = Some now
        /\ rcp_ip_address r' = Some (SigningRoutes.getClientIp req)).
Proof.
  intros Htoken. cbv zeta. unfold SigningRoutes.complete_signing. rewrite Htoken.
  set (unsigned := filter _ (Db.getFieldsByRecipient s (rcp_id r))).
  assert (Hin : forall f, In f unsigned <-> required_unsigned s r f)
    by (intros f; apply In_unsigned_required).
  destruct unsigned as [|f0 l] eqn:Hu.
  - cbn [List.length Nat.ltb Nat.leb].
    assert (Hnone : ~ (exists f, required_unsigned s r f)).
    { intros [f Hf]. apply Hin in Hf. contradiction. }
    destruct (getRecipientByToken_updateRecipientStatus s now token r sg_signed
                (Some (SigningRoutes.getClientIp req))
                (Some (Js.or_str (header_user_agent req) "")) Htoken)
      as (r' & Hr' & Hid & _ & Hst & Hat & Hip & _).
    cbn [Db.updateRecipientStatus Db.createAuditLog Db.fresh].
    match goal with
    | |- context [DocumentService.checkAndCompleteDocument ?a ?n ?b] =>
        pose proof (checkAndCompleteDocument_quiet a n b) as [(Hrc & _ & _) _];
        destruct (DocumentService.checkAndCompleteDocument a n b) as [done s3]
    end.
    cbn [fst snd status json] in *.
    split; [split; [discriminate | intros H; contradiction]|].
    split; [intros H; contradiction|].
    intros _. exists r'. split; [|tauto].
    unfold Db.getRecipientByToken. rewrite Hrc. exact Hr'.
  - cbn [List.length Nat.ltb Nat.leb fst snd status json].
    assert (Hsome : exists f, required_unsigned s r f)
      by (exists f0; apply Hin; now left).
    split; [split; [intros _; exact Hsome | reflexivity]|].
    split; [|discriminate].
    intros _. eexists. split; [reflexivity|].
    intros id t. rewrite in_map_iff. split.
    + intros [x [Heq Hx]]. injection Heq as <- <-. exists x. apply Hin in Hx. tauto.
    + intros [x [Hx [<- <-]]]. exists x. split; [reflexivity | now apply Hin].
Qed.

Lemma complete_refused_iff_required_unsigned_witness :
  Db.getRecipientByToken Sample.pending_unsigned "tok1"
  = Some (Sample.recipient "r1" "doc1" "tok1" (Some "0xalice") signer sg_pending)
  /\ required_unsigned Sample.pending_unsigned
       (Sample.recipient "r1" "doc1" "tok1" (Some "0xalice") signer sg_pending)
       (Sample.field "f1" "doc1" "r1" ft_signature)
  /\ exists ids,
       SigningRoutes.complete_signing (E := Sample.env_ok) Sample.pending_unsigned 30%Z
         Sample.plain_request "tok1"
       = (json 400 (BUnsignedFields "Not all required fields are signed" ids),
          Sample.pending_unsigned).
Proof.
  assert (Hf : required_unsigned Sample.pending_unsigned
                 (Sample.recipient "r1" "doc1" "tok1" (Some "0xalice") signer sg_pending)
                 (Sample.field "f1" "doc1" "r1" ft_signature)).
  { split; [left; reflexivity|]. repeat split; reflexivity. }
  destruct (proj1 (proj2 (complete_refused_iff_required_unsigned (E := Sample.env_ok)
                     Sample.pending_unsigned 30%Z Sample.plain_request "tok1"
                     (Sample.recipient "r1" "doc1" "tok1" (Some "0xalice") signer sg_pending)
                     eq_refl))
              (ex_intro _ _ Hf)) as (ids & Hout & _).
  exact (conj eq_refl (conj Hf (ex_intro _ ids Hout))).
Defined.

(** A completion that answers 200: what it ran on and what it left. *)
Lemma complete_signing_ok_inv {E : Env} (s : Store) (now : timestamp) (req : Request)
    (token : string) :
  status (fst (SigningRoutes.complete_signing s now req token)) = 200 ->
  exists r entry,
    Db.getRecipientByToken s token = Some r
    /\ (forall f, ~ required_unsigned s r f)
    /\ let s1 := snd (Db.updateRecipientStatus s now (rcp_id r) sg_signed
                        (Some (SigningRoutes.getClientIp req))
                        (Some (Js.or_str (header_user_agent req) ""))) in
       let s2 := snd (Db.createAuditLog s1 now (Some (rcp_package_id r))
                        signing_completed entry) in
       SigningRoutes.complete_signing s now req token
       = (json 200
            (BCompleted "Signing completed successfully" sg_signed
               (fst (DocumentService.checkAndCompleteDocument s2 now (rcp_package_id r)))
               now (SigningRoutes.getClientIp req)),
          snd (DocumentService.checkAndCompleteDocument s2 now (rcp_package_id r))).
Proof.
  unfold SigningRoutes.complete_signing.
  destruct (Db.getRecipientByToken s token) as [r|] eqn:Htoken; [|simpl; discriminate].
  set (unsigned := filter _ (Db.getFieldsByRecipient s (rcp_id r))).
  assert (Hin : forall f, In f unsigned <-> required_unsigned s r f)
    by (intros f; apply In_unsigned_required).
  destruct unsigned as [|f0 l] eqn:Hu; [|simpl; discriminate].
  intros _. exists r.
  exists {| userWallet := Js.or_null (rcp_wallet_address r);
            userEmail := Js.or_null (rcp_email r);
            ipAddress := Some (SigningRoutes.getClientIp req);
            userAgent := Some (Js.or_str (header_user_agent req) "");
            metadata := Some [("recipientName", MStr (rcp_name r));
                              ("signedAt", MIsoDate now)] |}.
  split; [reflexivity|]. split.
  - intros f Hf. apply Hin in Hf. contradiction.
  - cbv zeta. cbn [List.length Nat.ltb Nat.leb].
    cbn [Db.updateRecipientStatus Db.createAuditLog Db.fresh fst snd].
    match goal with
    | |- context [DocumentService.checkAndCompleteDocument ?a ?n ?b] =>
        destruct (DocumentService.checkAndCompleteDocument a n b) as [done s3]
    end.
    reflexivity.
Qed.

(** X6.  Completion freezes the recipient's fields against unsigning: after a
    completion that answered 200, every unsign call with the same token is
    answered 400, whatever field it names, and writes nothing. *)
Theorem completion_freezes_fields {E : Env}
    (s : Store) (now now' : timestamp) (req : Request) (token fieldId : string) :
  status (fst (SigningRoutes.complete_signing s now req token)) = 200 ->
  let s' := snd (SigningRoutes.complete_signing s now req token) in
  SigningRoutes.unsign_field s' now' token fieldId
  = (json 400 (BError "Cannot unsign after completing the signing session"), s').
Proof.
  intros Hok. cbv zeta.
  destruct (complete_signing_ok_inv s now req token Hok) as (r & entry & Htoken & _ & Heq).
  cbv zeta in Heq. rewrite Heq. cbn [snd].
  destruct (getRecipientByToken_updateRecipientStatus s now token r sg_signed
              (Some (SigningRoutes.getClientIp req))
              (Some (Js.or_str (header_user_agent req) "")) Htoken)
    as (r' & Hr' & _ & _ & Hst & _).
  match goal with
  | |- context [DocumentService.checkAndCompleteDocument ?a ?n ?b] =>
      pose proof (checkAndCompleteDocument_quiet a n b) as [(Hrc & _ & _) _];
      set (s3 := snd (DocumentService.checkAndCompleteDocument a n b)) in *
  end.
  assert (Htoken3 : Db.getRecipientByToken s3 token = Some r').
  { unfold Db.getRecipientByToken. rewrite Hrc. exact Hr'. }
  unfold SigningRoutes.unsign_field. rewrite Htoken3, Hst. reflexivity.
Qed.

Lemma completion_freezes_fields_witness :
  let s := Sample.store_of [Sample.package "doc1" st_pending None]
             [Sample.recipient "r1" "doc1" "tok1" (Some "0xalice") signer sg_pending]
             [Sample.field "f1" "doc1" "r1" ft_signature]
             [Sample.typed_signature "s1" "f1" "r1" "Alice A."] [] in
  status (fst (SigningRoutes.complete_signing (E := Sample.env_ok) s 30%Z
                 Sample.plain_request "tok1")) = 200
  /\ fst (SigningRoutes.unsign_field (E := Sample.env_ok)
            (snd (SigningRoutes.complete_signing (E := Sample.env_ok) s 30%Z
                    Sample.plain_request "tok1")) 31%Z "tok1" "f1")
     = json 400 (BError "Cannot unsign after completing the signing session").
Proof.
  intros s.
  exact (conj eq_refl
           (f_equal fst
              (completion_freezes_fields (E := Sample.env_ok) s 30%Z 31%Z
                 Sample.plain_request "tok1" "f1" eq_refl))).
Defined.

Lemma checkAndCompleteDocument_result {E : Env} (s : Store) (now : timestamp) (d : string) :
  fst (DocumentService.checkAndCompleteDocument s now d) = Db.checkAllRecipientsSigned s d.
Proof.
  destruct (Db.checkAllRecipientsSigned s d) eqn:Hall.
  - now rewrite (checkAndCompleteDocument_true s now d Hall).
  - now rewrite (checkAndCompleteDocument_false s now d Hall).
Qed.

Lemma checkAndCompleteDocument_completes {E : Env} (s : Store) (now : timestamp)
    (d : string) (p : SignaturePackage) :
  Db.checkAllRecipientsSigned s d = true ->
  Db.getPackageById s d = Some p ->
  status_of (snd (DocumentService.checkAndCompleteDocument s now d)) d = Some st_completed.
Proof.
  intros Hall Hp. rewrite (checkAndCompleteDocument_true s now d Hall). cbn [snd].
  unfold status_of, Db.getPackageById. rewrite createAuditLog_packages.
  fold (Db.getPackageById
          (snd (Db.updatePackageStatus (DocumentService.generateFinalDocument s now d)
                  now d st_completed)) d).
  rewrite getPackageById_updatePackageStatus.
  destruct (generateFinalDocument_keeps_document s now d p Hp) as [p' [Hp' _]].
  now rewrite Hp'.
Qed.

(** The signers of a document once recipient [id] has been marked signed. *)
Lemma signers_after_completion (s s' : Store) (now : timestamp) (id d : string)
    (ip ua : option string) :
  recipients s' = recipients (snd (Db.updateRecipientStatus s now id sg_signed ip ua)) ->
  (has_signer s' d <-> has_signer s d)
  /\ (all_signers_signed s' d
      <-> forall r, In r (recipients s) -> rcp_package_id r = d -> rcp_role r = signer ->
                    rcp_id r = id \/ rcp_signing_status r = sg_signed).
Proof.
  intros Hrc. unfold has_signer, all_signers_signed. rewrite Hrc. cbn.
  split; split.
  - intros [r' [Hin [Hd Hrole]]]. apply in_map_iff in Hin. destruct Hin as [r [<- Hr]].
    exists r. destruct (String.eqb (rcp_id r) id); tauto.
  - intros [r [Hr [Hd Hrole]]]. eexists. split; [apply in_map; exact Hr|].
    destruct (String.eqb (rcp_id r) id); tauto.
  - intros H r Hr Hd Hrole.
    specialize (H _ (in_map _ _ _ Hr)). cbv beta in H. revert H.
    destruct (String.eqb (rcp_id r) id) eqn:Hid; intros H.
    + left. now apply String.eqb_eq.
    + right. now apply H.
  - intros H r' Hin Hd Hrole. apply in_map_iff in Hin. destruct Hin as [r [<- Hr]].
    destruct (String.eqb (rcp_id r) id) eqn:Hid; [reflexivity|].
    destruct (H r Hr Hd Hrole) as [Heq | Hs]; [|exact Hs].
    apply String.eqb_neq in Hid. contradiction.
Qed.

(** X7.  The completion that finishes the document.  A completion answered 200
    reports [documentCompleted = true] exactly when the recipient's
    document has a signer and every signer other than this recipient had
    already signed; the document is then completed, and otherwise the
    package table is left as it was. *)
Theorem last_signer_completes_document {E : Env}
    (s : Store) (now : timestamp) (req : Request) (token : string) (r : Recipient) :
  Db.getRecipientByToken s token = Some r ->
  status (fst (SigningRoutes.complete_signing s now req token)) = 200 ->
  let out := SigningRoutes.complete_signing s now req token in
  exists done,
    fst out = json 200 (BCompleted "Signing completed successfully" sg_signed done now
                          (SigningRoutes.getClientIp req))
    /\ (done = true
        <-> has_signer s (rcp_package_id r)
            /\ forall r', In r' (recipients s) ->
                          rcp_package_id r' = rcp_package_id r -> rcp_role r' = signer ->
                          rcp_id r' = rcp_id r \/ rcp_signing_status r' = sg_signed)
    /\ (done = true ->
        forall p, Db.getPackageById s (rcp_package_id r) = Some p ->
                  status_of (snd out) (rcp_package_id r) = Some st_completed)
    /\ (done = false -> signature_packages (snd out) = signature_packages s).
Proof.
  intros Htoken Hok. cbv zeta.
  destruct (complete_signing_ok_inv s now req token Hok) as (r0 & entry & Htoken0 & _ & Heq).
  rewrite Htoken in Htoken0. injection Htoken0 as <-.
  cbv zeta in Heq. rewrite Heq. cbn [fst snd]. clear Heq.
  match goal with
  | |- context [DocumentService.checkAndCompleteDocument ?a ?n ?b] => set (s2 := a)
  end.
  exists (fst (DocumentService.checkAndCompleteDocument s2 now (rcp_package_id r))).
  split; [reflexivity|].
  assert (Hrc : recipients s2
                = recipients (snd (Db.updateRecipientStatus s now (rcp_id r) sg_signed
                                     (Some (SigningRoutes.getClientIp req))
                                     (Some (Js.or_str (header_user_agent req) "")))))
    by reflexivity.
  assert (Hpk : signature_packages s2 = signature_packages s) by reflexivity.
  destruct (signers_after_completion s s2 now (rcp_id r) (rcp_package_id r) _ _ Hrc)
    as [Hhas Hall].
  rewrite checkAndCompleteDocument_result.
  split; [|split].
  - rewrite checkAllRecipientsSigned_spec, Hhas, Hall. reflexivity.
  - intros Hdone p Hp. apply (checkAndCompleteDocument_completes s2 now _ p Hdone).
    unfold Db.getPackageById. rewrite Hpk. exact Hp.
  - intros Hdone. rewrite (checkAndCompleteDocument_false s2 now _ Hdone). exact Hpk.
Qed.

Lemma last_signer_completes_document_witness :
  let s := Sample.store_of [Sample.package "doc1" st_pending None]
             [Sample.recipient "r1" "doc1" "tok1" (Some "0xalice") signer sg_pending;
              Sample.recipient "r2" "doc1" "tok2" (Some "0xbob") signer sg_signed]
             [Sample.field "f1" "doc1" "r1" ft_signature]
             [Sample.typed_signature "s1" "f1" "r1" "Alice A."] [] in
  Db.getRecipientByToken s "tok1"
  = Some (Sample.recipient "r1" "doc1" "tok1" (Some "0xalice") signer sg_pending)
  /\ status (fst (SigningRoutes.complete_signing (E := Sample.env_ok) s 30%Z
                    Sample.plain_request "tok1")) = 200
  /\ exists done,
       fst (SigningRoutes.complete_signing (E := Sample.env_ok) s 30%Z
              Sample.plain_request "tok1")
       = json 200 (BCompleted "Signing completed successfully" sg_signed done 30%Z
                     "10.0.0.7").
Proof.
  intros s.
  destruct (last_signer_completes_document (E := Sample.env_ok) s 30%Z
              Sample.plain_request "tok1"
              (Sample.recipient "r1" "doc1" "tok1" (Some "0xalice") signer sg_pending)
              eq_refl eq_refl) as (done & Hout & _).
  exact (conj eq_refl (conj eq_refl (ex_intro _ done Hout))).
Defined.

(** ** The signing session *)

(** X8.  A granted signing session shows the recipient of the token and exactly
    the fields of the recipient's document that are assigned to that
    recipient, each with a [signed] flag that is true exactly when a
    signature row exists; the counters agree with the list; and the only
    write is one [document_viewed] audit entry. *)
Theorem session_shows_own_fields {E : Env}
    (s : Store) (now : timestamp) (req : Request) (token : string)
    (wallet : option string) (session : SigningSession) :
  fst (SigningRoutes.get_session s now req token wallet) = json 200 (BSession session) ->
  exists r,
    Db.getRecipientByToken s token = Some r
    /\ ss_recipient session = r
    /\ (forall sf, In sf (ss_fields session) ->
          In (sf_field sf) (signature_fields s)
          /\ fld_recipient_id (sf_field sf) = rcp_id r
          /\ fld_package_id (sf_field sf) = rcp_package_id r
          /\ (sf_signed sf = true
              <-> Db.getSignatureByField s (fld_id (sf_field sf)) <> None))
    /\ (forall f, In f (signature_fields s) ->
          fld_recipient_id f = rcp_id r -> fld_package_id f = rcp_package_id r ->
          exists sf, In sf (ss_fields session) /\ sf_field sf = f)
    /\ totalFields session = List.length (ss_fields session)
    /\ (signedFields session <= totalFields session)%nat
    /\ same_rows s (snd (SigningRoutes.get_session s now req token wallet))
    /\ exists entry,
         audit_logs (snd (SigningRoutes.get_session s now req token wallet))
         = audit_logs s ++ [entry]
         /\ log_event_type entry = document_viewed.
Proof.
  unfold SigningRoutes.get_session, DocumentService.getDocument, Db.getPackageWithRecipients.
  destruct (Db.getRecipientByToken s token) as [r|]; [|discriminate].
  destruct (Db.getPackageById s (rcp_package_id r)) as [pkg|]; [|discriminate].
  destruct (DocumentStatus_eqb (pkg_status pkg) st_cancelled); [discriminate|].
  destruct (DocumentStatus_eqb (pkg_status pkg) st_completed); [discriminate|].
  cbn [Db.createAuditLog Db.fresh fst snd]. intros H. injection H as <-.
  cbn [ss_recipient ss_fields totalFields signedFields].
  exists r. split; [reflexivity|]. split; [reflexivity|].
  assert (Hown : forall f,
             In f (filter (fun f => String.eqb (fld_recipient_id f) (rcp_id r))
                     (Db.getFieldsByPackage s (rcp_package_id r)))
             <-> In f (signature_fields s)
                 /\ fld_recipient_id f = rcp_id r /\ fld_package_id f = rcp_package_id r).
  { intros f. unfold Db.getFieldsByPackage.
    rewrite filter_In, In_sort_by, filter_In, !String.eqb_eq. tauto. }
  split; [|split; [|split; [|split; [|split]]]].
  - intros sf Hsf. apply in_map_iff in Hsf. destruct Hsf as [f [<- Hf]].
    apply Hown in Hf. destruct Hf as (H1 & H2 & H3).
    unfold SigningRoutes.withSignature. cbn [sf_field sf_signed].
    repeat split; try assumption;
      destruct (Db.getSignatureByField s (fld_id f)); congruence.
  - intros f H1 H2 H3. exists (SigningRoutes.withSignature s f). split; [|reflexivity].
    apply in_map. apply Hown. tauto.
  - now rewrite length_map.
  - rewrite <- (length_map (SigningRoutes.withSignature s)). apply filter_length_le.
  - repeat split.
  - eexists. split; reflexivity.
Qed.

Lemma session_shows_own_fields_witness :
  exists session,
    fst (SigningRoutes.get_session (E := Sample.env_ok) Sample.two_documents 30%Z
           Sample.plain_request "tok2" None) = json 200 (BSession session)
    /\ map (fun sf => fld_id (sf_field sf)) (ss_fields session) = ["f9"]
    /\ exists r, Db.getRecipientByToken Sample.two_documents "tok2" = Some r
                 /\ ss_recipient session = r.
Proof.
  eexists. split; [reflexivity|]. split; [reflexivity|].
  destruct (session_shows_own_fields (E := Sample.env_ok) Sample.two_documents 30%Z
              Sample.plain_request "tok2" None _ eq_refl) as (r & Hr & Hs & _).
  exact (ex_intro _ r (conj Hr Hs)).
Defined.

Lemma truthy_or_null (o : option string) : Js.truthy (Js.or_null o) = Js.truthy o.
Proof.
  unfold Js.or_null, Js.or. destruct (Js.truthy o) eqn:H; [exact H | reflexivity].
Qed.

(** X9.  The type a session reports for a recorded signature follows the
    stored columns, wallet proof first: typed and drawn signatures are
    reported as such, a wallet proof as wallet, and an identity-verified
    signature as kyc only when no wallet signature came with it -
    with one it is reported as wallet. *)
Theorem reported_signature_type {E : Env}
    (s : Store) (now : timestamp) (req : Request) (token fieldId : string)
    (body : SignFieldRequest) (recipient : Recipient) (field : SignatureField) :
  may_sign s token fieldId recipient field ->
  SigningRoutes.isSignatureField (fld_field_type field) = true ->
  status (fst (SigningRoutes.sign_field s now req token fieldId body)) = 200 ->
  exists g,
    Db.getSignatureByField (snd (SigningRoutes.sign_field s now req token fieldId body))
      fieldId = Some g
    /\ SigningRoutes.signatureType_of g = reported_type body.
Proof.
  intros Hmay Hsig.
  rewrite (sign_field_reaches_branch s now req token fieldId body recipient field Hmay).
  destruct Hmay as (_ & Hfield & _ & Hnone).
  unfold reported_type, mode_by_precedence, SigningRoutes.sign_branch. rewrite Hsig.
  assert (Hget : forall s' g v,
             signatures s' = signatures s ++ [g] -> sig_field_id g = fieldId ->
             signature_fields s'
             = map (fun f => if String.eqb (fld_id f) fieldId
                             then Db.set_field_value f (Some v) true else f)
                 (signature_fields s) ->
             Db.getSignatureByField s' fieldId = Some g).
  { intros s' g v H1 H2 H3.
    exact (proj1 (proj2 (proj2 (signed_with_intro s s' fieldId field g v
                                  Hfield Hnone H1 H2 H3)))). }
  destruct (Js.truthy (kycNftAddress body) && Js.truthy (verifiedName body)) eqn:Hkyc.
  { apply andb_true_iff in Hkyc. destruct Hkyc as [Hnft Hname].
    destruct (Kyc.verified _) eqn:Hv; cbn [negb]; [|cbn; discriminate].
    intros _. eexists. split; [eapply Hget; reflexivity|].
    unfold SigningRoutes.signatureType_of. cbn.
    rewrite !truthy_or_null, Hname.
    destruct (Js.truthy (walletSignature body)); reflexivity. }
  destruct (Js.truthy (walletSignature body) && Js.truthy (walletAddress body)
            && Js.truthy (documentHash body)) eqn:Hwallet.
  { apply andb_true_iff in Hwallet. destruct Hwallet as [Hw _].
    apply andb_true_iff in Hw. destruct Hw as [Hws _].
    intros _. eexists. split; [eapply Hget; reflexivity|].
    unfold SigningRoutes.signatureType_of. cbn. now rewrite truthy_or_null, Hws. }
  destruct (Js.truthy (typedSignature body)) eqn:Htyped.
  { intros _. eexists. split; [eapply Hget; reflexivity|].
    unfold SigningRoutes.signatureType_of. cbn. now rewrite truthy_or_null, Htyped. }
  destruct (Js.truthy (signatureImage body)) eqn:Himage.
  { intros _. eexists. split; [eapply Hget; reflexivity|].
    unfold SigningRoutes.signatureType_of. cbn. now rewrite truthy_or_null, Himage. }
  cbn. discriminate.
Qed.

Lemma reported_signature_type_witness :
  may_sign Sample.pending_unsigned "tok1" "f1"
    (Sample.recipient "r1" "doc1" "tok1" (Some "0xalice") signer sg_pending)
    (Sample.field "f1" "doc1" "r1" ft_signature)
  /\ reported_type Sample.kyc_and_wallet_body = Some type_wallet
  /\ exists g,
       Db.getSignatureByField
         (snd (SigningRoutes.sign_field (E := Sample.env_ok) Sample.pending_unsigned 30%Z
                 Sample.plain_request "tok1" "f1" Sample.kyc_and_wallet_body))
         "f1" = Some g
       /\ SigningRoutes.signatureType_of g = reported_type Sample.kyc_and_wallet_body.
Proof.
  assert (Hmay : may_sign Sample.pending_unsigned "tok1" "f1"
                   (Sample.recipient "r1" "doc1" "tok1" (Some "0xalice") signer sg_pending)
                   (Sample.field "f1" "doc1" "r1" ft_signature))
    by (repeat split; reflexivity).
  exact (conj Hmay (conj eq_refl
           (reported_signature_type (E := Sample.env_ok) Sample.pending_unsigned 30%Z
              Sample.plain_request "tok1" "f1" Sample.kyc_and_wallet_body
              (Sample.recipient "r1" "doc1" "tok1" (Some "0xalice") signer sg_pending)
              (Sample.field "f1" "doc1" "r1" ft_signature) Hmay eq_refl eq_refl))).
Defined.

(** ** The signing routes and the state of the document *)

(** X10.  Signing and unsigning a field never read the document row: with any
    other content of the package table - the document cancelled or
    completed - the two routes give the same answer and make
    the same changes to the other tables. *)
Theorem field_signing_ignores_document_state {E : Env}
    (s : Store) (packages : list SignaturePackage) (now : timestamp) (req : Request)
    (token fieldId : string) (body : SignFieldRequest) :
  SigningRoutes.sign_field (Db.set_packages s packages) now req token fieldId body
  = (fst (SigningRoutes.sign_field s now req token fieldId body),
     Db.set_packages (snd (SigningRoutes.sign_field s now req token fieldId body)) packages)
  /\ SigningRoutes.unsign_field (Db.set_packages s packages) now token fieldId
     = (fst (SigningRoutes.unsign_field s now token fieldId),
        Db.set_packages (snd (SigningRoutes.unsign_field s now token fieldId)) packages).
Proof.
  split.
  - unfold SigningRoutes.sign_field.
    change (Db.getRecipientByToken (Db.set_packages s packages) token)
      with (Db.getRecipientByToken s token).
    change (Db.getFieldById (Db.set_packages s packages) fieldId)
      with (Db.getFieldById s fieldId).
    change (Db.getSignatureByField (Db.set_packages s packages) fieldId)
      with (Db.getSignatureByField s fieldId).
    destruct (Db.getRecipientByToken s token) as [r|]; [|reflexivity].
    destruct (Db.getFieldById s fieldId) as [f|]; [|reflexivity].
    destruct (negb (String.eqb (fld_recipient_id f) (rcp_id r))); [reflexivity|].
    destruct (Db.getSignatureByField s fieldId); [reflexivity|].
    unfold SigningRoutes.sign_branch.
    destruct (SigningRoutes.isSignatureField (fld_field_type f)).
    + destruct (Js.truthy (kycNftAddress body) && Js.truthy (verifiedName body)).
      { destruct (negb (Kyc.verified _)); reflexivity. }
      destruct (Js.truthy (walletSignature body) && Js.truthy (walletAddress body)
                && Js.truthy (documentHash body)); [reflexivity|].
      destruct (Js.truthy (typedSignature body)); [reflexivity|].
      destruct (Js.truthy (signatureImage body)); reflexivity.
    + destruct (value body); reflexivity.
  - unfold SigningRoutes.unsign_field.
    change (Db.getRecipientByToken (Db.set_packages s packages) token)
      with (Db.getRecipientByToken s token).
    change (Db.getFieldById (Db.set_packages s packages) fieldId)
      with (Db.getFieldById s fieldId).
    destruct (Db.getRecipientByToken s token) as [r|]; [|reflexivity].
    destruct (SigningStatus_eqb (rcp_signing_status r) sg_signed); [reflexivity|].
    destruct (Db.getFieldById s fieldId) as [f|]; [|reflexivity].
    destruct (negb (String.eqb (fld_recipient_id f) (rcp_id r))); reflexivity.
Qed.

(** ** The document routes *)

Lemma length_zero_false {A} (l : list A) :
  (List.length l =? 0)%nat = false <-> exists x, In x l.
Proof.
  destruct l as [|a l]; simpl; split; try discriminate.
  - intros [x []].
  - intros _. exists a. now left.
  - reflexivity.
Qed.

Lemma find_none_all {A} (p : A -> bool) (l : list A) :
  find p l = None <-> forall x, In x l -> p x = false.
Proof.
  induction l as [|a l IH]; simpl; [tauto|].
  destruct (p a) eqn:Ha.
  - split; [discriminate|]. intros H. rewrite (H a) in Ha by now left. discriminate.
  - rewrite IH. split.
    + intros H x [<-|Hx]; auto.
    + intros H x Hx. apply H. now right.
Qed.

Lemma In_getRecipientsByPackage (s : Store) (d : string) (r : Recipient) :
  In r (Db.getRecipientsByPackage s d) <-> In r (recipients s) /\ rcp_package_id r = d.
Proof.
  unfold Db.getRecipientsByPackage. now rewrite In_sort_by, filter_In, String.eqb_eq.
Qed.

Lemma In_getFieldsByPackage (s : Store) (d : string) (f : SignatureField) :
  In f (Db.getFieldsByPackage s d) <-> In f (signature_fields s) /\ fld_package_id f = d.
Proof.
  unfold Db.getFieldsByPackage. now rewrite In_sort_by, filter_In, String.eqb_eq.
Qed.

(** Every signer among the recipients of the document has a field of the
    document assigned. *)
Lemma signerWithoutFields_none (s : Store) (d : string) :
  DocumentRoutes.signerWithoutFields (Db.getRecipientsByPackage s d)
    (Db.getFieldsByPackage s d) = None
  <-> forall r, In r (recipients s) -> rcp_package_id r = d -> rcp_role r = signer ->
        exists f, In f (signature_fields s) /\ fld_package_id f = d
                  /\ fld_recipient_id f = rcp_id r.
Proof.
  unfold DocumentRoutes.signerWithoutFields. rewrite find_none_all. split.
  - intros H r Hr Hd Hrole.
    assert (Hin : In r (filter (fun r => RecipientRole_eqb (rcp_role r) signer)
                          (Db.getRecipientsByPackage s d))).
    { apply filter_In. split; [now apply In_getRecipientsByPackage|].
      now apply RecipientRole_eqb_eq. }
    apply H, length_zero_false in Hin. destruct Hin as [f Hf].
    apply filter_In in Hf. destruct Hf as [Hf Heq].
    apply In_getFieldsByPackage in Hf. apply String.eqb_eq in Heq.
    exists f. tauto.
  - intros H r Hr. apply filter_In in Hr. destruct Hr as [Hr Hrole].
    apply In_getRecipientsByPackage in Hr. apply RecipientRole_eqb_eq in Hrole.
    destruct (H r (proj1 Hr) (proj2 Hr) Hrole) as (f & Hf & Hd & Heq).
    apply length_zero_false. exists f. apply filter_In. split.
    + apply In_getFieldsByPackage. tauto.
    + now apply String.eqb_eq.
Qed.

(** X11.  [POST /:id/distribute] succeeds exactly on a draft that has at least
    one recipient and a field for each of its signers. *)
Theorem distribute_succeeds_iff {E : Env} (s : Store) (now : timestamp) (id : string) :
  status (fst (DocumentRoutes.post_distribute s now id)) = 200
  <-> exists pkg,
        Db.getPackageById s id = Some pkg
        /\ pkg_status pkg = st_draft
        /\ (exists r, In r (recipients s) /\ rcp_package_id r = id)
        /\ (forall r, In r (recipients s) -> rcp_package_id r = id -> rcp_role r = signer ->
              exists f, In f (signature_fields s) /\ fld_package_id f = id
                        /\ fld_recipient_id f = rcp_id r).
Proof.
  unfold DocumentRoutes.post_distribute, DocumentService.getDocument,
    Db.getPackageWithRecipients.
  destruct (Db.getPackageById s id) as [pkg|].
  2:{ cbn. split; [discriminate|]. intros (p & Hp & _). discriminate. }
  destruct (DocumentStatus_eqb (pkg_status pkg) st_draft) eqn:Hst; cbn [negb].
  2:{ cbn. split; [discriminate|]. intros (p & Hp & Hd & _).
      injection Hp as <-. apply DocumentStatus_eqb_eq in Hd. congruence. }
  apply DocumentStatus_eqb_eq in Hst.
  destruct (List.length (Db.getRecipientsByPackage s id) =? 0)%nat eqn:Hlen.
  { cbn. split; [discriminate|]. intros (p & _ & _ & [r Hr] & _).
    apply In_getRecipientsByPackage in Hr.
    assert (Hf : (List.length (Db.getRecipientsByPackage s id) =? 0)%nat = false)
      by (apply length_zero_false; now exists r).
    congruence. }
  apply length_zero_false in Hlen. destruct Hlen as [r0 Hr0].
  apply In_getRecipientsByPackage in Hr0.
  destruct (DocumentRoutes.signerWithoutFields _ _) as [r|] eqn:Hsw.
  { cbn. split; [discriminate|]. intros (p & _ & _ & _ & Hall).
    apply signerWithoutFields_none in Hall. congruence. }
  destruct (DocumentService.distributeDocument s now id) as [u s1]. cbn.
  split; [|reflexivity]. intros _. exists pkg.
  split; [reflexivity|]. split; [exact Hst|]. split; [now exists r0|].
  now apply signerWithoutFields_none.
Qed.

Lemma linksFrom_targets {E : Env} (l : list Recipient) :
  forall i, map snd (DocumentRoutes.linksFrom i l)
            = map (fun r => frontendUrl config +++ "/sign/" +++ rcp_token r) l.
Proof.
  induction l as [|r l IH]; intros i; simpl; [reflexivity|]. now rewrite IH.
Qed.

Lemma getPackageById_set_status (s : Store) (now : timestamp) (d : string)
    (st : DocumentStatus) (p : SignaturePackage) :
  Db.getPackageById s d = Some p ->
  exists p',
    fst (Db.updatePackageStatus s now d st) = Some p'
    /\ Db.getPackageById (snd (Db.updatePackageStatus s now d st)) d = Some p'
    /\ pkg_id p' = pkg_id p /\ pkg_title p' = pkg_title p
    /\ pkg_owner_wallet_address p' = pkg_owner_wallet_address p
    /\ pkg_document_data p' = pkg_document_data p
    /\ pkg_status p' = st
    /\ pkg_completed_at p' = (if DocumentStatus_eqb st st_completed then Some now else None).
Proof.
  intros Hp. pose proof (getPackageById_updatePackageStatus s now d st) as H.
  rewrite Hp in H. cbn [option_map] in H.
  eexists. split; [exact H|]. split; [exact H|]. repeat split.
Qed.

(** X12.  A successful distribution sets the document to pending, leaves the
    recipient, field and signature tables alone, adds one
    [document_distributed] audit entry, and answers with one signing link
    for each recipient of the document, in their signing order, that ends
    in the access token of that recipient. *)
Theorem distribute_opens_document {E : Env} (s : Store) (now : timestamp) (id : string) :
  status (fst (DocumentRoutes.post_distribute s now id)) = 200 ->
  let out := DocumentRoutes.post_distribute s now id in
  status_of (snd out) id = Some st_pending
  /\ same_rows s (snd out)
  /\ (exists entry, audit_logs (snd out) = audit_logs s ++ [entry]
                    /\ log_event_type entry = document_distributed
                    /\ log_package_id entry = Some id)
  /\ exists updated links,
       fst out = json 200 (BDistributed (Some updated) links
                             "Document distributed successfully")
       /\ pkg_status updated = st_pending
       /\ pkg_completed_at updated = None
       /\ map snd links
          = map (fun r => frontendUrl config +++ "/sign/" +++ rcp_token r)
              (Db.getRecipientsByPackage s id).
Proof.
  unfold DocumentRoutes.post_distribute, DocumentService.getDocument,
    Db.getPackageWithRecipients.
  destruct (Db.getPackageById s id) as [pkg|] eqn:Hpkg; [|cbn; discriminate].
  destruct (negb (DocumentStatus_eqb (pkg_status pkg) st_draft)); [cbn; discriminate|].
  destruct (List.length (Db.getRecipientsByPackage s id) =? 0)%nat; [cbn; discriminate|].
  destruct (DocumentRoutes.signerWithoutFields _ _); [cbn; discriminate|].
  intros _.
  destruct (getPackageById_set_status s now id st_pending pkg Hpkg)
    as (p' & Hfst & Hget & _ & _ & _ & _ & Hst & Hat).
  unfold DocumentService.distributeDocument.
  destruct (Db.updatePackageStatus s now id st_pending) as [u s1] eqn:Hupd.
  cbn [fst snd] in Hfst, Hget. subst u.
  assert (Hrows : same_rows s s1).
  { unfold Db.updatePackageStatus in Hupd. injection Hupd as _ <-. repeat split. }
  assert (Hlogs : audit_logs s1 = audit_logs s).
  { unfold Db.updatePackageStatus in Hupd. injection Hupd as _ <-. reflexivity. }
  cbn [Db.createAuditLog Db.fresh fst snd].
  split; [|split; [|split]].
  - unfold status_of, Db.getPackageById in *. cbn [signature_packages Db.set_audit_logs].
    rewrite Hget. cbn. now rewrite Hst.
  - exact Hrows.
  - eexists. cbn [audit_logs Db.set_audit_logs]. rewrite Hlogs.
    split; [reflexivity|]. split; reflexivity.
  - exists p', (DocumentRoutes.linksFrom 0 (Db.getRecipientsByPackage s id)).
    split; [reflexivity|]. split; [exact Hst|]. split; [exact Hat|].
    apply linksFrom_targets.
Qed.

Lemma distribute_succeeds_iff_witness :
  status (fst (DocumentRoutes.post_distribute (E := Sample.env_ok)
                 Sample.draft_ready 30%Z "doc1")) = 200
  /\ exists pkg,
       Db.getPackageById Sample.draft_ready "doc1" = Some pkg
       /\ pkg_status pkg = st_draft
       /\ (exists r, In r (recipients Sample.draft_ready) /\ rcp_package_id r = "doc1")
       /\ (forall r, In r (recipients Sample.draft_ready) -> rcp_package_id r = "doc1" ->
             rcp_role r = signer ->
             exists f, In f (signature_fields Sample.draft_ready)
                       /\ fld_package_id f = "doc1" /\ fld_recipient_id f = rcp_id r).
Proof.
  exact (conj eq_refl
           (proj1 (distribute_succeeds_iff (E := Sample.env_ok)
                     Sample.draft_ready 30%Z "doc1") eq_refl)).
Defined.

Lemma distribute_opens_document_witness :
  status (fst (DocumentRoutes.post_distribute (E := Sample.env_ok)
                 Sample.draft_ready 30%Z "doc1")) = 200
  /\ status_of (snd (DocumentRoutes.post_distribute (E := Sample.env_ok)
                       Sample.draft_ready 30%Z "doc1")) "doc1" = Some st_pending.
Proof.
  exact (conj eq_refl
           (proj1 (distribute_opens_document (E := Sample.env_ok)
                     Sample.draft_ready 30%Z "doc1" eq_refl))).
Defined.

Lemma same_wallet_true (owner : string) (w : option string) :
  DocumentRoutes.same_wallet owner w = true <-> w = Some owner.
Proof.
  unfold DocumentRoutes.same_wallet. destruct w as [x|]; [|split; discriminate].
  rewrite String.eqb_eq. split; congruence.
Qed.

(** X13.  [POST /:id/cancel] succeeds exactly when the document exists, the
    caller names the wallet that owns it, and the document is pending;
    every other call leaves the database as it was. *)
Theorem cancel_succeeds_iff {E : Env} (s : Store) (now : timestamp) (id : string)
    (walletAddress : option string) :
  (status (fst (DocumentRoutes.post_cancel s now id walletAddress)) = 200
   <-> exists pkg,
         Db.getPackageById s id = Some pkg
         /\ walletAddress = Some (pkg_owner_wallet_address pkg)
         /\ pkg_status pkg = st_pending)
  /\ (status (fst (DocumentRoutes.post_cancel s now id walletAddress)) <> 200 ->
      snd (DocumentRoutes.post_cancel s now id walletAddress) = s).
Proof.
  unfold DocumentRoutes.post_cancel, DocumentService.getDocument,
    Db.getPackageWithRecipients.
  destruct (Db.getPackageById s id) as [pkg|].
  2:{ cbn. split; [|reflexivity]. split; [discriminate|]. intros (p & Hp & _). discriminate. }
  destruct (DocumentRoutes.same_wallet (pkg_owner_wallet_address pkg) walletAddress) eqn:Hw;
    cbn [negb].
  2:{ cbn. split; [|reflexivity]. split; [discriminate|]. intros (p & Hp & Hown & _).
      injection Hp as <-. apply same_wallet_true in Hown. congruence. }
  apply same_wallet_true in Hw.
  destruct (DocumentStatus_eqb (pkg_status pkg) st_pending) eqn:Hst; cbn [negb].
  2:{ cbn. split; [|reflexivity]. split; [discriminate|]. intros (p & Hp & _ & Hd).
      injection Hp as <-. apply DocumentStatus_eqb_eq in Hd. congruence. }
  apply DocumentStatus_eqb_eq in Hst.
  destruct (DocumentService.cancelDocument s now id) as [u s1]. cbn.
  split; [|congruence]. split; [|reflexivity]. intros _. now exists pkg.
Qed.

Lemma cancel_succeeds_iff_witness :
  status (fst (DocumentRoutes.post_cancel (E := Sample.env_ok) Sample.pending_unsigned
                 30%Z "doc1" (Some "0xowner"))) = 200
  /\ exists pkg,
       Db.getPackageById Sample.pending_unsigned "doc1" = Some pkg
       /\ Some "0xowner" = Some (pkg_owner_wallet_address pkg)
       /\ pkg_status pkg = st_pending.
Proof.
  exact (conj eq_refl
           (proj1 (proj1 (cancel_succeeds_iff (E := Sample.env_ok) Sample.pending_unsigned
                            30%Z "doc1" (Some "0xowner"))) eq_refl)).
Defined.

(** X14.  A successful cancellation marks the document cancelled with no
    completion time, touches no recipient, field or signature, and closes
    the signing session of every recipient of the document: their tokens
    are answered with the cancellation error from then on. *)
Theorem cancel_closes_sessions {E : Env} (s : Store) (now : timestamp) (id : string)
    (walletAddress : option string) :
  status (fst (DocumentRoutes.post_cancel s now id walletAddress)) = 200 ->
  let s' := snd (DocumentRoutes.post_cancel s now id walletAddress) in
  (exists p, Db.getPackageById s' id = Some p
             /\ pkg_status p = st_cancelled /\ pkg_completed_at p = None)
  /\ same_rows s s'
  /\ forall now' req token wallet r,
       Db.getRecipientByToken s token = Some r -> rcp_package_id r = id ->
       SigningRoutes.get_session s' now' req token wallet
       = (json 400 (BError "This document has been cancelled"), s').
Proof.
  unfold DocumentRoutes.post_cancel, DocumentService.getDocument,
    Db.getPackageWithRecipients.
  destruct (Db.getPackageById s id) as [pkg|] eqn:Hpkg; [|cbn; discriminate].
  destruct (negb (DocumentRoutes.same_wallet _ _)); [cbn; discriminate|].
  destruct (negb (DocumentStatus_eqb (pkg_status pkg) st_pending)); [cbn; discriminate|].
  intros _.
  destruct (getPackageById_set_status s now id st_cancelled pkg Hpkg)
    as (p' & Hfst & Hget & _ & _ & _ & _ & Hst & Hat).
  unfold DocumentService.cancelDocument.
  destruct (Db.updatePackageStatus s now id st_cancelled) as [u s1] eqn:Hupd.
  cbn [fst snd] in Hfst, Hget. subst u.
  assert (Hrows : same_rows s s1).
  { unfold Db.updatePackageStatus in Hupd. injection Hupd as _ <-. repeat split. }
  cbn [Db.createAuditLog Db.fresh fst snd].
  set (s' := Db.set_audit_logs _ _).
  assert (Hget' : Db.getPackageById s' id = Some p') by exact Hget.
  assert (Hrows' : same_rows s s') by exact Hrows.
  split; [|split].
  - exists p'. split; [exact Hget'|]. split; [exact Hst | exact Hat].
  - exact Hrows'.
  - intros now' req token wallet r Hr Hid.
    unfold SigningRoutes.get_session, DocumentService.getDocument,
      Db.getPackageWithRecipients.
    assert (Hr' : Db.getRecipientByToken s' token = Some r).
    { unfold Db.getRecipientByToken in *. destruct Hrows' as (-> & _). exact Hr. }
    rewrite Hr', Hid, Hget', Hst. reflexivity.
Qed.

Lemma cancel_closes_sessions_witness :
  status (fst (DocumentRoutes.post_cancel (E := Sample.env_ok) Sample.pending_unsigned
                 30%Z "doc1" (Some "0xowner"))) = 200
  /\ status (fst (SigningRoutes.get_session (E := Sample.env_ok)
                    (snd (DocumentRoutes.post_cancel (E := Sample.env_ok)
                            Sample.pending_unsigned 30%Z "doc1" (Some "0xowner")))
                    31%Z Sample.plain_request "tok1" None)) = 400.
Proof.
  pose proof (proj2 (proj2 (cancel_closes_sessions (E := Sample.env_ok)
                              Sample.pending_unsigned 30%Z "doc1" (Some "0xowner") eq_refl))
                31%Z Sample.plain_request "tok1" None _ eq_refl eq_refl) as H.
  exact (conj eq_refl (f_equal (fun o => status (fst o)) H)).
Defined.

Lemma deleteDocument_packages (s : Store) (d : string) :
  signature_packages (DocumentService.deleteDocument s d)
  = filter (fun k => negb (String.eqb (pkg_id k) d)) (signature_packages s).
Proof. reflexivity. Qed.

Lemma getPackageById_deleteDocument (s : Store) (d d' : string) :
  Db.getPackageById (DocumentService.deleteDocument s d) d'
  = if String.eqb d' d then None else Db.getPackageById s d'.
Proof.
  unfold Db.getPackageById. rewrite deleteDocument_packages.
  induction (signature_packages s) as [|k l IH]; simpl.
  - now destruct (String.eqb d' d).
  - destruct (String.eqb_spec (pkg_id k) d) as [Hk|Hk]; simpl.
    + rewrite IH. destruct (String.eqb_spec d' d) as [Hd|Hd]; [reflexivity|].
      destruct (String.eqb_spec (pkg_id k) d'); [congruence | reflexivity].
    + destruct (String.eqb_spec (pkg_id k) d') as [Hk'|Hk']; simpl.
      * destruct (String.eqb_spec d' d); [congruence | reflexivity].
      * exact IH.
Qed.

Lemma delete_document_cases (s : Store) (id : string) (walletAddress : option string) :
  ((exists pkg,
       Db.getPackageById s id = Some pkg
       /\ walletAddress = Some (pkg_owner_wallet_address pkg)
       /\ (pkg_status pkg = st_draft \/ pkg_status pkg = st_cancelled))
   /\ DocumentRoutes.delete_document s id walletAddress
      = (json 200 (BMessage "Document deleted successfully"),
         DocumentService.deleteDocument s id))
  \/ (~ (exists pkg,
           Db.getPackageById s id = Some pkg
           /\ walletAddress = Some (pkg_owner_wallet_address pkg)
           /\ (pkg_status pkg = st_draft \/ pkg_status pkg = st_cancelled))
      /\ status (fst (DocumentRoutes.delete_document s id walletAddress)) <> 200
      /\ snd (DocumentRoutes.delete_document s id walletAddress) = s).
Proof.
  unfold DocumentRoutes.delete_document, DocumentService.getDocument,
    Db.getPackageWithRecipients.
  destruct (Db.getPackageById s id) as [pkg|].
  2:{ right. cbn. split; [|split; [discriminate | reflexivity]].
      intros (p & Hp & _). discriminate. }
  destruct (DocumentRoutes.same_wallet (pkg_owner_wallet_address pkg) walletAddress) eqn:Hw;
    cbn [negb].
  2:{ right. cbn. split; [|split; [discriminate | reflexivity]].
      intros (p & Hp & Hown & _).
      injection Hp as <-. apply same_wallet_true in Hown. congruence. }
  apply same_wallet_true in Hw.
  destruct (DocumentStatus_eqb (pkg_status pkg) st_draft) eqn:Hd;
    destruct (DocumentStatus_eqb (pkg_status pkg) st_cancelled) eqn:Hc;
    cbn [negb andb].
  4:{ right. cbn. split; [|split; [discriminate | reflexivity]].
      intros (p & Hp & _ & [H|H]); injection Hp as <-;
        apply DocumentStatus_eqb_eq in H; congruence. }
  all: left; split; [|reflexivity]; exists pkg;
    split; [reflexivity|]; split; [exact Hw|];
    first [ left; now apply DocumentStatus_eqb_eq | right; now apply DocumentStatus_eqb_eq ].
Qed.

(** X15.  [DELETE /:id] deletes exactly when the document exists, the caller
    names the wallet that owns it, and the document is a draft or
    cancelled: a pending or completed document is never deleted through
    the route.  Every other call leaves the database as it was, and after
    a deletion the document is not found any more. *)
Theorem delete_only_draft_or_cancelled (s : Store) (id : string)
    (walletAddress : option string) :
  (status (fst (DocumentRoutes.delete_document s id walletAddress)) = 200
   <-> exists pkg,
         Db.getPackageById s id = Some pkg
         /\ walletAddress = Some (pkg_owner_wallet_address pkg)
         /\ (pkg_status pkg = st_draft \/ pkg_status pkg = st_cancelled))
  /\ (status (fst (DocumentRoutes.delete_document s id walletAddress)) <> 200 ->
      snd (DocumentRoutes.delete_document s id walletAddress) = s)
  /\ (status (fst (DocumentRoutes.delete_document s id walletAddress)) = 200 ->
      forall w,
        DocumentRoutes.delete_document
          (snd (DocumentRoutes.delete_document s id walletAddress)) id w
        = (json 404 (BError "Document not found"),
           snd (DocumentRoutes.delete_document s id walletAddress))).
Proof.
  destruct (delete_document_cases s id walletAddress) as [[Hex Heq]|(Hno & Hst & Hs)].
  - rewrite Heq. cbn [fst snd status json]. split; [tauto|]. split; [congruence|].
    intros _ w. unfold DocumentRoutes.delete_document, DocumentService.getDocument,
      Db.getPackageWithRecipients.
    rewrite getPackageById_deleteDocument, String.eqb_refl. reflexivity.
  - split; [split; [congruence | tauto]|]. split; [intros _; exact Hs | congruence].
Qed.

Lemma delete_only_draft_or_cancelled_witness :
  status (fst (DocumentRoutes.delete_document Sample.pending_unsigned "doc1"
                 (Some "0xowner"))) <> 200
  /\ snd (DocumentRoutes.delete_document Sample.pending_unsigned "doc1" (Some "0xowner"))
     = Sample.pending_unsigned.
Proof.
  assert (H : status (fst (DocumentRoutes.delete_document Sample.pending_unsigned "doc1"
                             (Some "0xowner"))) <> 200)
    by (cbn; discriminate).
  exact (conj H
           (proj1 (proj2 (delete_only_draft_or_cancelled Sample.pending_unsigned "doc1"
                            (Some "0xowner"))) H)).
Defined.

(** ** What a deletion reaches *)

Lemma existsb_eqb_In (x : string) (l : list string) :
  existsb (String.eqb x) l = true <-> In x l.
Proof. exact (mem_In x l). Qed.

Lemma existsb_eqb_not_In (x : string) (l : list string) :
  existsb (String.eqb x) l = false <-> ~ In x l.
Proof.
  rewrite <- existsb_eqb_In. destruct (existsb (String.eqb x) l); split; congruence.
Qed.

Lemma filter_filter_keep {A} (p q : A -> bool) (l : list A) :
  (forall x, In x l -> p x = true -> q x = true) -> filter p (filter q l) = filter p l.
Proof.
  induction l as [|a l IH]; intros H; simpl; [reflexivity|].
  destruct (q a) eqn:Hq; simpl.
  - rewrite IH by (intros x Hx; apply H; now right). reflexivity.
  - rewrite IH by (intros x Hx; apply H; now right).
    destruct (p a) eqn:Hp; [|reflexivity].
    rewrite (H a) in Hq by (assumption || now left). discriminate.
Qed.

(** The identifiers matched by [WHERE id = d] are all [d]. *)
Lemma deleted_ids (d x : string) (l : list SignaturePackage) :
  In x (map pkg_id (filter (fun k => String.eqb (pkg_id k) d) l)) -> x = d.
Proof.
  intros H. apply in_map_iff in H. destruct H as [k [<- Hk]].
  apply filter_In in Hk. now apply String.eqb_eq.
Qed.

Lemma In_recipients_deleteDocument (s : Store) (d : string) (r : Recipient) :
  In r (recipients (DocumentService.deleteDocument s d))
  <-> In r (recipients s) /\ rcp_package_id r <> d.
Proof.
  unfold DocumentService.deleteDocument, DocumentService.run_statements. cbn.
  rewrite !filter_In, !negb_true_iff, existsb_eqb_not_In, String.eqb_neq.
  split; [tauto|]. intros [Hin Hd]. split; [tauto|].
  intros Hx. apply deleted_ids in Hx. contradiction.
Qed.

Lemma In_fields_deleteDocument (s : Store) (d : string) (f : SignatureField) :
  In f (signature_fields (DocumentService.deleteDocument s d))
  <-> In f (signature_fields s) /\ fld_package_id f <> d
      /\ ~ (exists r, In r (recipients s) /\ rcp_package_id r = d
                      /\ rcp_id r = fld_recipient_id f).
Proof.
  unfold DocumentService.deleteDocument, DocumentService.run_statements. cbn.
  rewrite !filter_In, !negb_true_iff, !existsb_eqb_not_In, String.eqb_neq.
  assert (Hown : In (fld_recipient_id f)
                   (map rcp_id (filter (fun r => String.eqb (rcp_package_id r) d)
                                  (recipients s)))
                 <-> exists r, In r (recipients s) /\ rcp_package_id r = d
                               /\ rcp_id r = fld_recipient_id f).
  { rewrite in_map_iff. split.
    - intros [r [Hid Hr]]. apply filter_In in Hr. destruct Hr as [Hr Hd].
      apply String.eqb_eq in Hd. exists r. tauto.
    - intros (r & Hr & Hd & Hid). exists r. split; [exact Hid|].
      apply filter_In. split; [exact Hr|]. now apply String.eqb_eq. }
  rewrite Hown. split; [tauto|]. intros (Hin & Hd & Hno).
  repeat split; try assumption.
  - intros Hx. apply in_map_iff in Hx. destruct Hx as [r [_ Hr]].
    apply filter_In in Hr. destruct Hr as [Hr Hm].
    apply filter_In in Hr. destruct Hr as [_ Hneq].
    apply existsb_eqb_In, deleted_ids in Hm.
    apply negb_true_iff, String.eqb_neq in Hneq. contradiction.
  - intros Hx. apply deleted_ids in Hx. contradiction.
Qed.

(** X16.  What [deleteDocument] removes from the package, recipient and field
    tables: the package rows with the identifier, the recipients of the
    document, the fields of the document - and every field of another
    document that is assigned to a recipient of the deleted one, which
    the cascade on the recipient reference takes along.  Every other row
    of the three tables is kept. *)
Theorem deleteDocument_reach (s : Store) (d : string) :
  let s' := DocumentService.deleteDocument s d in
  (forall k, In k (signature_packages s') <-> In k (signature_packages s) /\ pkg_id k <> d)
  /\ (forall r, In r (recipients s') <-> In r (recipients s) /\ rcp_package_id r <> d)
  /\ (forall f, In f (signature_fields s')
                <-> In f (signature_fields s) /\ fld_package_id f <> d
                    /\ ~ (exists r, In r (recipients s) /\ rcp_package_id r = d
                                    /\ rcp_id r = fld_recipient_id f)).
Proof.
  cbv zeta. split; [|split].
  - intros k. rewrite deleteDocument_packages, filter_In, negb_true_iff, String.eqb_neq.
    tauto.
  - apply In_recipients_deleteDocument.
  - apply In_fields_deleteDocument.
Qed.

(** X17.  Deleting a document leaves every other document as it was - its
    package row, its recipients and its fields, in the order the queries
    return them - provided none of the other document's fields is
    assigned to a recipient of the deleted document. *)
Theorem deleteDocument_spares_other_documents (s : Store) (d d' : string) :
  d' <> d ->
  (forall f r, In f (signature_fields s) -> fld_package_id f = d' ->
               In r (recipients s) -> rcp_id r = fld_recipient_id f ->
               rcp_package_id r <> d) ->
  DocumentService.getDocument (DocumentService.deleteDocument s d) d'
  = DocumentService.getDocument s d'.
Proof.
  intros Hd Hwf.
  unfold DocumentService.getDocument, Db.getPackageWithRecipients.
  rewrite getPackageById_deleteDocument.
  destruct (String.eqb_spec d' d) as [|_]; [contradiction|].
  assert (Hr : Db.getRecipientsByPackage (DocumentService.deleteDocument s d) d'
               = Db.getRecipientsByPackage s d').
  { unfold Db.getRecipientsByPackage. f_equal.
    unfold DocumentService.deleteDocument, DocumentService.run_statements. cbn.
    rewrite !filter_filter_keep; [reflexivity| |].
    - intros r _ Hp. apply String.eqb_eq in Hp.
      apply negb_true_iff, String.eqb_neq. congruence.
    - intros r Hin Hp. apply String.eqb_eq in Hp.
      apply negb_true_iff, existsb_eqb_not_In. intros Hx.
      apply deleted_ids in Hx. congruence. }
  assert (Hf : Db.getFieldsByPackage (DocumentService.deleteDocument s d) d'
               = Db.getFieldsByPackage s d').
  { unfold Db.getFieldsByPackage. f_equal.
    assert (Hkeep : forall f, In f (signature_fields s) ->
                      String.eqb (fld_package_id f) d' = true ->
                      In f (signature_fields (DocumentService.deleteDocument s d))).
    { intros f Hin Hp. apply String.eqb_eq in Hp. apply In_fields_deleteDocument.
      split; [exact Hin|]. split; [congruence|].
      intros (r & Hr' & Hrd & Hid). exact (Hwf f r Hin Hp Hr' Hid Hrd). }
    revert Hkeep.
    unfold DocumentService.deleteDocument, DocumentService.run_statements. cbn.
    intros Hkeep.
    rewrite !filter_filter_keep; [reflexivity| | | |].
    - intros f _ Hp. apply String.eqb_eq in Hp.
      apply negb_true_iff, String.eqb_neq. congruence.
    - intros f Hin Hp. apply filter_In in Hin. destruct Hin as [Hin _].
      specialize (Hkeep f Hin Hp).
      apply filter_In in Hkeep. destruct Hkeep as [Hkeep _].
      apply filter_In in Hkeep. destruct Hkeep as [Hkeep _].
      apply filter_In in Hkeep. tauto.
    - intros f Hin Hp. apply filter_In in Hin. destruct Hin as [Hin _].
      apply filter_In in Hin. destruct Hin as [Hin _].
      specialize (Hkeep f Hin Hp).
      apply filter_In in Hkeep. destruct Hkeep as [Hkeep _].
      apply filter_In in Hkeep. tauto.
    - intros f Hin Hp. apply filter_In in Hin. destruct Hin as [Hin _].
      apply filter_In in Hin. destruct Hin as [Hin _].
      apply filter_In in Hin. destruct Hin as [Hin _].
      specialize (Hkeep f Hin Hp).
      apply filter_In in Hkeep. tauto. }
  rewrite Hr, Hf. reflexivity.
Qed.

Lemma deleteDocument_spares_other_documents_witness :
  DocumentService.getDocument (DocumentService.deleteDocument Sample.two_documents "doc1")
    "doc2"
  = DocumentService.getDocument Sample.two_documents "doc2".
Proof.
  apply (deleteDocument_spares_other_documents Sample.two_documents "doc1" "doc2").
  - discriminate.
  - intros f r [<-|[<-|[]]] Hf; try discriminate Hf.
    intros [<-|[<-|[]]] Hid; try discriminate Hid. discriminate.
Defined.

(** ** Creating a document *)

Lemma createRecipients_tables {E : Env} (inputs : list RecipientInput) :
  forall (s : Store) (now : timestamp) (d : string) (i : nat),
    let out := DocumentService.createRecipients s now d i inputs in
    signature_fields (snd out) = signature_fields s
    /\ signatures (snd out) = signatures s
    /\ audit_logs (snd out) = audit_logs s
    /\ recipients (snd out) = recipients s ++ map snd (fst out)
    /\ map rcp_name (map snd (fst out)) = map in_name inputs
    /\ map rcp_role (map snd (fst out)) = map role_or_signer inputs
    /\ Forall (fresh_recipient d) (map snd (fst out)).
Proof.
  induction inputs as [|input rest IH]; intros s now d i.
  - cbn. rewrite app_nil_r. repeat split. constructor.
  - simpl.
    match goal with
    | |- context [DocumentService.createRecipients ?s1 now d (S i) rest] =>
        specialize (IH s1 now d (S i));
        destruct (DocumentService.createRecipients s1 now d (S i) rest) as [more s2]
    end.
    cbn [fst snd] in *. cbn [signature_fields signatures audit_logs recipients
                               Db.set_recipients Db.fresh fst snd] in IH.
    destruct IH as (H1 & H2 & H3 & H4 & H5 & H6 & H7).
    cbn [map fst snd]. rewrite H4, <- app_assoc. cbn [app].
    repeat split; try assumption.
    + cbn. now rewrite H5.
    + cbn. now rewrite H6.
    + constructor; [|exact H7]. repeat split.
Qed.

Lemma createFieldsFromTags_tables {E : Env} (tags : list SigFieldTag) :
  forall (s : Store) (d : string) (m : list (nat * string)) (i : nat),
    let s' := DocumentService.createFieldsFromTags s d m i tags in
    recipients s' = recipients s /\ signatures s' = signatures s
    /\ audit_logs s' = audit_logs s.
Proof.
  induction tags as [|t rest IH]; intros s d m i; [repeat split|].
  cbn [DocumentService.createFieldsFromTags].
  destruct (negb (Js.truthy (DocumentService.recipientMap_get m (tag_recipient t)))).
  - apply IH.
  - simpl.
    match goal with
    | |- context [DocumentService.createFieldsFromTags ?s1 d m (S i) rest] =>
        destruct (IH s1 d m (S i)) as (H1 & H2 & H3)
    end.
    cbv zeta. rewrite H1, H2, H3. repeat split.
Qed.

Lemma linksOf_targets {E : Env} (created : list (nat * Recipient)) :
  map snd
    (map (fun e => ("recipient_" +++ DocumentService.nat_text (fst e),
                    frontendUrl config +++ "/sign/" +++ rcp_token (snd e)))
       created)
  = map (fun r => frontendUrl config +++ "/sign/" +++ rcp_token r) (map snd created).
Proof. rewrite !map_map. reflexivity. Qed.

(** What [createDocument] writes when the payment names a payer. *)
Lemma createDocument_tables {E : Env} (s : Store) (now : timestamp)
    (request : CreateDocumentRequest) (paymentInfo : PaymentInfo) (owner : string) :
  payer paymentInfo = Some owner ->
  let out := DocumentService.createDocument s now request paymentInfo in
  exists row created entry result,
    fst out = Some result
    /\ signature_packages (snd out) = signature_packages s ++ [row]
    /\ pkg_status row = st_draft /\ pkg_completed_at row = None
    /\ pkg_owner_wallet_address row = owner
    /\ pkg_payment_tx_hash row = transactionHash paymentInfo
    /\ recipients (snd out) = recipients s ++ created
    /\ map rcp_name created
       = map in_name (match req_recipients request with Some l => l | None => [] end)
    /\ map rcp_role created
       = map role_or_signer (match req_recipients request with Some l => l | None => [] end)
    /\ Forall (fresh_recipient (pkg_id row)) created
    /\ signatures (snd out) = signatures s
    /\ audit_logs (snd out) = audit_logs s ++ [entry]
    /\ log_event_type entry = document_created
    /\ log_package_id entry = Some (pkg_id row)
    /\ documentId result = pkg_id row /\ cd_status result = st_draft
    /\ map snd (signingLinks result)
       = map (fun r => frontendUrl config +++ "/sign/" +++ rcp_token r) created.
Proof.
  intros Hpayer. unfold DocumentService.createDocument. rewrite Hpayer.
  cbn [Db.createPackage Db.fresh fst snd].
  match goal with
  | |- context [DocumentService.createRecipients ?s1 now ?d 0 ?inputs] =>
      pose proof (createRecipients_tables inputs s1 now d 0) as Hc;
      pose proof (createRecipients_packages inputs s1 now d 0) as Hp;
      destruct (DocumentService.createRecipients s1 now d 0 inputs) as [created s2]
  end.
  cbn [fst snd signature_fields signatures audit_logs recipients signature_packages
         Db.set_packages] in Hc, Hp.
  destruct Hc as (H1 & H2 & H3 & H4 & H5 & H6 & H7).
  match goal with
  | |- context [if ?c then DocumentService.parseAndCreateFieldsFromHtml ?a ?b ?h ?m else _] =>
      pose proof (createFieldsFromTags_tables (parseSigFields h) a b m 0) as Hf;
      pose proof (createFieldsFromTags_packages (parseSigFields h) a b m 0) as Hfp;
      change (DocumentService.createFieldsFromTags a b m 0 (parseSigFields h))
        with (DocumentService.parseAndCreateFieldsFromHtml a b h m) in Hf, Hfp;
      set (s3 := if c then DocumentService.parseAndCreateFieldsFromHtml a b h m else a)
  end.
  assert (Hs3 : recipients s3 = recipients s2 /\ signatures s3 = signatures s2
                /\ audit_logs s3 = audit_logs s2
                /\ signature_packages s3 = signature_packages s2).
  { subst s3.
    destruct (Db.opt_eqb (doc_format request) "html" && Js.truthy (content request));
      [|repeat split].
    destruct Hf as (K1 & K2 & K3). repeat split; assumption. }
  destruct Hs3 as (K1 & K2 & K3 & K4).
  cbn [Db.createAuditLog Db.fresh fst snd].
  do 4 eexists.
  split; [reflexivity|].
  cbn [signature_packages recipients signatures audit_logs Db.set_audit_logs
         documentId cd_status signingLinks].
  rewrite K1, K2, K3, K4, H2, H3, H4, Hp.
  split; [reflexivity|]. split; [reflexivity|]. split; [reflexivity|].
  split; [reflexivity|]. split; [reflexivity|]. split; [reflexivity|].
  split; [exact H5|]. split; [exact H6|]. split; [exact H7|].
  split; [reflexivity|]. split; [reflexivity|]. split; [reflexivity|].
  split; [reflexivity|]. split; [reflexivity|]. split; [reflexivity|].
  apply linksOf_targets.
Qed.





(** X19.  A creation or distribution request that is refused - an answer
    of the 4xx class: no payment proof, a payment the facilitator did not
    verify or settle, a body that fails the validation, a document that
    is unknown, not a draft, without recipients or with a signer without
    fields - writes nothing: the payment gate and every check of the two
    handlers come before their first write. *)
Theorem refused_requests_write_nothing {E : Env} (s : Store) (now : timestamp)
    (req : Request) (request : CreateDocumentRequest) (id : string) :
  (client_error (fst (DocumentRoutes.post_create s now req request)) ->
   snd (DocumentRoutes.post_create s now req request) = s)
  /\ (client_error (fst (DocumentRoutes.post_distribute s now id)) ->
      snd (DocumentRoutes.post_distribute s now id) = s).
Proof.
  unfold client_error. split.
  - unfold DocumentRoutes.post_create.
    destruct (fst (X402.x402PaymentMiddleware req)) as [r|info]; [reflexivity|].
    unfold DocumentRoutes.create_handler.
    destruct (negb (Js.truthy (title request))); [reflexivity|].
    destruct (negb (Js.truthy (doc_format request)) || _); [reflexivity|].
    destruct (Db.opt_eqb (doc_format request) "html" && _); [reflexivity|].
    destruct (Db.opt_eqb (doc_format request) "pdf" && _); [reflexivity|].
    destruct (req_recipients request) as [[|i0 inputs]|]; [reflexivity| |reflexivity].
    destruct (DocumentRoutes.validateRecipients (i0 :: inputs)); [reflexivity|].
    destruct (DocumentService.createDocument s now request info) as [[res|] s1];
      cbn; lia.
  - unfold DocumentRoutes.post_distribute, DocumentService.getDocument,
      Db.getPackageWithRecipients.
    destruct (Db.getPackageById s id) as [pkg|]; [|reflexivity].
    destruct (negb (DocumentStatus_eqb (pkg_status pkg) st_draft)); [reflexivity|].
    destruct (List.length (Db.getRecipientsByPackage s id) =? 0)%nat; [reflexivity|].
    destruct (DocumentRoutes.signerWithoutFields _ _); [reflexivity|].
    destruct (DocumentService.distributeDocument s now id) as [u s1]. cbn. lia.
Qed.

Lemma refused_requests_write_nothing_witness :
  client_error (fst (DocumentRoutes.post_create (E := Sample.env_facilitator_down)
                       Sample.pending_unsigned 5%Z Sample.paying_request
                       Sample.nda_request))
  /\ snd (DocumentRoutes.post_create (E := Sample.env_facilitator_down)
            Sample.pending_unsigned 5%Z Sample.paying_request Sample.nda_request)
     = Sample.pending_unsigned.
Proof.
  assert (H : client_error (fst (DocumentRoutes.post_create
                                   (E := Sample.env_facilitator_down)
                                   Sample.pending_unsigned 5%Z Sample.paying_request
                                   Sample.nda_request)))
    by (vm_compute; split; lia).
  exact (conj H
           (proj1 (refused_requests_write_nothing (E := Sample.env_facilitator_down)
                     Sample.pending_unsigned 5%Z Sample.paying_request Sample.nda_request
                     "doc1") H)).
Defined.

(** ** The payment gate *)

(** X20.  The gate lets a request through exactly when its payment header is
    present and decodes, the facilitator answered the verify call with a
    valid verdict and then the settle call with a successful settlement;
    the payment information handed on carries the transaction of the
    settlement, the payer named by the verification or, failing that, by
    the settlement, and the price and network of the configuration.  The
    facilitator is never asked to settle a payment it did not verify: a
    settle call is always preceded by a verify call that the facilitator
    answered valid, and a request without a decodable header causes no
    facilitator call at all. *)
Theorem payment_gate_passes_iff {E : Env} (req : Request) :
  let requirements :=
    {| scheme := "exact";
       network := x402_network config;
       amount := x402_priceAtomic config;
       asset := x402_usdcAssetAddress config;
       payTo := x402_paymentRecipientAddress config;
       maxTimeoutSeconds := 300;
       extra_sponsored := Some true |} in
  (forall info,
      fst (X402.x402PaymentMiddleware req) = X402.Next info
      <-> exists h p v t,
            header_payment_signature req = Some h /\ h <> ""
            /\ decodePaymentSignature h = Some p
            /\ facilitator_verify p requirements = Parsed v /\ isValid v = true
            /\ facilitator_settle p requirements = Parsed t /\ success t = true
            /\ info
               = {| transactionHash := transaction t;
                    payer := Js.or (vr_payer v) (sr_payer t);
                    pi_amount := x402_priceAtomic config;
                    pi_network := x402_network config |})
  /\ (In X402.SettleCall (snd (X402.x402PaymentMiddleware req)) ->
      snd (X402.x402PaymentMiddleware req) = [X402.VerifyCall; X402.SettleCall]
      /\ exists h p v,
           header_payment_signature req = Some h
           /\ decodePaymentSignature h = Some p
           /\ facilitator_verify p requirements = Parsed v /\ isValid v = true)
  /\ ((Js.truthy (header_payment_signature req) = false
       \/ decodePaymentSignature (Js.or_str (header_payment_signature req) "") = None) ->
      snd (X402.x402PaymentMiddleware req) = []).
Proof.
  cbv zeta. unfold X402.x402PaymentMiddleware.
  destruct (Js.truthy (header_payment_signature req)) eqn:Hh; cbn [negb].
  2:{ cbn [fst snd]. split; [|split].
      - intros info. split; [discriminate|].
        intros (h & p & v & t & Hs & Hne & _). rewrite Hs in Hh.
        apply truthy_some in Hne. congruence.
      - intros [].
      - reflexivity. }
  pose proof (or_str_truthy _ "" Hh) as Hsome.
  set (h := Js.or_str (header_payment_signature req) "") in *.
  assert (Hne : h <> "") by (apply truthy_some; now rewrite <- Hsome).
  destruct (decodePaymentSignature h) as [p|] eqn:Hdec.
  2:{ cbn [fst snd]. split; [|split].
      - intros info. split; [discriminate|].
        intros (h' & p & v & t & Hs & _ & Hd & _). congruence.
      - intros [].
      - reflexivity. }
  assert (Hsame : forall h' p', header_payment_signature req = Some h' ->
                                decodePaymentSignature h' = Some p' -> p' = p)
    by (intros h' p' Hs Hd; assert (h' = h) by congruence; subst h'; congruence).
  unfold X402.verifyPayment, X402.settlePayment, X402.buildPaymentRequirements.
  destruct (facilitator_verify p _) as [|text| |v] eqn:Hv; cbn [isValid negb fst snd].
  1,2,3: split;
    [ intros info; split; [discriminate|];
      intros (h' & p' & v' & t' & Hs & _ & Hd & Hv' & _);
      rewrite (Hsame h' p' Hs Hd) in Hv'; congruence
    | split; [ intros [H|[]]; discriminate H
             | intros [H|H]; discriminate H ] ].
  destruct (isValid v) eqn:Hvalid; cbn [negb fst snd].
  2:{ split; [|split].
      - intros info. split; [discriminate|].
        intros (h' & p' & v' & t' & Hs & _ & Hd & Hv' & Hvalid' & _).
        rewrite (Hsame h' p' Hs Hd) in Hv'. congruence.
      - intros [H|[]]. discriminate.
      - intros [H|H]; discriminate. }
  assert (Hverified : exists h0 p0 v0,
             header_payment_signature req = Some h0
             /\ decodePaymentSignature h0 = Some p0
             /\ facilitator_verify p0
                  {| scheme := "exact";
                    network := x402_network config;
                    amount := x402_priceAtomic config;
                    asset := x402_usdcAssetAddress config;
                    payTo := x402_paymentRecipientAddress config;
                    maxTimeoutSeconds := 300;
                    extra_sponsored := Some true |} = Parsed v0
             /\ isValid v0 = true)
    by (exists h, p, v; repeat split; assumption).
  destruct (facilitator_settle p _) as [|text| |t] eqn:Hs; cbn [success negb fst snd].
  1,2,3: split;
    [ intros info; split; [discriminate|];
      intros (h' & p' & v' & t' & Hs' & _ & Hd & _ & _ & Ht' & _);
      rewrite (Hsame h' p' Hs' Hd) in Ht'; congruence
    | split; [ intros _; split; [reflexivity | exact Hverified]
             | intros [H|H]; discriminate H ] ].
  destruct (success t) eqn:Hok; cbn [negb fst snd].
  - split; [|split].
    + intros info. split.
      * intros H. injection H as <-. exists h, p, v, t. repeat split; assumption.
      * intros (h' & p' & v' & t' & Hs' & _ & Hd & Hv' & _ & Ht' & _ & ->).
        rewrite (Hsame h' p' Hs' Hd) in Hv', Ht'.
        assert (v' = v) by congruence. assert (t' = t) by congruence. subst. reflexivity.
    + intros _. split; [reflexivity | exact Hverified].
    + intros [H|H]; discriminate.
  - split; [|split].
    + intros info. split; [discriminate|].
      intros (h' & p' & v' & t' & Hs' & _ & Hd & _ & _ & Ht' & Hok' & _).
      rewrite (Hsame h' p' Hs' Hd) in Ht'. congruence.
    + intros _. split; [reflexivity | exact Hverified].
    + intros [H|H]; discriminate.
Qed.

Lemma payment_gate_passes_iff_witness :
  fst (X402.x402PaymentMiddleware (E := Sample.env_ok) Sample.paying_request)
  = X402.Next {| transactionHash := Some "0xtx"; payer := Some "0xowner";
                 pi_amount := "1000000"; pi_network := "aptos:2" |}.
Proof.
  apply (proj1 (payment_gate_passes_iff (E := Sample.env_ok) Sample.paying_request)).
  exists Sample.payment_header, Sample.payment_payload.
  exists {| isValid := true; vr_payer := Some "0xowner"; invalidReason := None |}.
  exists {| success := true; transaction := Some "0xtx"; sr_payer := Some "0xowner";
            errorReason := None |}.
  repeat split; discriminate.
Defined.

(** ** Verified identities *)

Lemma opt_eqb_true (o : option string) (x : string) : Db.opt_eqb o x = true <-> o = Some x.
Proof.
  unfold Db.opt_eqb. destruct o as [y|]; [|split; discriminate].
  rewrite String.eqb_eq. split; congruence.
Qed.

Lemma truthy_inv (o : option string) :
  Js.truthy o = true <-> exists x, o = Some x /\ x <> "" /\ Js.or_str o "" = x.
Proof.
  split.
  - intros H. pose proof (or_str_truthy o "" H) as Hs.
    exists (Js.or_str o ""). split; [exact Hs|]. split; [|reflexivity].
    apply truthy_some. now rewrite <- Hs.
  - intros (x & -> & Hx & _). now apply truthy_some.
Qed.

Lemma In_collect (now : timestamp) (tokens : list OwnedToken) (v : KYCVerifiedIdentity) :
  In v (Kyc.collect now tokens)
  <-> exists token, In token tokens /\ Kyc.identity_of_token now token = Some v.
Proof.
  induction tokens as [|t rest IH]; simpl.
  - split; [intros [] | intros [token [[] _]]].
  - destruct (Kyc.identity_of_token now t) as [u|] eqn:Ht; simpl; rewrite IH; split.
    + intros [<-|[token [Hin Hv]]]; [exists t | exists token]; tauto.
    + intros [token [[<-|Hin] Hv]]; [left; congruence | right; now exists token].
    + intros [token [Hin Hv]]. exists token. tauto.
    + intros [token [[<-|Hin] Hv]]; [congruence | now exists token].
Qed.

(** X21.  The verified identities of a wallet are exactly the identities read
    from the owned tokens whose properties say [kyc_status = approved]
    and give a non-empty [full_name], provided a collection address is
    configured and the chain query succeeds; otherwise there are none.
    The collection the token belongs to is not looked at. *)
Theorem kyc_names_are_approved_tokens {E : Env} (now : timestamp) (walletAddress : string)
    (v : KYCVerifiedIdentity) :
  In v (Kyc.getKYCVerifiedNames now walletAddress)
  <-> kyc_collectionAddress config <> ""
      /\ exists tokens token data props name,
           getOwnedDigitalAssets walletAddress = Some tokens
           /\ In token tokens
           /\ current_token_data token = Some data
           /\ token_properties data = Some props
           /\ kyc_status props = Some "approved"
           /\ full_name props = Some name /\ name <> ""
           /\ v = {| nftAddress := Js.or_str (token_data_id token) "";
                     fullName := name;
                     country := prop_country props;
                     verificationDate :=
                       match verification_date props with
                       | Some t => if (t =? 0)%Z then now else t
                       | None => now
                       end |}.
Proof.
  unfold Kyc.getKYCVerifiedNames.
  destruct (String.eqb_spec (kyc_collectionAddress config) "") as [Hc|Hc].
  { split; [intros [] | intros [H _]; contradiction]. }
  destruct (getOwnedDigitalAssets walletAddress) as [tokens|].
  2:{ split; [intros [] | intros (_ & t & _ & _ & _ & _ & H & _); discriminate]. }
  rewrite In_collect. split.
  - intros (token & Hin & Hv). split; [exact Hc|].
    unfold Kyc.identity_of_token in Hv.
    destruct (current_token_data token) as [data|] eqn:Hdata; [|discriminate].
    destruct (token_properties data) as [props|] eqn:Hprops; [|discriminate].
    destruct (Db.opt_eqb (kyc_status props) "approved") eqn:Hst; [|discriminate].
    destruct (Js.truthy (full_name props)) eqn:Hname; [|discriminate].
    cbn [negb] in Hv. injection Hv as <-.
    apply opt_eqb_true in Hst. apply truthy_inv in Hname.
    destruct Hname as (name & Hfull & Hne & Hor).
    exists tokens, token, data, props, name. rewrite Hor. repeat split; assumption.
  - intros (_ & tokens' & token & data & props & name & Ht & Hin & Hdata & Hprops
            & Hst & Hfull & Hne & ->).
    injection Ht as <-. exists token. split; [exact Hin|].
    unfold Kyc.identity_of_token. rewrite Hdata, Hprops.
    apply opt_eqb_true in Hst. rewrite Hst. cbn [negb].
    assert (Hname : Js.truthy (full_name props) = true)
      by (rewrite Hfull; now apply truthy_some).
    rewrite Hname. cbn [negb].
    destruct (proj1 (truthy_inv _) Hname) as (x & Hx & _ & Hor).
    rewrite Hor. congruence.
Qed.

Lemma find_pred_ext {A} (p q : A -> bool) (l : list A) :
  (forall x, p x = q x) -> find p l = find q l.
Proof.
  intros H. induction l as [|a l IH]; simpl; [reflexivity|]. now rewrite H, IH.
Qed.

Lemma same_name_iff {E : Env} (v : KYCVerifiedIdentity) (name : string) :
  Kyc.same_name v name = true <-> toLowerCase (fullName v) = toLowerCase name.
Proof. unfold Kyc.same_name. apply String.eqb_eq. Qed.

(** X22.  A name passes the identity check exactly when some verified identity
    of the wallet carries it - the two names being compared after
    [toLowerCase] on both sides - and comes from the credential named in
    the request, when one is named.  The answer then reports that
    identity, and two spellings of a name that [toLowerCase] maps to the
    same text are treated alike. *)
Theorem kyc_name_check {E : Env} (now : timestamp) (walletAddress name : string)
    (nft : option string) :
  let names := Kyc.getKYCVerifiedNames now walletAddress in
  let out := Kyc.verifyKYCName now walletAddress name nft in
  (Kyc.verified out = true
   <-> exists v, In v names
                 /\ toLowerCase (fullName v) = toLowerCase name
                 /\ (Js.truthy nft = true -> nft = Some (nftAddress v)))
  /\ (Kyc.verified out = true ->
      exists m, In m names
                /\ toLowerCase (fullName m) = toLowerCase name
                /\ out = Kyc.matched m)
  /\ (forall name', toLowerCase name' = toLowerCase name ->
        Kyc.verified (Kyc.verifyKYCName now walletAddress name' nft) = Kyc.verified out).
Proof.
  cbv zeta. split; [|split].
  - unfold Kyc.verifyKYCName.
    destruct (Kyc.getKYCVerifiedNames now walletAddress) as [|v0 l].
    { cbn. split; [discriminate | intros [v [[] _]]]. }
    cbn [List.length Nat.eqb].
    destruct (Js.truthy nft) eqn:Hnft.
    + destruct (proj1 (truthy_inv _) Hnft) as (x & -> & Hx & Hor). rewrite Hor.
      destruct (find _ (v0 :: l)) as [m|] eqn:Hfind; cbn [Kyc.verified Kyc.matched Kyc.failed].
      * split; [intros _ | reflexivity].
        apply find_some in Hfind. destruct Hfind as [Hin Hb].
        apply andb_true_iff in Hb. destruct Hb as [Hb1 Hb2].
        apply String.eqb_eq in Hb1. apply same_name_iff in Hb2.
        exists m. split; [exact Hin|]. split; [exact Hb2|]. intros _. congruence.
      * split; [discriminate|]. intros (v & Hin & Hname & Hcred). exfalso.
        pose proof (find_none _ _ Hfind v Hin) as Hb. cbv beta in Hb.
        specialize (Hcred eq_refl). injection Hcred as ->.
        apply same_name_iff in Hname. rewrite String.eqb_refl, Hname in Hb. discriminate.
    + destruct (find _ (v0 :: l)) as [m|] eqn:Hfind; cbn [Kyc.verified Kyc.matched Kyc.failed].
      * split; [intros _ | reflexivity].
        apply find_some in Hfind. destruct Hfind as [Hin Hb]. apply same_name_iff in Hb.
        exists m. split; [exact Hin|]. split; [exact Hb|]. discriminate.
      * split; [discriminate|]. intros (v & Hin & Hname & _). exfalso.
        pose proof (find_none _ _ Hfind v Hin) as Hb. cbv beta in Hb.
        apply same_name_iff in Hname. congruence.
  - unfold Kyc.verifyKYCName.
    destruct (Kyc.getKYCVerifiedNames now walletAddress) as [|v0 l]; [cbn; discriminate|].
    cbn [List.length Nat.eqb].
    destruct (Js.truthy nft).
    + destruct (find _ (v0 :: l)) as [m|] eqn:Hfind; [|cbn; discriminate].
      intros _. apply find_some in Hfind. destruct Hfind as [Hin Hb].
      apply andb_true_iff in Hb. destruct Hb as [_ Hb]. apply same_name_iff in Hb.
      now exists m.
    + destruct (find _ (v0 :: l)) as [m|] eqn:Hfind; [|cbn; discriminate].
      intros _. apply find_some in Hfind. destruct Hfind as [Hin Hb].
      apply same_name_iff in Hb. now exists m.
  - intros name' Hcase. unfold Kyc.verifyKYCName.
    destruct (List.length (Kyc.getKYCVerifiedNames now walletAddress) =? 0)%nat;
      [reflexivity|].
    assert (Hsame : forall v, Kyc.same_name v name' = Kyc.same_name v name)
      by (intros v; unfold Kyc.same_name; now rewrite Hcase).
    destruct (Js.truthy nft).
    + rewrite (find_pred_ext
                 (fun v => String.eqb (nftAddress v) (Js.or_str nft "")
                           && Kyc.same_name v name')
                 (fun v => String.eqb (nftAddress v) (Js.or_str nft "")
                           && Kyc.same_name v name))
        by (intros v; now rewrite Hsame).
      destruct (find _ _); reflexivity.
    + rewrite (find_pred_ext (fun v => Kyc.same_name v name')
                 (fun v => Kyc.same_name v name) _ Hsame).
      destruct (find _ _); reflexivity.
Qed.

Lemma kyc_name_check_witness :
  @toLowerCase Sample.env_ok "ALICE SMITH" = @toLowerCase Sample.env_ok "alice smith"
  /\ Kyc.verified (Kyc.verifyKYCName (E := Sample.env_ok) 30%Z "0xalice" "ALICE SMITH" None)
     = Kyc.verified (Kyc.verifyKYCName (E := Sample.env_ok) 30%Z "0xalice" "alice smith" None).
Proof.
  exact (conj eq_refl
           (proj2 (proj2 (kyc_name_check (E := Sample.env_ok) 30%Z "0xalice" "alice smith"
                            None)) "ALICE SMITH" eq_refl)).
Defined.

(** ** What the operations do to the tables *)

Lemma filter_true {A} (l : list A) : filter (fun _ => true) l = l.
Proof. apply filter_all. reflexivity. Qed.

Lemma filter_filter_and {A} (p q : A -> bool) (l : list A) :
  filter p (filter q l) = filter (fun x => q x && p x) l.
Proof.
  induction l as [|a l IH]; simpl; [reflexivity|].
  destruct (q a); simpl; [destruct (p a)|]; now rewrite IH.
Qed.

Lemma footprint_quiet (s s' : Store) :
  signatures s' = signatures s -> recipients s' = recipients s -> audit_grows s s' ->
  footprint s s'.
Proof.
  intros H1 H2 H3. split; [|split; [|exact H3]].
  - right. exists (fun _ => true). now rewrite filter_true.
  - right. right. exists (fun _ => true). now rewrite filter_true.
Qed.

Lemma footprint_refl (s : Store) : footprint s s.
Proof. apply footprint_quiet; try reflexivity. apply audit_grows_refl. Qed.

Lemma createDocument_footprint {E : Env} (s : Store) (now : timestamp)
    (request : CreateDocumentRequest) (paymentInfo : PaymentInfo) :
  footprint s (snd (DocumentService.createDocument s now request paymentInfo)).
Proof.
  destruct (payer paymentInfo) as [owner|] eqn:Hpayer.
  - destruct (createDocument_tables s now request paymentInfo owner Hpayer)
      as (row & created & entry & result & _ & _ & _ & _ & _ & _ & Hr & _ & _ & Hf & Hs
          & Ha & _).
    split; [|split].
    + right. exists (fun _ => true). now rewrite filter_true.
    + left. now exists (pkg_id row), created.
    + now exists [entry].
  - unfold DocumentService.createDocument. rewrite Hpayer. apply footprint_refl.
Qed.

Lemma post_create_footprint {E : Env} (s : Store) (now : timestamp) (req : Request)
    (request : CreateDocumentRequest) :
  footprint s (snd (DocumentRoutes.post_create s now req request)).
Proof.
  unfold DocumentRoutes.post_create.
  destruct (fst (X402.x402PaymentMiddleware req)) as [r|info]; [apply footprint_refl|].
  unfold DocumentRoutes.create_handler.
  destruct (negb (Js.truthy (title request))); [apply footprint_refl|].
  destruct (negb (Js.truthy (doc_format request)) || _); [apply footprint_refl|].
  destruct (Db.opt_eqb (doc_format request) "html" && _); [apply footprint_refl|].
  destruct (Db.opt_eqb (doc_format request) "pdf" && _); [apply footprint_refl|].
  destruct (req_recipients request) as [[|i0 inputs]|];
    [apply footprint_refl| |apply footprint_refl].
  destruct (DocumentRoutes.validateRecipients (i0 :: inputs)); [apply footprint_refl|].
  pose proof (createDocument_footprint s now request info) as F.
  destruct (DocumentService.createDocument s now request info) as [[res|] s1]; exact F.
Qed.

Lemma addFields_tables {E : Env} (fields : list DocumentRoutes.FieldInput) :
  forall (s : Store) (d : string),
    let s' := snd (DocumentRoutes.addFields s d fields) in
    recipients s' = recipients s /\ signatures s' = signatures s
    /\ audit_logs s' = audit_logs s.
Proof.
  induction fields as [|f rest IH]; intros s d; [repeat split|].
  simpl.
  match goal with
  | |- context [DocumentRoutes.addFields ?s1 d rest] =>
      specialize (IH s1 d); destruct (DocumentRoutes.addFields s1 d rest) as [more s2]
  end.
  simpl in *. exact IH.
Qed.

Lemma addRecipients_tables {E : Env} (inputs : list RecipientInput) :
  forall (s : Store) (now : timestamp) (d : string),
    let out := DocumentRoutes.addRecipients s now d inputs in
    signatures (snd out) = signatures s
    /\ audit_logs (snd out) = audit_logs s
    /\ recipients (snd out) = recipients s ++ fst out
    /\ Forall (fresh_recipient d) (fst out).
Proof.
  induction inputs as [|input rest IH]; intros s now d.
  - cbn. rewrite app_nil_r. repeat split. constructor.
  - simpl.
    match goal with
    | |- context [DocumentRoutes.addRecipients ?s1 now d rest] =>
        specialize (IH s1 now d);
        destruct (DocumentRoutes.addRecipients s1 now d rest) as [more s2]
    end.
    cbn [fst snd] in *. cbn [signatures audit_logs recipients
                               Db.set_recipients Db.fresh fst snd] in IH.
    destruct IH as (H1 & H2 & H3 & H4).
    rewrite H3, <- app_assoc. cbn [app].
    repeat split; try assumption.
    constructor; [|exact H4]. repeat split.
Qed.

Lemma put_fields_footprint {E : Env} (s : Store) (id : string)
    (fields : option (list DocumentRoutes.FieldInput)) :
  footprint s (snd (DocumentRoutes.put_fields s id fields)).
Proof.
  unfold DocumentRoutes.put_fields.
  destruct (DocumentService.getDocument s id) as [[[pkg rs] fs]|]; [|apply footprint_refl].
  destruct (negb (DocumentStatus_eqb (pkg_status pkg) st_draft)); [apply footprint_refl|].
  destruct fields as [l|]; [|apply footprint_refl].
  destruct (addFields_tables l s id) as (H1 & H2 & H3).
  destruct (DocumentRoutes.addFields s id l) as [created s1]. cbn [snd] in *.
  apply footprint_quiet; try assumption. exists []. now rewrite app_nil_r.
Qed.

Lemma put_recipients_footprint {E : Env} (s : Store) (now : timestamp) (id : string)
    (inputs : option (list RecipientInput)) :
  footprint s (snd (DocumentRoutes.put_recipients s now id inputs)).
Proof.
  unfold DocumentRoutes.put_recipients.
  destruct (DocumentService.getDocument s id) as [[[pkg rs] fs]|]; [|apply footprint_refl].
  destruct (negb (DocumentStatus_eqb (pkg_status pkg) st_draft)); [apply footprint_refl|].
  destruct inputs as [l|]; [|apply footprint_refl].
  destruct (addRecipients_tables l s now id) as (H1 & H2 & H3 & H4).
  destruct (DocumentRoutes.addRecipients s now id l) as [created s1]. cbn [fst snd] in *.
  split; [|split].
  - right. exists (fun _ => true). now rewrite filter_true.
  - left. now exists id, created.
  - exists []. now rewrite app_nil_r.
Qed.

Lemma distributeDocument_footprint {E : Env} (s : Store) (now : timestamp) (id : string) :
  footprint s (snd (DocumentService.distributeDocument s now id)).
Proof.
  unfold DocumentService.distributeDocument. cbn [Db.updatePackageStatus].
  match goal with |- context [match ?o with Some _ => _ | None => _ end] => destruct o end;
    cbn; apply footprint_quiet; try reflexivity.
  - eexists. reflexivity.
  - exists []. cbn. now rewrite app_nil_r.
Qed.

Lemma cancelDocument_footprint {E : Env} (s : Store) (now : timestamp) (id : string) :
  footprint s (snd (DocumentService.cancelDocument s now id)).
Proof.
  unfold DocumentService.cancelDocument. cbn [Db.updatePackageStatus].
  match goal with |- context [match ?o with Some _ => _ | None => _ end] => destruct o end;
    cbn; apply footprint_quiet; try reflexivity.
  - eexists. reflexivity.
  - exists []. cbn. now rewrite app_nil_r.
Qed.

Lemma post_distribute_footprint {E : Env} (s : Store) (now : timestamp) (id : string) :
  footprint s (snd (DocumentRoutes.post_distribute s now id)).
Proof.
  unfold DocumentRoutes.post_distribute.
  destruct (DocumentService.getDocument s id) as [[[pkg rs] fs]|]; [|apply footprint_refl].
  destruct (negb (DocumentStatus_eqb (pkg_status pkg) st_draft)); [apply footprint_refl|].
  destruct (List.length rs =? 0)%nat; [apply footprint_refl|].
  destruct (DocumentRoutes.signerWithoutFields rs fs); [apply footprint_refl|].
  pose proof (distributeDocument_footprint s now id) as F.
  destruct (DocumentService.distributeDocument s now id) as [u s1]. exact F.
Qed.

Lemma post_cancel_footprint {E : Env} (s : Store) (now : timestamp) (id : string)
    (walletAddress : option string) :
  footprint s (snd (DocumentRoutes.post_cancel s now id walletAddress)).
Proof.
  unfold DocumentRoutes.post_cancel.
  destruct (DocumentService.getDocument s id) as [[[pkg rs] fs]|]; [|apply footprint_refl].
  destruct (negb (DocumentRoutes.same_wallet _ _)); [apply footprint_refl|].
  destruct (negb (DocumentStatus_eqb (pkg_status pkg) st_pending)); [apply footprint_refl|].
  pose proof (cancelDocument_footprint s now id) as F.
  destruct (DocumentService.cancelDocument s now id) as [u s1]. exact F.
Qed.

Lemma get_session_footprint {E : Env} (s : Store) (now : timestamp) (req : Request)
    (token : string) (wallet : option string) :
  footprint s (snd (SigningRoutes.get_session s now req token wallet)).
Proof.
  unfold SigningRoutes.get_session.
  destruct (Db.getRecipientByToken s token) as [r|]; [|apply footprint_refl].
  destruct (DocumentService.getDocument s (rcp_package_id r)) as [[[pkg rs] fs]|];
    [|apply footprint_refl].
  destruct (DocumentStatus_eqb (pkg_status pkg) st_cancelled); [apply footprint_refl|].
  destruct (DocumentStatus_eqb (pkg_status pkg) st_completed); [apply footprint_refl|].
  cbn. apply footprint_quiet; try reflexivity. eexists. reflexivity.
Qed.

Lemma sign_field_footprint {E : Env} (s : Store) (now : timestamp) (req : Request)
    (token fieldId : string) (body : SignFieldRequest) :
  footprint s (snd (SigningRoutes.sign_field s now req token fieldId body)).
Proof.
  destruct (Nat.eq_dec (status (fst (SigningRoutes.sign_field s now req token fieldId body)))
              200) as [Hok|Hno].
  - destruct (sign_field_ok_inv s now req token fieldId body Hok)
      as (r & f & s2 & entry & Hmay & Hb & Heq).
    rewrite Heq. cbn [snd].
    destruct (sign_branch_recorded s s2 now r f fieldId body Hb)
      as (g & v & Hsigs & Hgid & _ & _ & Hrcp & _ & Hlog).
    destruct Hmay as (_ & _ & _ & Hnone).
    split; [|split].
    + left. exists g. split; [exact Hsigs|]. now rewrite Hgid.
    + right. right. exists (fun _ => true). rewrite filter_true. exact Hrcp.
    + eexists. cbn. rewrite Hlog. reflexivity.
  - rewrite (sign_field_error_keeps_store s now req token fieldId body Hno).
    apply footprint_refl.
Qed.

Lemma unsign_field_footprint {E : Env} (s : Store) (now : timestamp)
    (token fieldId : string) :
  footprint s (snd (SigningRoutes.unsign_field s now token fieldId)).
Proof.
  unfold SigningRoutes.unsign_field.
  destruct (Db.getRecipientByToken s token) as [r|]; [|apply footprint_refl].
  destruct (SigningStatus_eqb (rcp_signing_status r) sg_signed); [apply footprint_refl|].
  destruct (Db.getFieldById s fieldId) as [f|]; [|apply footprint_refl].
  destruct (negb (String.eqb (fld_recipient_id f) (rcp_id r))); [apply footprint_refl|].
  cbn. split; [|split].
  - right. eexists. reflexivity.
  - right. right. exists (fun _ => true). now rewrite filter_true.
  - eexists. reflexivity.
Qed.

Lemma checkAndCompleteDocument_footprint {E : Env} (s : Store) (now : timestamp)
    (d : string) :
  footprint s (snd (DocumentService.checkAndCompleteDocument s now d)).
Proof.
  destruct (checkAndCompleteDocument_quiet s now d) as [(H1 & H2 & H3) H4].
  now apply footprint_quiet.
Qed.

Lemma complete_signing_footprint {E : Env} (s : Store) (now : timestamp) (req : Request)
    (token : string) :
  footprint s (snd (SigningRoutes.complete_signing s now req token)).
Proof.
  destruct (Nat.eq_dec (status (fst (SigningRoutes.complete_signing s now req token))) 200)
    as [Hok|Hno].
  - destruct (complete_signing_ok_inv s now req token Hok) as (r & entry & _ & _ & Heq).
    cbv zeta in Heq. rewrite Heq. cbn [snd].
    match goal with
    | |- footprint s (snd (DocumentService.checkAndCompleteDocument ?s2 now ?d)) =>
        destruct (checkAndCompleteDocument_quiet s2 now d) as [(H1 & H2 & H3) H4]
    end.
    split; [|split].
    + right. exists (fun _ => true). rewrite filter_true. rewrite H3. reflexivity.
    + right. left. do 4 eexists. rewrite H1. reflexivity.
    + eapply audit_grows_trans; [|exact H4]. eexists. reflexivity.
  - unfold SigningRoutes.complete_signing in *.
    destruct (Db.getRecipientByToken s token) as [r|]; [|apply footprint_refl].
    match goal with |- context [if ?c then _ else _] => destruct c end;
      [apply footprint_refl|].
    exfalso. apply Hno.
    cbn [Db.updateRecipientStatus Db.createAuditLog Db.fresh].
    match goal with
    | |- context [DocumentService.checkAndCompleteDocument ?a ?n ?b] =>
        destruct (DocumentService.checkAndCompleteDocument a n b)
    end.
    reflexivity.
Qed.

Lemma deleteDocument_steps (s : Store) (d : string) :
  signatures_step s (DocumentService.deleteDocument s d)
  /\ recipients_step s (DocumentService.deleteDocument s d).
Proof.
  unfold signatures_step, recipients_step, DocumentService.deleteDocument,
    DocumentService.run_statements.
  cbn. split.
  - right. rewrite !filter_filter_and. eexists. reflexivity.
  - right. right. rewrite !filter_filter_and. eexists. reflexivity.
Qed.

Lemma delete_document_steps (s : Store) (id : string) (walletAddress : option string) :
  signatures_step s (snd (DocumentRoutes.delete_document s id walletAddress))
  /\ recipients_step s (snd (DocumentRoutes.delete_document s id walletAddress)).
Proof.
  destruct (delete_document_cases s id walletAddress) as [[_ Heq]|(_ & _ & Hs)].
  - rewrite Heq. apply deleteDocument_steps.
  - rewrite Hs. destruct (footprint_refl s) as (H1 & H2 & _). now split.
Qed.

Lemma step_footprint {E : Env} (s : Store) (op : Op) :
  signatures_step s (step s op) /\ recipients_step s (step s op)
  /\ (deletes op = false -> audit_grows s (step s op)).
Proof.
  assert (K : forall s', footprint s s' ->
                signatures_step s s' /\ recipients_step s s'
                /\ (deletes op = false -> audit_grows s s'))
    by (intros s' (H1 & H2 & H3); auto).
  destruct op as [| | | | |id w| | | | | | | | |id]; cbn [step].
  - apply K, post_create_footprint.
  - apply K, put_fields_footprint.
  - apply K, put_recipients_footprint.
  - apply K, post_distribute_footprint.
  - apply K, post_cancel_footprint.
  - destruct (delete_document_steps s id w) as [H1 H2].
    split; [exact H1|]. split; [exact H2|]. discriminate.
  - apply K, get_session_footprint.
  - apply K, sign_field_footprint.
  - apply K, unsign_field_footprint.
  - apply K, complete_signing_footprint.
  - apply K, createDocument_footprint.
  - apply K, distributeDocument_footprint.
  - apply K, cancelDocument_footprint.
  - apply K, checkAndCompleteDocument_footprint.
  - destruct (deleteDocument_steps s id) as [H1 H2].
    split; [exact H1|]. split; [exact H2|]. discriminate.
Qed.

(** ** Invariants of the runs *)

(** Selecting rows keeps their keys distinct. *)
Lemma NoDup_map_filter {Row Key} (key : Row -> Key) (keep : Row -> bool) (rows : list Row) :
  NoDup (map key rows) -> NoDup (map key (filter keep rows)).
Proof.
  induction rows as [|a rows IH]; simpl; intros H; [constructor|].
  inversion H as [|x r Hnot Hrest]; subst.
  destruct (keep a); simpl; [|now apply IH].
  constructor; [|now apply IH].
  intros Hin. apply Hnot. apply in_map_iff in Hin. destruct Hin as [y [Hy Hin]].
  apply in_map_iff. exists y. split; [exact Hy|]. apply filter_In in Hin. tauto.
Qed.

Lemma NoDup_snoc {A} (l : list A) (x : A) : NoDup l -> ~ In x l -> NoDup (l ++ [x]).
Proof.
  induction l as [|a l IH]; simpl; intros H Hx.
  - constructor; [intros []|constructor].
  - inversion H as [|y r Hnot Hrest]; subst. constructor.
    + rewrite in_app_iff. intros [Hin|[Heq|[]]]; [contradiction|].
      apply Hx. now left.
    + apply IH; [assumption|]. intros Hin. apply Hx. now right.
Qed.

Lemma signatures_step_keeps_one_per_field (s s' : Store) :
  signatures_step s s' -> one_signature_per_field s -> one_signature_per_field s'.
Proof.
  unfold one_signature_per_field. intros [(g & Heq & Hnone)|(p & Heq)] H; rewrite Heq.
  - rewrite map_app. cbn [map]. apply NoDup_snoc; [exact H|].
    intros Hin. apply in_map_iff in Hin. destruct Hin as [x [Hid Hx]].
    apply hd_error_filter_none in Hnone.
    pose proof (proj1 (filter_nil_iff _ _) Hnone x Hx) as Hb. cbv beta in Hb.
    rewrite Hid, String.eqb_refl in Hb. discriminate.
  - now apply NoDup_map_filter.
Qed.

Lemma recipients_step_keeps_stamps (s s' : Store) :
  recipients_step s s' -> signed_at_matches_status s -> signed_at_matches_status s'.
Proof.
  unfold signed_at_matches_status.
  intros [(d & created & Heq & Hfresh)|[(now & id & ip & ua & Heq)|(p & Heq)]] H r Hr;
    rewrite Heq in Hr.
  - apply in_app_iff in Hr. destruct Hr as [Hr|Hr]; [now apply H|].
    rewrite Forall_forall in Hfresh. destruct (Hfresh r Hr) as (_ & Hst & Hat).
    rewrite Hst, Hat. split; [intros K; now contradiction K | discriminate].
  - cbn in Hr. apply in_map_iff in Hr. destruct Hr as [x [<- Hx]].
    destruct (String.eqb (rcp_id x) id); [|now apply H].
    cbn. split; [reflexivity | discriminate].
  - apply filter_In in Hr. now apply H.
Qed.

(** X23.  However the service is driven - any sequence of route calls and of
    direct calls of the document service - a database in which no field
    has two signature rows stays so: a signature is only ever added for a
    field that has none. *)
Theorem field_never_signed_twice {E : Env} (ops : list Op) :
  forall s, one_signature_per_field s -> one_signature_per_field (run s ops).
Proof.
  unfold run. induction ops as [|op ops IH]; intros s H; simpl; [exact H|].
  apply IH. eapply signatures_step_keeps_one_per_field; [|exact H].
  apply step_footprint.
Qed.

Lemma field_never_signed_twice_witness :
  one_signature_per_field Sample.pending_unsigned
  /\ one_signature_per_field
       (run (E := Sample.env_ok) Sample.pending_unsigned
          [SignField 30%Z Sample.plain_request "tok1" "f1" Sample.typed_and_drawn_body;
           SignField 31%Z Sample.plain_request "tok1" "f1" Sample.typed_and_drawn_body;
           SignField 32%Z Sample.plain_request "tok1" "f2" (Sample.value_body "x")]).
Proof.
  assert (H : one_signature_per_field Sample.pending_unsigned) by constructor.
  exact (conj H (field_never_signed_twice (E := Sample.env_ok) _ _ H)).
Defined.

(** X24.  However the service is driven, a recipient row has a signing time
    exactly when its status is signed: rows are inserted pending without
    a time, and the only update marks a recipient signed and stamps it. *)
Theorem recipient_signed_at_iff_signed {E : Env} (ops : list Op) :
  forall s, signed_at_matches_status s -> signed_at_matches_status (run s ops).
Proof.
  unfold run. induction ops as [|op ops IH]; intros s H; simpl; [exact H|].
  apply IH. eapply recipients_step_keeps_stamps; [|exact H].
  apply step_footprint.
Qed.

Lemma recipient_signed_at_iff_signed_witness :
  signed_at_matches_status empty_store
  /\ signed_at_matches_status
       (run (E := Sample.env_ok) empty_store
          [CreateDocument 5%Z Sample.paying_request Sample.nda_request;
           ServiceDistribute 6%Z "id-0";
           CompleteSigning 8%Z Sample.plain_request "id-1"]).
Proof.
  assert (H : signed_at_matches_status empty_store) by (intros r []).
  exact (conj H (recipient_signed_at_iff_signed (E := Sample.env_ok) _ _ H)).
Defined.

(** X25.  The audit trail is append-only under every operation but the
    deletion of a document: a run without deletions leaves every earlier
    entry in place and in order, and only adds entries at the end. *)
Theorem audit_trail_append_only {E : Env} (ops : list Op) :
  forall s, forallb (fun op => negb (deletes op)) ops = true ->
            audit_grows s (run s ops).
Proof.
  unfold run. induction ops as [|op ops IH]; intros s H; simpl.
  - apply audit_grows_refl.
  - simpl in H. apply andb_true_iff in H. destruct H as [Hop Hrest].
    apply negb_true_iff in Hop.
    eapply audit_grows_trans; [|apply IH; exact Hrest].
    now apply step_footprint.
Qed.

Lemma audit_trail_append_only_witness :
  audit_grows Sample.pending_unsigned
    (run (E := Sample.env_ok) Sample.pending_unsigned
       [SignField 30%Z Sample.plain_request "tok1" "f1" Sample.typed_and_drawn_body;
        UnsignField 31%Z "tok1" "f1";
        Cancel 32%Z "doc1" (Some "0xowner")]).
Proof.
  apply (audit_trail_append_only (E := Sample.env_ok)). reflexivity.
Defined.

(** ** The inbox *)

Lemma In_getRecipientsByWallet (s : Store) (w : string) (r : Recipient)
    (p : SignaturePackage) :
  In (r, p) (Db.getRecipientsByWallet s w)
  <-> In r (recipients s) /\ In p (signature_packages s)
      /\ pkg_id p = rcp_package_id r
      /\ rcp_wallet_address r = Some w
      /\ rcp_signing_status r = sg_pending
      /\ pkg_status p = st_pending.
Proof.
  unfold Db.getRecipientsByWallet. rewrite In_sort_by, in_flat_map. split.
  - intros (r' & Hr & Hin). apply in_map_iff in Hin. destruct Hin as (p' & Heq & Hp).
    injection Heq as -> ->.
    apply filter_In in Hr. destruct Hr as [Hr Hb].
    apply andb_true_iff in Hb. destruct Hb as [Hw Hst].
    apply filter_In in Hp. destruct Hp as [Hp Hb].
    apply andb_true_iff in Hb. destruct Hb as [Hid Hps].
    apply opt_eqb_true in Hw. apply SigningStatus_eqb_eq in Hst.
    apply String.eqb_eq in Hid. apply DocumentStatus_eqb_eq in Hps. tauto.
  - intros (Hr & Hp & Hid & Hw & Hst & Hps). exists r. split.
    + apply filter_In. split; [exact Hr|]. apply andb_true_iff. split.
      * now apply opt_eqb_true.
      * now apply SigningStatus_eqb_eq.
    + apply in_map_iff. exists p. split; [reflexivity|].
      apply filter_In. split; [exact Hp|]. apply andb_true_iff. split.
      * now apply String.eqb_eq.
      * now apply DocumentStatus_eqb_eq.
Qed.

(** X26.  The inbox of a wallet is refused unless the address starts with
    [0x]; otherwise it lists exactly the recipient rows that carry the
    address as written (the comparison is case-sensitive), are pending,
    and belong to a pending document; every entry discloses the signing
    token of its recipient, and the pending count is the number of
    entries. *)
Theorem inbox_lists_pending_work {E : Env} (s : Store) (now : timestamp)
    (walletAddress : string) :
  (String.prefix "0x" walletAddress = false ->
   InboxRoutes.get_inbox s now walletAddress
   = InboxRoutes.Refused 400 "Invalid wallet address format")
  /\ (String.prefix "0x" walletAddress = true ->
      exists hasKYC names documents,
        InboxRoutes.get_inbox s now walletAddress
        = InboxRoutes.Inbox walletAddress hasKYC names (List.length documents) documents
        /\ forall d,
             In d documents
             <-> exists r p,
                   In r (recipients s) /\ In p (signature_packages s)
                   /\ pkg_id p = rcp_package_id r
                   /\ rcp_wallet_address r = Some walletAddress
                   /\ rcp_signing_status r = sg_pending
                   /\ pkg_status p = st_pending
                   /\ InboxRoutes.ib_id d = rcp_package_id r
                   /\ InboxRoutes.ib_title d = pkg_title p
                   /\ InboxRoutes.ib_signingToken d = rcp_token r
                   /\ d = InboxRoutes.inboxDocument (r, p)).
Proof.
  unfold InboxRoutes.get_inbox. split; intros Hp; rewrite Hp; cbn [negb]; [reflexivity|].
  do 3 eexists. split; [reflexivity|]. intros d. rewrite in_map_iff. split.
  - intros ([r p] & <- & Hin). apply In_getRecipientsByWallet in Hin.
    exists r, p. cbn. tauto.
  - intros (r & p & H1 & H2 & H3 & H4 & H5 & H6 & _ & _ & _ & ->).
    exists (r, p). split; [reflexivity|]. apply In_getRecipientsByWallet. tauto.
Qed.

Lemma inbox_lists_pending_work_witness :
  String.prefix "0x" "0xalice" = true
  /\ exists hasKYC names documents,
       InboxRoutes.get_inbox (E := Sample.env_ok) Sample.pending_unsigned 30%Z "0xalice"
       = InboxRoutes.Inbox "0xalice" hasKYC names (List.length documents) documents.
Proof.
  destruct (proj2 (inbox_lists_pending_work (E := Sample.env_ok) Sample.pending_unsigned
                     30%Z "0xalice") eq_refl) as (k & names & docs & Heq & _).
  exact (conj eq_refl (ex_intro _ k (ex_intro _ names (ex_intro _ docs Heq)))).
Defined.




(** ** Downloading a document *)





Lemma In_chars_app (c : ascii) (a b : string) :
  In c (list_ascii_of_string (a +++ b))
  <-> In c (list_ascii_of_string a) \/ In c (list_ascii_of_string b).
Proof.
  induction a as [|x r IH]; simpl; [tauto|]. rewrite IH. tauto.
Qed.




(** ** Escaping text for HTML *)

Lemma escapeHtml_cons (x : ascii) (r : string) :
  Html.escapeHtml (String x r) = entity x +++ Html.escapeHtml r.
Proof.
  unfold Html.escapeHtml, entity.
  destruct (Ascii.eqb x Html.amp) eqn:H1.
  { apply Ascii.eqb_eq in H1. subst x. reflexivity. }
  destruct (Ascii.eqb x Html.lt) eqn:H2.
  { apply Ascii.eqb_eq in H2. subst x. reflexivity. }
  destruct (Ascii.eqb x Html.gt) eqn:H3.
  { apply Ascii.eqb_eq in H3. subst x. reflexivity. }
  destruct (Ascii.eqb x Html.quot) eqn:H4.
  { apply Ascii.eqb_eq in H4. subst x. reflexivity. }
  destruct (Ascii.eqb x Html.apos) eqn:H5.
  { apply Ascii.eqb_eq in H5. subst x. reflexivity. }
  cbn [Html.replace_all_char]. rewrite H1.
  cbn [Html.replace_all_char]. rewrite H2.
  cbn [Html.replace_all_char]. rewrite H3.
  cbn [Html.replace_all_char]. rewrite H4.
  cbn [Html.replace_all_char]. rewrite H5.
  reflexivity.
Qed.

(** X29.  [escapeHtml] replaces every character of its argument by the entity
    of that character, once: the ampersands that the later replacements
    bring in are not escaped again, because ampersands are replaced
    first.  The result therefore holds no angle bracket and no quote,
    and a text without the five special characters is returned as it
    is. *)
Theorem escapeHtml_escapes_each_character (str : string) :
  Html.escapeHtml str = escape_each str
  /\ (forall c, In c (list_ascii_of_string (Html.escapeHtml str)) ->
        c <> Html.lt /\ c <> Html.gt /\ c <> Html.quot /\ c <> Html.apos)
  /\ ((forall c, In c (list_ascii_of_string str) ->
         c <> Html.amp /\ c <> Html.lt /\ c <> Html.gt /\ c <> Html.quot /\ c <> Html.apos) ->
      Html.escapeHtml str = str).
Proof.
  induction str as [|x r (IH1 & IH2 & IH3)].
  - split; [reflexivity|]. split; [intros c [] | reflexivity].
  - rewrite escapeHtml_cons. split; [|split].
    + cbn [escape_each]. now rewrite IH1.
    + intros c Hc. apply In_chars_app in Hc. destruct Hc as [Hc|Hc]; [|now apply IH2].
      unfold entity in Hc.
      destruct (Ascii.eqb x Html.amp) eqn:H1;
        [|destruct (Ascii.eqb x Html.lt) eqn:H2;
          [|destruct (Ascii.eqb x Html.gt) eqn:H3;
            [|destruct (Ascii.eqb x Html.quot) eqn:H4;
              [|destruct (Ascii.eqb x Html.apos) eqn:H5]]]];
        simpl in Hc;
        repeat match goal with
               | H : _ \/ _ |- _ => destruct H as [<-|H]
               | H : False |- _ => destruct H
               end;
        try (repeat split; discriminate).
      apply Ascii.eqb_neq in H2, H3, H4, H5. tauto.
    + intros Hplain.
      assert (Hx : entity x = String x EmptyString).
      { destruct (Hplain x (or_introl eq_refl)) as (K1 & K2 & K3 & K4 & K5).
        apply Ascii.eqb_neq in K1, K2, K3, K4, K5.
        unfold entity. now rewrite K1, K2, K3, K4, K5. }
      rewrite Hx, IH3; [reflexivity|]. intros c Hc. apply Hplain. now right.
Qed.

Lemma escapeHtml_escapes_each_character_witness :
  Html.escapeHtml "Tom & <b>Jerry</b>" = "Tom &amp; &lt;b&gt;Jerry&lt;/b&gt;"
  /\ Html.escapeHtml "&lt;" = "&amp;lt;".
Proof.
  exact (conj (proj1 (escapeHtml_escapes_each_character "Tom & <b>Jerry</b>"))
           (proj1 (escapeHtml_escapes_each_character "&lt;"))).
Defined.

(** ** Wrapping list items *)

Lemma wrap_loop (elements : list string) :
  forall (acc : list string) (inList : bool),
    (let '(result, open) := fold_left Html.wrap_step elements (acc, inList) in
     if open then result ++ ["</ul>"] else result)
    = acc ++ wrap_from inList elements.
Proof.
  induction elements as [|el rest IH]; intros acc inList.
  - cbn. destruct inList; [reflexivity | now rewrite app_nil_r].
  - cbn [fold_left Html.wrap_step wrap_from]. unfold is_item, indent.
    destruct (String.prefix "<li>" el); destruct inList; cbn [negb];
      rewrite IH, <- ?app_assoc; reflexivity.
Qed.

Lemma wrap_from_runs (elements : list string) :
  Wrapped elements (wrap_from false elements)
  /\ exists items rest out,
       elements = items ++ rest
       /\ Forall (fun el => is_item el = true) items
       /\ match rest with [] => True | el :: _ => is_item el = false end
       /\ Wrapped rest out
       /\ wrap_from true elements = map indent items ++ "</ul>" :: out.
Proof.
  induction elements as [|el l (IH1 & items & rest & out & Hl & Hitems & Hrest & Hw & Heq)].
  - split; [constructor|]. exists [], [], []. repeat split; constructor.
  - cbn [wrap_from]. destruct (is_item el) eqn:Hel.
    + split.
      * rewrite Heq, Hl. cbn [app].
        apply (Wrapped_list (el :: items) rest out); try assumption; [discriminate|].
        now constructor.
      * exists (el :: items), rest, out. rewrite Heq, Hl.
        repeat split; try assumption. now constructor.
    + split.
      * cbn [app]. now constructor.
      * exists [], (el :: l), (el :: wrap_from false l).
        repeat split; try assumption; [constructor|]. now constructor.
Qed.

(** X30.  The lines [wrapListItems] joins are its elements with every maximal
    run of consecutive [<li>] elements put between one [<ul>] and one
    [</ul>] line, the items indented by two spaces, everything else
    unchanged and in order; a list still open at the end is closed.  The
    result is these lines, each indented by two more spaces, joined by
    newlines. *)
Theorem wrapListItems_wraps_runs (elements : list string) :
  Wrapped elements (Html.wrapListItems_lines elements)
  /\ Html.wrapListItems elements
     = Js.join Html.newline (map indent (Html.wrapListItems_lines elements)).
Proof.
  split; [|reflexivity].
  unfold Html.wrapListItems_lines.
  pose proof (wrap_loop elements [] false) as H. cbn [app] in H.
  destruct (fold_left Html.wrap_step elements ([], false)) as [result open].
  rewrite H. apply wrap_from_runs.
Qed.

Lemma wrapListItems_wraps_runs_witness :
  Wrapped ["<h2>Terms</h2>"; "<li>one</li>"; "<li>two</li>"; "<p>end</p>"; "<li>last</li>"]
    ["<h2>Terms</h2>"; "<ul>"; "  <li>one</li>"; "  <li>two</li>"; "</ul>"; "<p>end</p>";
     "<ul>"; "  <li>last</li>"; "</ul>"].
Proof.
  exact (proj1 (wrapListItems_wraps_runs
                  ["<h2>Terms</h2>"; "<li>one</li>"; "<li>two</li>"; "<p>end</p>";
                   "<li>last</li>"])).
Defined.
